(** * SDK sniffer toggle of config/plugins/mlnx.py

    A shallow embedding of the sniffer part of [config/plugins/mlnx.py]:
    the three editors of the staging file ([env_variable_write],
    [env_variable_read], [env_variable_delete]), the transport helpers
    ([conf_file_copy], [conf_file_receive], [config_file_send]), the
    orchestrator [sniffer_env_variable_set], [restart_swss] and the two
    entry points [sdk_sniffer_enable] and [sdk_sniffer_disable].

    Conventions of the model.
    - A file is its bytes, a [string].  The program opens its files in
      text mode with the default arguments: a read decodes the bytes in
      the encoding of the locale, taken to be UTF-8 (as on the switch,
      and as Python has it under the C locale too), and raises
      [UnicodeDecodeError] when they are not valid; it ends a line at
      LF, CR and CR LF and presents each as LF ([PyStr.decode]).  A
      file is decoded in one chunk: the fragment is far smaller than
      the chunk the stream reads.  [readlines] gives [PyStr.lines] of
      the decoded text; an iteration gives the same lines one by one,
      and meets a character cut short by the end of the file only when
      it gets there ([PyStr.stream_lines]).  A text is identified with
      its UTF-8 bytes, on which [find] and equality of lines agree
      with those on characters; successive [write] calls concatenate,
      the line feed being written as it is.
    - The program runs in a [World]: the fragment inside the container,
      the local staging file, the directories that exist, the clock, and
      the outcomes the environment will give to the next external
      commands.
      Every effect is appended to [trace], in program order.
    - [os.path.exists] is answered from the paths the world lists, and
      [os.makedirs] succeeds or raises as the world says.
    - [clicommon.run_command] is not part of the modelled sources.  It is
      taken as an oracle: each call consumes one [cmd_result], which is
      either success (the command's effect on the files happens) or an
      exception.  [OSError] is the class [restart_swss] catches;
      [FatalError] stands for any other exception (for instance the exit
      raised on a non-zero status).

    Beyond the toggle, the development covers the commands of the sdk
    group (module [Cli]), the module host management commands (module
    [Im]) and the show commands of [show/syslog.py] (module [Syslog]). *)

From Stdlib Require Import String Ascii List ZArith Lia Bool Permutation.
Import ListNotations.
Open Scope string_scope.

(** ** Python's string and text-file primitives *)

Module PyStr.

(** The line terminator, and the carriage return. *)
Definition NL : ascii := "010"%char.
Definition CR : ascii := "013"%char.

(** [s.startswith(p)] *)
Fixpoint startswith (s p : string) {struct p} : bool :=
  match p with
  | EmptyString => true
  | String a p' =>
      match s with
      | EmptyString => false
      | String b s' => Ascii.eqb a b && startswith s' p'
      end
  end.

(** [s.find(sub)]: the lowest index where [sub] occurs, or [-1]. *)
Fixpoint find_from (s sub : string) (i : Z) : Z :=
  if startswith s sub then i
  else match s with
       | EmptyString => (-1)%Z
       | String _ s' => find_from s' sub (i + 1)%Z
       end.

Definition find (s sub : string) : Z := find_from s sub 0%Z.

(** The lines of a text, each with its terminator (the last one may
    lack it): what [for line in f] and [f.readlines()] produce from the
    decoded text of a file. *)
Fixpoint lines (s : string) : list string :=
  match s with
  | EmptyString => []
  | String c s' =>
      if Ascii.eqb c NL then String c EmptyString :: lines s'
      else match lines s' with
           | [] => [String c EmptyString]
           | l :: ls => String c l :: ls
           end
  end.

(** The text produced by writing the given strings one after another. *)
Definition join (ls : list string) : string :=
  fold_right append EmptyString ls.

(** No line feed occurs in [s]. *)
Fixpoint no_newline (s : string) : bool :=
  match s with
  | EmptyString => true
  | String c s' => negb (Ascii.eqb c NL) && no_newline s'
  end.

(** No carriage return occurs in [s]. *)
Fixpoint no_cr (s : string) : bool :=
  match s with
  | EmptyString => true
  | String c s' => negb (Ascii.eqb c CR) && no_cr s'
  end.

(** [sub] occurs in [s]. *)
Definition occurs_in (sub s : string) : Prop :=
  exists pre post, s = pre ++ sub ++ post.

(** [s] is empty or ends in a line feed. *)
Fixpoint terminated (s : string) : bool :=
  match s with
  | EmptyString => true
  | String c s' =>
      match s' with
      | EmptyString => Ascii.eqb c NL
      | String _ _ => terminated s'
      end
  end.

(** *** Text mode *)

(** Universal newlines, the default of [open]: on input CR LF and a
    lone CR are presented as LF. *)
Fixpoint universal_newlines (s : string) : string :=
  match s with
  | EmptyString => EmptyString
  | String c s' =>
      if Ascii.eqb c CR then
        match s' with
        | EmptyString => String NL EmptyString
        | String c' _ =>
            if Ascii.eqb c' NL then universal_newlines s'
            else String NL (universal_newlines s')
        end
      else String c (universal_newlines s')
  end.

(** The strict UTF-8 decoder, as CPython has it, as an automaton on the
    bytes: the state says which bytes may continue the character begun.
    Overlong forms, surrogates and code points above U+10FFFF are
    refused, and so is a character cut short by the end of the file.
    The first two bytes of a surrogate are refused once a byte follows
    them, or the file ends. *)
Inductive utf8_state : Type :=
| Start            (* between two characters *)
| Tail1            (* one continuation byte to come *)
| Tail2            (* two continuation bytes to come *)
| Tail3            (* three continuation bytes to come *)
| AfterE0          (* A0..BF, then one more *)
| AfterED          (* 80..9F, then one more *)
| AfterF0          (* 90..BF, then two more *)
| AfterF4          (* 80..8F, then two more *)
| Surrogate.       (* ED A0..BF: no byte may follow *)

Definition in_range (lo hi : nat) (c : ascii) : bool :=
  (lo <=? nat_of_ascii c)%nat && (nat_of_ascii c <=? hi)%nat.

Definition utf8_step (st : utf8_state) (c : ascii) : option utf8_state :=
  match st with
  | Start =>
      if in_range 0 127 c then Some Start
      else if in_range 194 223 c then Some Tail1
      else if in_range 224 224 c then Some AfterE0
      else if in_range 225 236 c then Some Tail2
      else if in_range 237 237 c then Some AfterED
      else if in_range 238 239 c then Some Tail2
      else if in_range 240 240 c then Some AfterF0
      else if in_range 241 243 c then Some Tail3
      else if in_range 244 244 c then Some AfterF4
      else None
  | Tail1 => if in_range 128 191 c then Some Start else None
  | Tail2 => if in_range 128 191 c then Some Tail1 else None
  | Tail3 => if in_range 128 191 c then Some Tail2 else None
  | AfterE0 => if in_range 160 191 c then Some Tail1 else None
  | AfterED =>
      if in_range 128 159 c then Some Tail1
      else if in_range 160 191 c then Some Surrogate
      else None
  | AfterF0 => if in_range 144 191 c then Some Tail2 else None
  | AfterF4 => if in_range 128 143 c then Some Tail2 else None
  | Surrogate => None
  end.

Fixpoint utf8_run (st : utf8_state) (s : string) : option utf8_state :=
  match s with
  | EmptyString => Some st
  | String c s' =>
      match utf8_step st c with
      | Some st' => utf8_run st' s'
      | None => None
      end
  end.

Definition valid_utf8 (s : string) : bool :=
  match utf8_run Start s with
  | Some Start => true
  | _ => false
  end.

(** What reading a text-mode stream over the bytes [s] gives: the text,
    or nothing when the read raises [UnicodeDecodeError]. *)
Definition decode (s : string) : option string :=
  if valid_utf8 s then Some (universal_newlines s) else None.

(** The lines the program sees in a file with the bytes [s]. *)
Definition text_lines (s : string) : list string :=
  lines (universal_newlines s).

(** *** Reading line by line

    A stream that is iterated decodes the bytes it has read, here the
    whole file, and gives the lines that are complete as they are asked
    for; it reads on, and finds the end of the file, only when asked
    for a line it does not hold yet.  Bytes that are no UTF-8 make the
    decoding of the chunk raise, before any line is given.  The bytes
    of a character that the end of the file cuts short (the automaton
    is not back at [Start]) are kept for the next read, and so is a CR
    at the end of what was decoded, which may be the first half of
    CR LF: the error of the cut character is raised when the end of the
    file is reached. *)

Definition is_start (st : utf8_state) : bool :=
  match st with Start => true | _ => false end.

(** The bytes of [s] up to the end of its last complete character, for
    a decoder in the state [st]. *)
Fixpoint complete_characters (st : utf8_state) (s : string) : string :=
  match s with
  | EmptyString => EmptyString
  | String c s' =>
      match utf8_step st c with
      | None => EmptyString
      | Some st' =>
          let d := complete_characters st' s' in
          if is_start st' || negb (d =? EmptyString) then String c d
          else EmptyString
      end
  end.

(** [s] without the CR it ends in, if it ends in one. *)
Fixpoint without_final_cr (s : string) : string :=
  match s with
  | EmptyString => EmptyString
  | String c s' =>
      match s' with
      | EmptyString => if Ascii.eqb c CR then EmptyString else s
      | String _ _ => String c (without_final_cr s')
      end
  end.

(** The lines an iteration over the bytes [s] gives, and whether it
    ends with [UnicodeDecodeError] instead of the end of the file. *)
Definition stream_lines (s : string) : list string * bool :=
  match utf8_run Start s with
  | None => ([], true)
  | Some Start => (lines (universal_newlines s), false)
  | Some _ =>
      (filter terminated
         (lines (universal_newlines
                   (without_final_cr (complete_characters Start s)))),
       true)
  end.

End PyStr.
Import PyStr.

(** ** Module constants (lines 39-56 of mlnx.py) *)

Definition ENV_VARIABLE_SX_SNIFFER : string := "SX_SNIFFER_ENABLE".
Definition ENV_VARIABLE_SX_SNIFFER_TARGET : string := "SX_SNIFFER_TARGET".

Definition SDK_SNIFFER_TARGET_PATH : string := "/var/log/sdk_dbg/".
Definition SDK_SNIFFER_FILENAME_PREFIX : string := "sx_sdk_sniffer_".
Definition SDK_SNIFFER_FILENAME_EXT : string := ".pcap".

Definition TMP_SNIFFER_CONF_FILE : string := "/tmp/tmp.conf".
Definition CONTAINER_NAME : string := "syncd".
Definition SNIFFER_CONF_FILE : string := "/etc/supervisor/conf.d/mlnx_sniffer.conf".
Definition SNIFFER_CONF_FILE_IN_CONTAINER : string :=
  CONTAINER_NAME ++ ":" ++ SNIFFER_CONF_FILE.
Definition COMMAND_RESTART_SWSS : list string :=
  ["systemctl"; "restart"; "swss.service"].

(** The section header [env_variable_write] puts in an empty file. *)
Definition PROGRAM_HEADER : string := "[program:syncd]" ++ String NL "".

(** ** The world and its effects *)

Inductive exn : Type :=
| OSError (msg : string)
| FatalError (msg : string).

(** What a read raises on bytes that do not decode; it is a
    [ValueError], not an [OSError]. *)
Definition UNICODE_DECODE_ERROR : exn := FatalError "UnicodeDecodeError".

Inductive cmd_result : Type :=
| CmdOk
| CmdRaise (e : exn).

Inductive open_mode : Type := ModeRead | ModeAppend | ModeReadWrite.

Inductive event : Type :=
| EvMakedirs (path : string)
| EvRun (argv : list string) (r : cmd_result)
| EvOpen (path : string) (mode : open_mode)
| EvEcho (msg : string)
| EvLogError (msg : string).

Record World : Type := mkWorld {
  remote : option string;        (* the fragment in the container *)
  staging : option string;       (* /tmp/tmp.conf *)
  dirs : list string;            (* the paths os.path.exists finds *)
  makedirs_outcome : cmd_result; (* what os.makedirs will do *)
  now : string;                  (* time.strftime("%Y%m%d%H%M%S") *)
  outcomes : list cmd_result;    (* what the next commands will do *)
  trace : list event             (* effects so far, oldest first *)
}.

Definition set_remote (r : option string) (w : World) : World :=
  mkWorld r (staging w) (dirs w) (makedirs_outcome w) (now w) (outcomes w)
          (trace w).
Definition set_staging (s : option string) (w : World) : World :=
  mkWorld (remote w) s (dirs w) (makedirs_outcome w) (now w) (outcomes w)
          (trace w).
Definition add_dir (path : string) (w : World) : World :=
  mkWorld (remote w) (staging w) (path :: dirs w) (makedirs_outcome w)
          (now w) (outcomes w) (trace w).
Definition set_outcomes (o : list cmd_result) (w : World) : World :=
  mkWorld (remote w) (staging w) (dirs w) (makedirs_outcome w) (now w) o
          (trace w).
Definition emit (e : event) (w : World) : World :=
  mkWorld (remote w) (staging w) (dirs w) (makedirs_outcome w) (now w)
          (outcomes w) (trace w ++ [e]).

(** [os.path.exists(path)] *)
Definition path_exists (path : string) (w : World) : bool :=
  existsb (String.eqb path) (dirs w).

(** Does /var/log/sdk_dbg/ exist. *)
Definition target_dir (w : World) : bool :=
  path_exists SDK_SNIFFER_TARGET_PATH w.

Arguments path_exists : simpl never.
Arguments target_dir : simpl never.

(** The content of the fragment; a fragment that does not exist yet has
    no content. *)
Definition fragment (w : World) : string :=
  match remote w with Some c => c | None => EmptyString end.

(** *** A state and exception monad *)

Inductive result (A : Type) : Type :=
| Ret (a : A)
| Raise (e : exn).
Arguments Ret {A} a.
Arguments Raise {A} e.

Definition M (A : Type) : Type := World -> result A * World.

Definition ret {A} (a : A) : M A := fun w => (Ret a, w).
Definition raise {A} (e : exn) : M A := fun w => (Raise e, w).
Definition bind {A B} (m : M A) (k : A -> M B) : M B :=
  fun w => match m w with
           | (Ret a, w') => k a w'
           | (Raise e, w') => (Raise e, w')
           end.
Definition effect (f : World -> World) : M unit := fun w => (Ret tt, f w).

Notation "x <- m ;; k" := (bind m (fun x => k))
  (at level 61, m at next level, right associativity).
Notation "m ;;; k" := (bind m (fun _ => k))
  (at level 61, right associativity).

(** [try: m  except OSError as e: h (str e)] *)
Definition try_except_OSError {A} (m : M A) (h : string -> M A) : M A :=
  fun w => match m w with
           | (Raise (OSError msg), w') => h msg w'
           | other => other
           end.

Definition echo (msg : string) : M unit := effect (emit (EvEcho msg)).
Definition log_error (msg : string) : M unit := effect (emit (EvLogError msg)).

(** *** External commands *)

(** What a command does to the files when it succeeds; [None] when it
    cannot succeed (its source file is missing) or is not one of the
    commands this program issues. *)
Definition read_location (p : string) (w : World) : option string :=
  if (p =? SNIFFER_CONF_FILE_IN_CONTAINER) then remote w
  else if (p =? TMP_SNIFFER_CONF_FILE) then staging w
  else None.

Definition write_location (p : string) (c : string) (w : World) : option World :=
  if (p =? SNIFFER_CONF_FILE_IN_CONTAINER) then Some (set_remote (Some c) w)
  else if (p =? TMP_SNIFFER_CONF_FILE) then Some (set_staging (Some c) w)
  else None.

Definition command_effect (argv : list string) (w : World) : option World :=
  match argv with
  | [a0; a1; a2; a3; a4; a5] =>
      if (a0 =? "docker") && (a1 =? "exec") && (a2 =? CONTAINER_NAME)
         && (a3 =? "bash") && (a4 =? "-c")
         && (a5 =? "touch " ++ SNIFFER_CONF_FILE)
      then Some (set_remote (Some (fragment w)) w)
      else None
  | [a0; a1; src; dest] =>
      if (a0 =? "docker") && (a1 =? "cp") then
        match read_location src w with
        | Some c => write_location dest c w
        | None => None
        end
      else None
  | [a0; a1; a2] =>
      if (a0 =? "rm") && (a1 =? "-rf") && (a2 =? TMP_SNIFFER_CONF_FILE)
      then Some (set_staging None w)
      else if (a0 =? "systemctl") && (a1 =? "restart") && (a2 =? "swss.service")
      then Some w
      else None
  | _ => None
  end.

(** The outcome the environment gives to the next command; an exhausted
    schedule means success. *)
Definition next_outcome (w : World) : cmd_result * World :=
  (hd CmdOk (outcomes w), set_outcomes (tl (outcomes w)) w).

(** [clicommon.run_command(command)] *)
Definition run_command (argv : list string) : M unit :=
  fun w =>
    let (o, w1) := next_outcome w in
    match o with
    | CmdRaise e => (Raise e, emit (EvRun argv (CmdRaise e)) w1)
    | CmdOk =>
        match command_effect argv w1 with
        | Some w2 => (Ret tt, emit (EvRun argv CmdOk) w2)
        | None =>
            let e := FatalError "command failed" in
            (Raise e, emit (EvRun argv (CmdRaise e)) w1)
        end
    end.

(** *** The staging file as the program opens it *)

(** [open(TMP_SNIFFER_CONF_FILE, 'r')] and ['r+']: the file must exist;
    the result is its bytes, which the stream has yet to decode. *)
Definition open_existing (mode : open_mode) : M string :=
  fun w =>
    let w1 := emit (EvOpen TMP_SNIFFER_CONF_FILE mode) w in
    match staging w with
    | Some c => (Ret c, w1)
    | None => (Raise (OSError "No such file or directory"), w1)
    end.

(** [open(TMP_SNIFFER_CONF_FILE, 'a')]: the file is created when missing. *)
Definition open_append : M string :=
  fun w =>
    let c := match staging w with Some c => c | None => EmptyString end in
    (Ret c, emit (EvOpen TMP_SNIFFER_CONF_FILE ModeAppend)
                 (set_staging (Some c) w)).

(** Reading the stream over the bytes [c] to the end of the file, as
    [readlines] does: the decoded text, or [UnicodeDecodeError]. *)
Definition read_text (c : string) : M string :=
  match decode c with
  | Some text => ret text
  | None => raise UNICODE_DECODE_ERROR
  end.

Definition store (c : string) : M unit := effect (set_staging (Some c)).

(** [os.makedirs(path)] *)
Definition makedirs (path : string) : M unit :=
  fun w =>
    match makedirs_outcome w with
    | CmdOk => (Ret tt, emit (EvMakedirs path) (add_dir path w))
    | CmdRaise e => (Raise e, w)
    end.

(** ** The program *)

(** [sniffer_filename_generate] (lines 63-68) *)
Definition sniffer_filename_generate (path filename_prefix filename_ext : string)
  : M string :=
  (fun w => (if negb (path_exists path w) then makedirs path else ret tt) w) ;;;
  (fun w =>
     let time_stamp := now w in
     (Ret (path ++ filename_prefix ++ time_stamp ++ filename_ext), w)).

(** [env_variable_write] (lines 72-77) *)
Definition env_variable_write (env_variable_string : string) : M unit :=
  c <- open_append ;;
  store (if (c =? EmptyString)
         then PROGRAM_HEADER ++ env_variable_string
         else c ++ env_variable_string).

(** The test of line 83: [env_variable_string.find(env_variable_name) >= 0]. *)
Definition mentions (env_variable_string env_variable_name : string) : bool :=
  (0 <=? find env_variable_string env_variable_name)%Z.

(** The line the [for ... break ... else] loop of [env_variable_read]
    ends with over the lines [ls]. *)
Fixpoint first_line_with (env_variable_name : string) (ls : list string)
  : string :=
  match ls with
  | [] => EmptyString
  | env_variable_string :: ls' =>
      if mentions env_variable_string env_variable_name
      then env_variable_string
      else first_line_with env_variable_name ls'
  end.

(** The loop over the lines a stream gives, which raises where the lines
    end when [failure] is set (lines 82-86). *)
Fixpoint read_loop (env_variable_name : string) (ls : list string)
  (failure : bool) : M string :=
  match ls with
  | [] => if failure then raise UNICODE_DECODE_ERROR else ret EmptyString
  | env_variable_string :: ls' =>
      if mentions env_variable_string env_variable_name
      then ret env_variable_string
      else read_loop env_variable_name ls' failure
  end.

(** [env_variable_read] (lines 80-88) *)
Definition env_variable_read (env_variable_name : string) : M string :=
  c <- open_existing ModeRead ;;
  read_loop env_variable_name (fst (stream_lines c)) (snd (stream_lines c)).

(** The lines [env_variable_delete] writes back. *)
Definition kept_lines (delete_line : string) (all_lines : list string)
  : list string :=
  filter (fun line => negb (line =? delete_line)) all_lines.

(** [env_variable_delete] (lines 91-99) *)
Definition env_variable_delete (delete_line : string) : M unit :=
  c <- open_existing ModeReadWrite ;;
  text <- read_text c ;;
  store (join (kept_lines delete_line (lines text))).

(** [conf_file_copy] (lines 102-104) *)
Definition conf_file_copy (src dest : string) : M unit :=
  run_command ["docker"; "cp"; src; dest].

(** [conf_file_receive] (lines 107-110) *)
Definition conf_file_receive : M unit :=
  run_command ["docker"; "exec"; CONTAINER_NAME; "bash"; "-c";
               "touch " ++ SNIFFER_CONF_FILE] ;;;
  conf_file_copy SNIFFER_CONF_FILE_IN_CONTAINER TMP_SNIFFER_CONF_FILE.

(** [config_file_send] (lines 113-114) *)
Definition config_file_send : M unit :=
  conf_file_copy TMP_SNIFFER_CONF_FILE SNIFFER_CONF_FILE_IN_CONTAINER.

Definition MSG_ALREADY_ENABLED : string :=
  "sniffer is already enabled, do nothing".
Definition MSG_ALREADY_DISABLED : string :=
  "sniffer is already disabled, do nothing".

(** [sniffer_env_variable_set] (lines 118-141); the result is [ignore]. *)
Definition sniffer_env_variable_set
  (enable : bool) (env_variable_name env_variable_string : string) : M bool :=
  conf_file_receive ;;;
  env_variable_exist_string <- env_variable_read env_variable_name ;;
  ignore <- (if negb (env_variable_exist_string =? EmptyString) then
               if enable then echo MSG_ALREADY_ENABLED ;;; ret true
               else env_variable_delete env_variable_exist_string ;;; ret false
             else
               if enable then env_variable_write env_variable_string ;;; ret false
               else echo MSG_ALREADY_DISABLED ;;; ret true) ;;
  (if negb ignore then config_file_send else ret tt) ;;;
  run_command ["rm"; "-rf"; TMP_SNIFFER_CONF_FILE] ;;;
  ret ignore.

(** [restart_swss] (lines 145-151) *)
Definition restart_swss : M Z :=
  try_except_OSError
    (run_command COMMAND_RESTART_SWSS ;;; ret 0%Z)
    (fun e =>
       log_error ("Not able to restart swss service, " ++ e) ;;; ret 1%Z).

(** The loop of lines 211-212 over the items of a dict, in insertion
    order, started from the given string. *)
Fixpoint append_items (acc : string) (items : list (string * string)) : string :=
  match items with
  | [] => acc
  | (env_variable_name, env_variable_value) :: rest =>
      append_items (acc ++ (env_variable_name ++ "=" ++ env_variable_value)) rest
  end.

(** Lines 207-208: the dict literal of [sdk_sniffer_enable]. *)
Definition sdk_sniffer_env_variable_dict (sdk_sniffer_filename : string)
  : list (string * string) :=
  [ (ENV_VARIABLE_SX_SNIFFER, "1" ++ ",");
    (ENV_VARIABLE_SX_SNIFFER_TARGET, sdk_sniffer_filename) ].

(** Lines 209-214: the directive line built from a dict. *)
Definition env_variable_string_of (items : list (string * string)) : string :=
  append_items "environment=" items ++ String NL "".

Definition MSG_ENABLED (sdk_sniffer_filename : string) : string :=
  "SDK sniffer is Enabled, recording file is " ++ sdk_sniffer_filename ++ ".".
Definition MSG_DISABLED : string := "SDK sniffer is Disabled.".

(** [sdk_sniffer_enable] (lines 202-224) *)
Definition sdk_sniffer_enable : M unit :=
  sdk_sniffer_filename <-
    sniffer_filename_generate SDK_SNIFFER_TARGET_PATH
                              SDK_SNIFFER_FILENAME_PREFIX
                              SDK_SNIFFER_FILENAME_EXT ;;
  let sdk_sniffer_env_variable_string :=
    env_variable_string_of (sdk_sniffer_env_variable_dict sdk_sniffer_filename) in
  ignore <- sniffer_env_variable_set true ENV_VARIABLE_SX_SNIFFER
                                     sdk_sniffer_env_variable_string ;;
  if negb ignore then
    err <- restart_swss ;;
    if negb (err =? 0)%Z then ret tt
    else echo (MSG_ENABLED sdk_sniffer_filename)
  else ret tt.

(** [sdk_sniffer_disable] (lines 227-237) *)
Definition sdk_sniffer_disable : M unit :=
  ignore <- sniffer_env_variable_set false ENV_VARIABLE_SX_SNIFFER EmptyString ;;
  if negb ignore then
    err <- restart_swss ;;
    if negb (err =? 0)%Z then ret tt
    else echo MSG_DISABLED
  else ret tt.

(** ** Vocabulary of the properties *)

(** The argument vectors the program issues. *)
Definition ARGV_TOUCH : list string :=
  ["docker"; "exec"; CONTAINER_NAME; "bash"; "-c"; "touch " ++ SNIFFER_CONF_FILE].
Definition ARGV_FETCH : list string :=
  ["docker"; "cp"; SNIFFER_CONF_FILE_IN_CONTAINER; TMP_SNIFFER_CONF_FILE].
Definition ARGV_PUBLISH : list string :=
  ["docker"; "cp"; TMP_SNIFFER_CONF_FILE; SNIFFER_CONF_FILE_IN_CONTAINER].
Definition ARGV_CLEANUP : list string := ["rm"; "-rf"; TMP_SNIFFER_CONF_FILE].

(** The steps of the protocol, as the trace shows them. *)
Inductive step : Type := Fetch | Locate | Mutate | Publish | Restart | Cleanup.

Fixpoint argv_eqb (a b : list string) : bool :=
  match a, b with
  | [], [] => true
  | x :: a', y :: b' => (x =? y) && argv_eqb a' b'
  | _, _ => false
  end.

Definition step_of (e : event) : option step :=
  match e with
  | EvRun argv _ =>
      if argv_eqb argv ARGV_TOUCH then Some Fetch
      else if argv_eqb argv ARGV_FETCH then Some Fetch
      else if argv_eqb argv ARGV_PUBLISH then Some Publish
      else if argv_eqb argv ARGV_CLEANUP then Some Cleanup
      else if argv_eqb argv COMMAND_RESTART_SWSS then Some Restart
      else None
  | EvOpen _ ModeRead => Some Locate
  | EvOpen _ ModeAppend => Some Mutate
  | EvOpen _ ModeReadWrite => Some Mutate
  | EvMakedirs _ => None
  | EvEcho _ => None
  | EvLogError _ => None
  end.

Fixpoint steps (tr : list event) : list step :=
  match tr with
  | [] => []
  | e :: tr' =>
      match step_of e with
      | Some s => s :: steps tr'
      | None => steps tr'
      end
  end.

(** The events a run added to the trace. *)
Definition new_events (w w' : World) : list event :=
  skipn (List.length (trace w)) (trace w').

Definition is_prefix {A : Type} (l1 l2 : list A) : Prop :=
  exists l3, l2 = (l1 ++ l3)%list.

(** The step sequences of the two branches. *)
Definition NOOP_STEPS : list step := [Fetch; Fetch; Locate; Cleanup].
Definition APPLIED_STEPS : list step :=
  [Fetch; Fetch; Locate; Mutate; Publish; Cleanup; Restart].

(** The events of a run that finds the requested state in place. *)
Definition noop_events (msg : string) : list event :=
  [EvRun ARGV_TOUCH CmdOk; EvRun ARGV_FETCH CmdOk;
   EvOpen TMP_SNIFFER_CONF_FILE ModeRead; EvEcho msg;
   EvRun ARGV_CLEANUP CmdOk].

(** The line [env_variable_read] locates in a fragment with the bytes
    [c]. *)
Definition located (env_variable_name c : string) : string :=
  first_line_with env_variable_name (text_lines c).

(** A line that mentions the name is complete in what the stream has
    decoded of [c]: the loop of [env_variable_read] is left before the
    end of the file is looked for. *)
Definition found_before_end (env_variable_name c : string) : bool :=
  existsb (fun l => mentions l env_variable_name) (fst (stream_lines c)).

(** All the lines of [c] that mention the name are the same line (in
    particular, at most one line mentions it). *)
Definition directive_lines_agree (env_variable_name c : string) : bool :=
  forallb (fun l => implb (mentions l env_variable_name)
                          (l =? located env_variable_name c))
          (text_lines c).

(** The fragment has no line that mentions the name. *)
Definition no_directive (env_variable_name c : string) : Prop :=
  forall l, In l (text_lines c) -> mentions l env_variable_name = false.

(** The output of [time.strftime("%Y%m%d%H%M%S")] is made of digits. *)
Definition is_digit (c : ascii) : bool :=
  (48 <=? nat_of_ascii c)%nat && (nat_of_ascii c <=? 57)%nat.
Fixpoint is_time_stamp (s : string) : bool :=
  match s with
  | EmptyString => true
  | String c s' => is_digit c && is_time_stamp s'
  end.

(** The capture file name of a clock reading. *)
Definition sniffer_filename (time_stamp : string) : string :=
  SDK_SNIFFER_TARGET_PATH ++ SDK_SNIFFER_FILENAME_PREFIX ++ time_stamp
    ++ SDK_SNIFFER_FILENAME_EXT.

(** The directive line as the specification words it: the pairs
    [key=value] of the mapping, in insertion order, with a comma between
    consecutive pairs. *)
Fixpoint comma_separated (pairs : list string) : string :=
  match pairs with
  | [] => EmptyString
  | [p] => p
  | p :: rest => p ++ "," ++ comma_separated rest
  end.

Definition spec_directive_line (items : list (string * string)) : string :=
  "environment="
    ++ comma_separated (map (fun kv => fst kv ++ "=" ++ snd kv) items)
    ++ String NL "".

(** A well-formed list of lines: every line but the last ends in a line
    feed, no line has one inside, and no line is empty. *)
Inductive wf_lines : list string -> Prop :=
| wf_lines_nil : wf_lines []
| wf_lines_last (l : string) :
    l <> EmptyString -> no_newline l = true -> wf_lines [l]
| wf_lines_cons (b : string) (ls : list string) :
    no_newline b = true -> wf_lines ls ->
    wf_lines ((b ++ String NL EmptyString) :: ls).

(** A world with a given fragment, nothing staged and no failure ahead. *)
Definition world_with (c : option string) (time_stamp : string)
  (schedule : list cmd_result) : World :=
  mkWorld c None [SDK_SNIFFER_TARGET_PATH] CmdOk time_stamp schedule [].

Definition set_now (t : string) (w : World) : World :=
  mkWorld (remote w) (staging w) (dirs w) (makedirs_outcome w) t (outcomes w)
          (trace w).

(** *** Summary of a run of [sniffer_env_variable_set]

    [l] is the line located in the fragment [c]; [s] is the directive
    line to append. *)

(** The value of [ignore]. *)
Definition toggle_ignore (enable : bool) (l : string) : bool :=
  if negb (l =? EmptyString) then enable else negb enable.

(** The content the staging file has when the branches are done. *)
Definition toggle_content (enable : bool) (l s c : string) : string :=
  if negb (l =? EmptyString) then
    if enable then c else join (kept_lines l (text_lines c))
  else
    if enable
    then (if c =? EmptyString then PROGRAM_HEADER ++ s else c ++ s)
    else c.

(** The events of a run in which every command succeeds. *)
Definition set_events (enable : bool) (l : string) : list event :=
  ([EvRun ARGV_TOUCH CmdOk; EvRun ARGV_FETCH CmdOk;
    EvOpen TMP_SNIFFER_CONF_FILE ModeRead]
   ++ (if negb (l =? EmptyString) then
         if enable then [EvEcho MSG_ALREADY_ENABLED]
         else [EvOpen TMP_SNIFFER_CONF_FILE ModeReadWrite;
               EvRun ARGV_PUBLISH CmdOk]
       else
         if enable then [EvOpen TMP_SNIFFER_CONF_FILE ModeAppend;
                         EvRun ARGV_PUBLISH CmdOk]
         else [EvEcho MSG_ALREADY_DISABLED])
   ++ [EvRun ARGV_CLEANUP CmdOk])%list.

(** The steps of [sniffer_env_variable_set] in the branch that changes
    the fragment. *)
Definition CHANGE_STEPS : list step :=
  [Fetch; Fetch; Locate; Mutate; Publish; Cleanup].

(** What holds of the result [r] and final world [w'] of a run of
    [sniffer_env_variable_set] started in [w]. *)
Definition set_post (enable : bool) (name s : string) (w : World)
  (r : result bool) (w' : World) : Prop :=
  let c := fragment w in
  let l := located name c in
  now w' = now w /\ target_dir w' = target_dir w /\
  exists tr, trace w' = (trace w ++ tr)%list /\
  match r with
  | Ret ig =>
      ig = toggle_ignore enable l
      /\ remote w' = Some (toggle_content enable l s c)
      /\ staging w' = None
      /\ tr = set_events enable l
  | Raise _ =>
      (remote w' = remote w \/ remote w' = Some c
       \/ (toggle_ignore enable l = false
           /\ remote w' = Some (toggle_content enable l s c)))
      /\ is_prefix (steps tr)
                   (if toggle_ignore enable l then NOOP_STEPS else CHANGE_STEPS)
  end.

(** The postcondition [Q] holds of the run of [m] from [w]. *)
Definition wp {A : Type} (m : M A) (w : World)
  (Q : result A -> World -> Prop) : Prop :=
  Q (fst (m w)) (snd (m w)).

(** The events of [restart_swss], with the message the caller prints
    after a successful restart. *)
Definition restart_events_ok (msg : string) : list event :=
  [EvRun COMMAND_RESTART_SWSS CmdOk; EvEcho msg].
Definition restart_events_failed (cause : string) : list event :=
  [EvRun COMMAND_RESTART_SWSS (CmdRaise (OSError cause));
   EvLogError ("Not able to restart swss service, " ++ cause)].

(** The events of a restart command that raises [e]: [restart_swss]
    logs an [OSError] and lets anything else through. *)
Definition restart_raised_events (e : exn) : list event :=
  EvRun COMMAND_RESTART_SWSS (CmdRaise e)
  :: match e with
     | OSError cause =>
         [EvLogError ("Not able to restart swss service, " ++ cause)]
     | FatalError _ => []
     end.

(** What [sniffer_filename_generate] adds to the trace. *)
Definition makedirs_events (w : World) : list event :=
  if target_dir w then [] else [EvMakedirs SDK_SNIFFER_TARGET_PATH].

(** The exception [sdk_sniffer_enable] ends with before it has done
    anything, when the capture directory is missing and cannot be
    made. *)
Definition makedirs_failure (w : World) : option exn :=
  if target_dir w then None
  else match makedirs_outcome w with
       | CmdOk => None
       | CmdRaise e => Some e
       end.

(** The directive line [sdk_sniffer_enable] builds at a clock reading. *)
Definition directive_line (time_stamp : string) : string :=
  env_variable_string_of
    (sdk_sniffer_env_variable_dict (sniffer_filename time_stamp)).

(** What holds of a run of [sdk_sniffer_enable] or [sdk_sniffer_disable]
    started in [w]: [s] is the directive line, [msg] the success message,
    [pre] the events before [sniffer_env_variable_set] is entered. *)
Definition sdk_post (enable : bool) (s msg : string) (pre : list event)
  (td : bool) (w : World) (r : result unit) (w' : World) : Prop :=
  let c := fragment w in
  let l := located ENV_VARIABLE_SX_SNIFFER c in
  let ig := toggle_ignore enable l in
  now w' = now w /\ target_dir w' = td /\
  exists tr, trace w' = (trace w ++ pre ++ tr)%list /\
  match r with
  | Ret _ =>
      remote w' = Some (toggle_content enable l s c)
      /\ staging w' = None
      /\ (if ig then tr = set_events enable l
          else tr = (set_events enable l ++ restart_events_ok msg)%list
               \/ exists cause,
                   tr = (set_events enable l ++ restart_events_failed cause)%list)
  | Raise _ =>
      (remote w' = remote w \/ remote w' = Some c
       \/ (ig = false /\ remote w' = Some (toggle_content enable l s c)))
      /\ is_prefix (steps tr) (if ig then NOOP_STEPS else APPLIED_STEPS)
      /\ (In Restart (steps tr) ->
          staging w' = None
          /\ remote w' = Some (toggle_content enable l s c)
          /\ exists e,
               tr = (set_events enable l
                     ++ [EvRun COMMAND_RESTART_SWSS (CmdRaise e)])%list)
  end.

Definition step_eqb (a b : step) : bool :=
  match a, b with
  | Fetch, Fetch | Locate, Locate | Mutate, Mutate
  | Publish, Publish | Restart, Restart | Cleanup, Cleanup => true
  | _, _ => false
  end.

(** [a] occurs in [ss] with a [b] somewhere after it. *)
Fixpoint precedes (a b : step) (ss : list step) : bool :=
  match ss with
  | [] => false
  | s :: ss' =>
      (step_eqb s a && existsb (step_eqb b) ss') || precedes a b ss'
  end.

(** *** Sample inputs *)

Definition SAMPLE_TIME : string := "20240101000000".

(** The fragment an enable leaves behind when it starts from nothing. *)
Definition SAMPLE_ENABLED : string :=
  PROGRAM_HEADER ++ directive_line SAMPLE_TIME.

(** A fragment in which a second, different line mentions the variable. *)
Definition SAMPLE_TWO_MENTIONS : string :=
  SAMPLE_ENABLED ++ "# SX_SNIFFER_ENABLE is set above" ++ String NL "".

(** A fragment with unrelated lines around the directive. *)
Definition SAMPLE_X : string := "command=/usr/bin/syncd" ++ String NL "".
Definition SAMPLE_Y : string := "autostart=true" ++ String NL "".
Definition SAMPLE_FOUR_LINES : string :=
  PROGRAM_HEADER ++ SAMPLE_X ++ directive_line SAMPLE_TIME ++ SAMPLE_Y.

(** The mapping of the specification's scenario. *)
Definition SAMPLE_MAPPING : list (string * string) :=
  [("ENABLE", "1"); ("TARGET", sniffer_filename SAMPLE_TIME)].

(** The first four commands succeed and the restart cannot be started. *)
Definition RESTART_FAILS : list cmd_result :=
  [CmdOk; CmdOk; CmdOk; CmdOk; CmdRaise (OSError "No such file or directory")].

(** Sample worlds: nothing in the container yet; the same with a restart
    that fails; the sniffer enabled; two lines mentioning the variable;
    unrelated lines around the directive; and a world in the middle of a
    run, with the fragment staged. *)
Definition W_EMPTY : World := world_with None SAMPLE_TIME [].
Definition W_RESTART_FAILS : World := world_with None SAMPLE_TIME RESTART_FAILS.
Definition W_ENABLED : World := world_with (Some SAMPLE_ENABLED) SAMPLE_TIME [].
Definition W_TWO_MENTIONS : World :=
  world_with (Some SAMPLE_TWO_MENTIONS) SAMPLE_TIME [].
Definition W_FOUR_LINES : World :=
  world_with (Some SAMPLE_FOUR_LINES) SAMPLE_TIME [].
Definition W_STAGED (c : string) : World :=
  mkWorld (Some c) (Some c) [SDK_SNIFFER_TARGET_PATH] CmdOk SAMPLE_TIME [] [].

(** The world a run ends in. *)
Definition after {A : Type} (m : M A) (w : World) : World := snd (m w).

(** Fragments with the line ends of another system, one with two
    mentions that only a carriage return keeps apart, and one whose
    bytes do not decode. *)
Definition CRLF : string := String CR (String NL "").
Definition SAMPLE_DIRECTIVE : string :=
  "environment=SX_SNIFFER_ENABLE=1,SX_SNIFFER_TARGET=/var/log/sdk_dbg/sx_sdk_sniffer_20240101000000.pcap".
Definition SAMPLE_TWO_LINES : string := PROGRAM_HEADER ++ SAMPLE_X.
Definition SAMPLE_TWO_LINES_CRLF : string :=
  "[program:syncd]" ++ CRLF ++ "command=/usr/bin/syncd" ++ CRLF.
Definition SAMPLE_FOUR_LINES_CRLF : string :=
  "[program:syncd]" ++ CRLF ++ "command=/usr/bin/syncd" ++ CRLF
    ++ SAMPLE_DIRECTIVE ++ CRLF ++ "autostart=true" ++ CRLF.
Definition SAMPLE_CR_MENTIONS : string :=
  "SX_SNIFFER_ENABLE=1" ++ String CR ("SX_SNIFFER_ENABLE=2" ++ String NL "").
Definition SAMPLE_UNDECODABLE : string :=
  PROGRAM_HEADER ++ String (ascii_of_nat 255) "".

(** The fragment an enable leaves, followed by the first two bytes of a
    character of three. *)
Definition SAMPLE_CUT : string :=
  PROGRAM_HEADER ++ SAMPLE_DIRECTIVE ++ String NL ""
    ++ String (ascii_of_nat 226) (String (ascii_of_nat 130) "").

(** The first four commands succeed and the restart ends with a status
    that is not zero. *)
Definition RESTART_EXITS : list cmd_result :=
  [CmdOk; CmdOk; CmdOk; CmdOk; CmdRaise (FatalError "exit status 1")].

Definition W_RESTART_EXITS : World := world_with None SAMPLE_TIME RESTART_EXITS.
Definition W_FOUR_LINES_CRLF : World :=
  world_with (Some SAMPLE_FOUR_LINES_CRLF) SAMPLE_TIME [].
Definition W_CR_MENTIONS : World :=
  world_with (Some SAMPLE_CR_MENTIONS) SAMPLE_TIME [].
Definition W_CUT : World := world_with (Some SAMPLE_CUT) SAMPLE_TIME [].

(** A world in which an earlier run has left its staging file behind. *)
Definition stale (w : World) : World :=
  set_staging (Some "left over from an earlier run") w.

(** ** Beyond the toggle

    The rest of [config/plugins/mlnx.py] (the commands of the sdk group
    and the module host management commands) and the show commands of
    [show/syslog.py]. *)

(** ** The commands of the 'sdk' group (lines 183-199) *)

Module Cli.

(** [_abort_if_false] (lines 157-159): [ctx.abort()] raises click's
    [Abort], which is not an [OSError]. *)
Definition ABORTED : exn := FatalError "Aborted!".

Definition _abort_if_false (value : bool) : M unit :=
  if negb value then raise ABORTED else ret tt.

Definition MSG_ENABLING : string := "Enabling SDK sniffer".
Definition MSG_DISABLING : string := "Disabling SDK sniffer".
Definition MSG_NOTE : string :=
  "Note: the sniffer file may exhaust the space on /var/log, please disable it when you are done with this sniffering.".

(** [enable] (lines 183-190); [yes] is the value of the [--yes] option:
    the flag, or the answer to the prompt. *)
Definition enable (yes : bool) : M unit :=
  _abort_if_false yes ;;;
  echo MSG_ENABLING ;;;
  sdk_sniffer_enable ;;;
  echo MSG_NOTE.

(** [disable] (lines 193-199) *)
Definition disable (yes : bool) : M unit :=
  _abort_if_false yes ;;;
  echo MSG_DISABLING ;;;
  sdk_sniffer_disable.

End Cli.

(** ** Module host management mode (lines 240-311 of mlnx.py)

    The commands [im enabled] and [im disabled] edit files of the host.
    The host is a map from paths to the bytes of the files (directories
    are taken to exist), the two directories [device_info] reports, the
    answer of
    [DeviceDataManager.is_module_host_management_mode()], which is
    outside the modelled sources, and, as for the sniffer, the outcomes
    of the next external commands and the trace of the effects. *)

Module Im.

Definition files : Type := string -> option string.

Definition write_file (p c : string) (fs : files) : files :=
  fun q => if (q =? p) then Some c else fs q.
Definition remove_file (p : string) (fs : files) : files :=
  fun q => if (q =? p) then None else fs q.

Record Host : Type := mkHost {
  fs : files;
  platform_dir : string;
  hwsku_dir : string;
  module_host_management_mode : bool;
  outcomes : list cmd_result;
  trace : list event
}.

Definition set_fs (f : files) (h : Host) : Host :=
  mkHost f (platform_dir h) (hwsku_dir h) (module_host_management_mode h)
         (outcomes h) (trace h).
Definition set_mode (b : bool) (h : Host) : Host :=
  mkHost (fs h) (platform_dir h) (hwsku_dir h) b (outcomes h) (trace h).
Definition emit (e : event) (h : Host) : Host :=
  mkHost (fs h) (platform_dir h) (hwsku_dir h) (module_host_management_mode h)
         (outcomes h) (trace h ++ [e]).
Definition tick (h : Host) : Host :=
  mkHost (fs h) (platform_dir h) (hwsku_dir h) (module_host_management_mode h)
         (tl (outcomes h)) (trace h).

(** The state and exception monad over the host. *)
Definition M (A : Type) : Type := Host -> result A * Host.
Definition ret {A} (a : A) : M A := fun h => (Ret a, h).
Definition raise {A} (e : exn) : M A := fun h => (Raise e, h).
Definition bind {A B} (m : M A) (k : A -> M B) : M B :=
  fun h => match m h with
           | (Ret a, h') => k a h'
           | (Raise e, h') => (Raise e, h')
           end.

Notation "x <~ m ;; k" := (bind m (fun x => k))
  (at level 61, m at next level, right associativity).
Notation "m ;;, k" := (bind m (fun _ => k))
  (at level 61, right associativity).

Definition echo (msg : string) : M unit :=
  fun h => (Ret tt, emit (EvEcho msg) h).

(** [os.path.join(a, b)] for two components. *)
Fixpoint ends_with_slash (s : string) : bool :=
  match s with
  | EmptyString => false
  | String c s' =>
      match s' with
      | EmptyString => Ascii.eqb c "/"
      | String _ _ => ends_with_slash s'
      end
  end.

Definition path_join (a b : string) : string :=
  if startswith b "/" then b
  else if (a =? "") || ends_with_slash a then a ++ b
  else a ++ "/" ++ b.

(** [open(p, 'r')]: the file must exist; the result is its bytes. *)
Definition read_file (p : string) : M string :=
  fun h => match fs h p with
           | Some c => (Ret c, h)
           | None => (Raise (OSError "No such file or directory"), h)
           end.

(** [f.readlines()] on the stream over the bytes [c]: the decoded text,
    or [UnicodeDecodeError]. *)
Definition read_text (c : string) : M string :=
  match decode c with
  | Some text => ret text
  | None => raise UNICODE_DECODE_ERROR
  end.

(** [open(p, 'a')] followed by one [write]: the file is created when it
    does not exist. *)
Definition append_file (p s : string) : M unit :=
  fun h =>
    let c := match fs h p with Some c => c | None => EmptyString end in
    (Ret tt, set_fs (write_file p (c ++ s) (fs h)) h).

(** [open(p, 'w')]: the file is created or truncated. *)
Definition open_truncate (p : string) : M unit :=
  fun h => (Ret tt, set_fs (write_file p EmptyString (fs h)) h).

(** Writing to a file opened with ['w']. *)
Definition write_all (p s : string) : M unit :=
  fun h => (Ret tt, set_fs (write_file p s (fs h)) h).

(** What [cp] and [rm -f] do when they succeed; [None] when the command
    cannot succeed: [cp] needs its source, and refuses to copy a file
    onto itself. *)
Definition command_effect (argv : list string) (h : Host) : option Host :=
  match argv with
  | [a0; a1; a2] =>
      if (a0 =? "cp") then
        if (a1 =? a2) then None
        else
          match fs h a1 with
          | Some c => Some (set_fs (write_file a2 c (fs h)) h)
          | None => None
          end
      else if (a0 =? "rm") && (a1 =? "-f") then
        Some (set_fs (remove_file a2 (fs h)) h)
      else None
  | _ => None
  end.

(** [clicommon.run_command(command)], as for the sniffer. *)
Definition run_command (argv : list string) : M unit :=
  fun h =>
    match hd CmdOk (outcomes h) with
    | CmdRaise e => (Raise e, emit (EvRun argv (CmdRaise e)) (tick h))
    | CmdOk =>
        match command_effect argv (tick h) with
        | Some h2 => (Ret tt, emit (EvRun argv CmdOk) h2)
        | None =>
            let e := FatalError "command failed" in
            (Raise e, emit (EvRun argv (CmdRaise e)) (tick h))
        end
    end.

(** JSON values; [json.load] and [json.dump] are library functions and
    are parameters of the commands.  [json_load] is [json.load] on a
    stream over the bytes it is given: the value, or nothing when the
    call raises a [ValueError], because the bytes do not decode or the
    text is not JSON. *)
#[local] Unset Elimination Schemes.
Inductive json : Type :=
| JNull
| JBool (b : bool)
| JNumber (literal : string)
| JString (s : string)
| JArray (elements : list json)
| JObject (items : list (string * json)).
#[local] Set Elimination Schemes.

(** [d[k] = v] on the items of a dict: the value of an existing key is
    replaced in place, a new key goes last. *)
Fixpoint setitem (items : list (string * json)) (k : string) (v : json)
  : list (string * json) :=
  match items with
  | [] => [(k, v)]
  | (k', v') :: rest =>
      if (k' =? k) then (k, v) :: rest else (k', v') :: setitem rest k v
  end.

Fixpoint getitem (items : list (string * json)) (k : string) : option json :=
  match items with
  | [] => None
  | (k', v') :: rest => if (k' =? k) then Some v' else getitem rest k
  end.

(** [content[k] = v]: only a dict supports it with a string key. *)
Definition json_setitem (content : json) (k : string) (v : json) : M json :=
  match content with
  | JObject items => ret (JObject (setitem items k v))
  | _ => raise (FatalError "TypeError")
  end.

Definition MODE_KEY : string := "SAI_INDEPENDENT_MODULE_MODE".
Definition MODE_LINE : string := "SAI_INDEPENDENT_MODULE_MODE=1" ++ String NL "".
Definition MSG_ALREADY_ENABLED : string :=
  "Module host management mode is already enabled".
Definition MSG_ALREADY_DISABLED : string :=
  "Module host management mode is already disabled".
Definition MEDIA_O8C48 : string :=
  "/usr/share/sonic/device/x86_64-mlnx_msn4700-r0/Mellanox-SN4700-O8C48/media_settings.json".
Definition MEDIA_O8V48 : string :=
  "/usr/share/sonic/device/x86_64-mlnx_msn4700-r0/Mellanox-SN4700-O8V48/media_settings.json".
Definition OPTICS_O8C48 : string :=
  "/usr/share/sonic/device/x86_64-mlnx_msn4700-r0/Mellanox-SN4700-O8C48/optics_si_settings.json".
Definition OPTICS_O8V48 : string :=
  "/usr/share/sonic/device/x86_64-mlnx_msn4700-r0/Mellanox-SN4700-O8V48/optics_si_settings.json".

(** [src] if it exists, else [fallback] (lines 269-271 and 275-277). *)
Definition existing_or (src fallback : string) : M string :=
  fun h => match fs h src with
           | Some _ => (Ret src, h)
           | None => (Ret fallback, h)
           end.

Section Json.

Variable json_load : string -> option json.
Variable json_dump : json -> string.

(** [enabled] (lines 246-279); the result is the value returned. *)
Definition enabled : M (option Z) :=
  fun h =>
    let sai_profile := path_join (hwsku_dir h) "sai.profile" in
    if module_host_management_mode h then
      (echo MSG_ALREADY_ENABLED ;;, ret (Some 0%Z)) h
    else
      (append_file sai_profile MODE_LINE ;;,
       c <~ read_file (path_join (platform_dir h) "pmon_daemon_control.json") ;;
       content <~ match json_load c with
                  | Some j => ret j
                  | None => raise (FatalError "ValueError")
                  end ;;
       let control_file := path_join (hwsku_dir h) "pmon_daemon_control.json" in
       open_truncate control_file ;;,
       content <~ json_setitem content "skip_xcvrd_cmis_mgr" (JBool false) ;;
       content <~ json_setitem content "enable_xcvrd_sff_mgr" (JBool true) ;;
       write_all control_file (json_dump content) ;;,
       src <~ existing_or MEDIA_O8C48 MEDIA_O8V48 ;;
       run_command ["cp"; src; path_join (hwsku_dir h) "media_settings.json"] ;;,
       src <~ existing_or OPTICS_O8C48 OPTICS_O8V48 ;;
       run_command ["cp"; src; path_join (hwsku_dir h) "optics_si_settings.json"] ;;,
       ret None) h.

End Json.

(** The lines [disabled] keeps (lines 292-298). *)
Definition new_lines (lines : list string) : list string :=
  filter (fun line => (find line MODE_KEY =? -1)%Z) lines.

(** [disabled] (lines 282-310) *)
Definition disabled : M (option Z) :=
  fun h =>
    let sai_profile := path_join (hwsku_dir h) "sai.profile" in
    if negb (module_host_management_mode h) then
      (echo MSG_ALREADY_DISABLED ;;, ret (Some 0%Z)) h
    else
      (c <~ read_file sai_profile ;;
       text <~ read_text c ;;
       open_truncate sai_profile ;;,
       write_all sai_profile (join (new_lines (lines text))) ;;,
       run_command ["rm"; "-f";
                    path_join (hwsku_dir h) "pmon_daemon_control.json"] ;;,
       run_command ["rm"; "-f"; path_join (hwsku_dir h) "media_settings.json"] ;;,
       run_command ["rm"; "-f";
                    path_join (hwsku_dir h) "optics_si_settings.json"] ;;,
       ret None) h.

End Im.

(** The last character of a string. *)
Fixpoint last_char (s : string) : option ascii :=
  match s with
  | EmptyString => None
  | String c s' =>
      match s' with
      | EmptyString => Some c
      | String _ _ => last_char s'
      end
  end.

(** [s] ends with [suffix]. *)
Fixpoint has_suffix (s suffix : string) : bool :=
  (s =? suffix)
  || match s with
     | EmptyString => false
     | String _ s' => has_suffix s' suffix
     end.

(** The content of a file that may be missing. *)
Definition content_or_empty (c : option string) : string :=
  match c with Some c => c | None => "" end.

(** A computation leaves the directories and the mode of the host as
    they are. *)
Definition keeps_dirs {A : Type} (m : Im.M A) : Prop :=
  forall h r h',
    m h = (r, h') ->
    Im.hwsku_dir h' = Im.hwsku_dir h
    /\ Im.platform_dir h' = Im.platform_dir h
    /\ Im.module_host_management_mode h' = Im.module_host_management_mode h.

(** ** The syslog show commands (src/show/syslog.py)

    A table of the configuration database is a Python dict from keys to
    entries, an entry a dict from field names to values, both in the
    order of the dict: association lists whose lookup takes the first
    pair of a key.  [natsorted] and [tabulate.tabulate] are library
    functions and are parameters of the commands. *)

Module Syslog.

Definition FEATURE_TABLE : string := "FEATURE".
Definition SYSLOG_CONFIG_TABLE : string := "SYSLOG_CONFIG".
Definition SYSLOG_CONFIG_FEATURE_TABLE : string := "SYSLOG_CONFIG_FEATURE".
Definition SYSLOG_TABLE : string := "SYSLOG_SERVER".

Definition SYSLOG_SOURCE : string := "source".
Definition SYSLOG_PORT : string := "port".
Definition SYSLOG_VRF : string := "vrf".

Definition SYSLOG_CONFIG_GLOBAL_KEY : string := "GLOBAL".
Definition SYSLOG_RATE_LIMIT_INTERVAL : string := "rate_limit_interval".
Definition SYSLOG_RATE_LIMIT_BURST : string := "rate_limit_burst".

Definition dict (V : Type) : Type := list (string * V).

(** [d.get(k)] *)
Fixpoint get {V : Type} (d : dict V) (k : string) : option V :=
  match d with
  | [] => None
  | (k', v) :: rest => if (k' =? k) then Some v else get rest k
  end.

(** [d.get(k, default)] *)
Definition get_default {V : Type} (d : dict V) (k : string) (default : V) : V :=
  match get d k with
  | Some v => v
  | None => default
  end.

(** [d.keys()] *)
Definition keys {V : Type} (d : dict V) : list string := map fst d.

Definition entry : Type := dict string.
Definition table : Type := dict entry.

(** [db.cfgdb.get_table] *)
Definition ConfigDb : Type := string -> table.

Inductive error : Type :=
| KeyError (key : string)
| UsageError (msg : string)
| ClickException (msg : string).

(** What a command does: the texts it echoes, or the exception it
    raises. *)
Inductive run : Type :=
| Echoed (out : list string)
| Raised (e : error).

(** [str.lower] on ASCII text *)
Definition lower_ascii (c : ascii) : ascii :=
  let n := nat_of_ascii c in
  if ((65 <=? n) && (n <=? 90))%nat then ascii_of_nat (n + 32) else c.

Fixpoint lower (s : string) : string :=
  match s with
  | EmptyString => EmptyString
  | String c s' => String (lower_ascii c) (lower s')
  end.

Definition SYSLOG_HEADER : list string :=
  ["SERVER IP"; "SOURCE IP"; "PORT"; "VRF"].
Definition RATE_LIMIT_HOST_HEADER : list string := ["INTERVAL"; "BURST"].
Definition RATE_LIMIT_CONTAINER_HEADER : list string :=
  ["SERVICE"; "INTERVAL"; "BURST"].

(** The loop of [syslog] (lines 55-62): [table[key]] raises [KeyError]
    for a key the table does not have. *)
Fixpoint syslog_body (table : table) (sorted_keys : list string)
  : error + list (list string) :=
  match sorted_keys with
  | [] => inr []
  | key :: rest =>
      match get table key with
      | None => inl (KeyError key)
      | Some entry =>
          let row := ([key] ++ [get_default entry SYSLOG_SOURCE "N/A";
                                get_default entry SYSLOG_PORT "N/A";
                                get_default entry SYSLOG_VRF "N/A"])%list in
          match syslog_body table rest with
          | inl e => inl e
          | inr body => inr (row :: body)
          end
      end
  end.

(** [state in ['disabled', 'always_disabled']], where [state] is the
    result of [get('state')]: [None] when the field is missing. *)
Definition is_disabled (state : option string) : bool :=
  match state with
  | Some s => existsb (String.eqb s) ["disabled"; "always_disabled"]
  | None => false
  end.

(** [service_config.get('support_syslog_rate_limit', '').lower() == 'true'] *)
Definition support_rate_limit (service_config : entry) : bool :=
  lower (get_default service_config "support_syslog_rate_limit" "") =? "true".

(** The services listed when no name is given (lines 118-119) *)
Definition supported_services (features : table) : list string :=
  map fst
    (filter (fun item =>
               support_rate_limit (snd item)
               && negb (is_disabled (get (snd item) "state")))
            features).

(** [service_list] (lines 104-119); an argument that is not given is
    [None], and the empty string is as false as [None]. *)
Definition service_list (features : table) (service_name : option string)
  : error + list string :=
  match service_name with
  | Some (String c rest as service_name) =>
      match get features service_name with
      | None =>
          inl (UsageError ("Invalid service name " ++ service_name
                           ++ ", please choose from: "
                           ++ String.concat "," (keys features)))
      | Some service_config =>
          if is_disabled (get service_config "state") then
            inl (ClickException ("Service " ++ service_name
                                 ++ " is disabled, please enable it first"))
          else if negb (support_rate_limit service_config) then
            inl (ClickException ("Service " ++ service_name
                                 ++ " does not support syslog rate limit"))
          else inr [service_name]
      end
  | _ => inr (supported_services features)
  end.

(** The row of one service (lines 122-128) *)
Definition service_row (syslog_configs : table) (service : string)
  : list string :=
  match get syslog_configs service with
  | Some entry =>
      [service;
       get_default entry SYSLOG_RATE_LIMIT_INTERVAL "N/A";
       get_default entry SYSLOG_RATE_LIMIT_BURST "N/A"]
  | None => [service; "N/A"; "N/A"]
  end.

Section Library.

Variable natsorted : list string -> list string.
Variable tabulate : list (list string) -> list string -> string.

(** [format] (lines 26-27) *)
Definition format (header : list string) (body : list (list string))
  : string :=
  tabulate body header.

(** [syslog] (lines 40-64) *)
Definition syslog (db : ConfigDb) (invoked_subcommand : option string) : run :=
  match invoked_subcommand with
  | Some _ => Echoed []
  | None =>
      let table := db SYSLOG_TABLE in
      match syslog_body table (natsorted (keys table)) with
      | inl e => Raised e
      | inr body => Echoed [format SYSLOG_HEADER body]
      end
  end.

(** [rate_limit_host] (lines 70-84) *)
Definition rate_limit_host (db : ConfigDb) : run :=
  let syslog_configs := db SYSLOG_CONFIG_TABLE in
  let body :=
    match get syslog_configs SYSLOG_CONFIG_GLOBAL_KEY with
    | Some entry =>
        [[get_default entry SYSLOG_RATE_LIMIT_INTERVAL "N/A";
          get_default entry SYSLOG_RATE_LIMIT_BURST "N/A"]]
    | None => []
    end in
  Echoed [format RATE_LIMIT_HOST_HEADER body].

(** [rate_limit_container] (lines 92-130) *)
Definition rate_limit_container (db : ConfigDb) (service_name : option string)
  : run :=
  let features := db FEATURE_TABLE in
  let syslog_configs := db SYSLOG_CONFIG_FEATURE_TABLE in
  match service_list features service_name with
  | inl e => Raised e
  | inr services =>
      Echoed [format RATE_LIMIT_CONTAINER_HEADER
                (map (service_row syslog_configs) (natsorted services))]
  end.

End Library.

End Syslog.

(** A sort to run the commands with: insertion sort by the order of the
    characters. *)
Fixpoint sorted_insert (x : string) (l : list string) : list string :=
  match l with
  | [] => [x]
  | y :: rest => if (x <=? y) then x :: l else y :: sorted_insert x rest
  end.

Definition sample_sorted (l : list string) : list string :=
  fold_right sorted_insert [] l.

Definition sample_tabulate (body : list (list string)) (header : list string)
  : string :=
  String.concat (String NL "")
    (map (String.concat " ") (header :: body)).

Definition SAMPLE_DB : Syslog.ConfigDb :=
  fun name =>
    if (name =? "SYSLOG_SERVER") then
      [("2.2.2.2", [("source", "1.1.1.1"); ("port", "514")]);
       ("10.0.0.1", [("vrf", "default")])]
    else if (name =? "SYSLOG_CONFIG") then
      [("GLOBAL", [("rate_limit_interval", "200")])]
    else if (name =? "FEATURE") then
      [("swss", [("state", "enabled"); ("support_syslog_rate_limit", "True")]);
       ("bgp", [("state", "enabled"); ("support_syslog_rate_limit", "true")]);
       ("telemetry", [("state", "disabled");
                      ("support_syslog_rate_limit", "false")]);
       ("snmp", [("state", "always_disabled");
                 ("support_syslog_rate_limit", "true")]);
       ("lldp", [("state", "enabled")])]
    else if (name =? "SYSLOG_CONFIG_FEATURE") then
      [("bgp", [("rate_limit_interval", "100"); ("rate_limit_burst", "5")]);
       ("telemetry", [("rate_limit_interval", "50")])]
    else [].

(** *** Sample inputs for the commands *)

(** A fragment without the directive, one whose last line has no line
    feed, a later clock reading, and a schedule in which the fragment is
    fetched and cannot be published. *)
Definition SAMPLE_PLAIN : string := PROGRAM_HEADER ++ SAMPLE_X.
Definition SAMPLE_LAST : string := "autostart=true".
Definition SAMPLE_UNTERMINATED : string := PROGRAM_HEADER ++ SAMPLE_LAST.
Definition SAMPLE_LATER : string := "20240101000100".
Definition PUBLISH_FAILS : list cmd_result :=
  [CmdOk; CmdOk; CmdRaise (FatalError "exit status 1")].

Definition W_PLAIN : World := world_with (Some SAMPLE_PLAIN) SAMPLE_TIME [].
Definition W_UNTERMINATED : World :=
  world_with (Some SAMPLE_UNTERMINATED) SAMPLE_TIME [].
Definition W_PUBLISH_FAILS : World :=
  world_with (Some SAMPLE_PLAIN) SAMPLE_TIME PUBLISH_FAILS.

(** Fragments whose lines end in CR LF, a fragment that does not decode,
    and hosts without the capture directory: on the second one
    [os.makedirs] is refused. *)
Definition SAMPLE_UNTERMINATED_CRLF : string :=
  "[program:syncd]" ++ CRLF ++ SAMPLE_LAST.
Definition W_TWO_LINES_CRLF : World :=
  world_with (Some SAMPLE_TWO_LINES_CRLF) SAMPLE_TIME [].
Definition W_UNTERMINATED_CRLF : World :=
  world_with (Some SAMPLE_UNTERMINATED_CRLF) SAMPLE_TIME [].

(** A host of another hardware SKU of the platform: its profile has one
    line, the platform has a control file, and of the files to copy the
    media settings are there for O8V48 only, the optics settings for
    O8C48. *)
Definition QUOTE : string := String (ascii_of_nat 34) "".
Definition SAMPLE_PLATFORM_DIR : string :=
  "/usr/share/sonic/device/x86_64-mlnx_msn4700-r0".
Definition SAMPLE_HWSKU_DIR : string :=
  "/usr/share/sonic/device/x86_64-mlnx_msn4700-r0/ACS-MSN4700".
Definition SAMPLE_PROFILE : string :=
  "SAI_INIT_CONFIG_FILE=/usr/share/sonic/hwsku/sai_4700.xml" ++ String NL "".
Definition SAMPLE_CONTROL : string :=
  "{" ++ QUOTE ++ "skip_ledd" ++ QUOTE ++ ": true}".
Definition SAMPLE_CONTROL_ITEMS : list (string * Im.json) :=
  [("skip_ledd", Im.JBool true)].

Definition SAMPLE_FILES : Im.files :=
  fun p =>
    if (p =? Im.path_join SAMPLE_HWSKU_DIR "sai.profile")
    then Some SAMPLE_PROFILE
    else if (p =? Im.path_join SAMPLE_PLATFORM_DIR "pmon_daemon_control.json")
    then Some SAMPLE_CONTROL
    else if (p =? Im.MEDIA_O8V48) then Some "media settings"
    else if (p =? Im.OPTICS_O8C48) then Some "optics settings"
    else None.

Definition SAMPLE_HOST : Im.Host :=
  Im.mkHost SAMPLE_FILES SAMPLE_PLATFORM_DIR SAMPLE_HWSKU_DIR false [] [].

(** A reader and a writer of JSON that know objects of booleans. *)
Definition sample_json_load (text : string) : option Im.json :=
  if (text =? SAMPLE_CONTROL) then Some (Im.JObject SAMPLE_CONTROL_ITEMS)
  else None.

Definition sample_json_dump (j : Im.json) : string :=
  match j with
  | Im.JObject items =>
      "{" ++ String.concat ", "
               (map (fun kv =>
                       QUOTE ++ fst kv ++ QUOTE ++ ": "
                       ++ match snd kv with
                          | Im.JBool true => "true"
                          | Im.JBool false => "false"
                          | _ => "null"
                          end) items)
          ++ "}"
  | _ => "null"
  end.

(** The sample host after [enabled], with the mode the platform reports
    once the profile has the line. *)
Definition SAMPLE_HOST_ENABLED : Im.Host :=
  Im.set_mode true (snd (Im.enabled sample_json_load sample_json_dump SAMPLE_HOST)).

(** The same host with a profile whose line ends in CR LF, and with one
    that does not decode. *)
Definition SAMPLE_PROFILE_CRLF : string :=
  "SAI_INIT_CONFIG_FILE=/usr/share/sonic/hwsku/sai_4700.xml" ++ CRLF.
Definition with_profile (c : string) (h : Im.Host) : Im.Host :=
  Im.set_fs (Im.write_file (Im.path_join (Im.hwsku_dir h) "sai.profile") c
               (Im.fs h)) h.
Definition SAMPLE_HOST_CRLF : Im.Host :=
  with_profile SAMPLE_PROFILE_CRLF SAMPLE_HOST.
Definition SAMPLE_HOST_CRLF_ENABLED : Im.Host :=
  Im.set_mode true
    (snd (Im.enabled sample_json_load sample_json_dump SAMPLE_HOST_CRLF)).
Definition SAMPLE_HOST_UNDECODABLE : Im.Host :=
  Im.set_mode true (with_profile SAMPLE_UNDECODABLE SAMPLE_HOST).

(** ** Facts about strings and lines *)

Section StringFacts.

Lemma append_nil_r (s : string) : s ++ "" = s.
Proof. induction s; simpl; congruence. Qed.

Lemma append_assoc (a b c : string) : (a ++ b) ++ c = a ++ b ++ c.
Proof. induction a; simpl; congruence. Qed.

Lemma startswith_iff (s p : string) :
  startswith s p = true <-> exists post, s = p ++ post.
Proof.
  revert s; induction p as [|a p IH]; intros s; simpl.
  - split; [intros _; now exists s | reflexivity].
  - destruct s as [|b s].
    + split; [discriminate | intros [post H]; discriminate].
    + rewrite andb_true_iff, IH. split.
      * intros [Hab [post ->]]. apply Ascii.eqb_eq in Hab. subst.
        now exists post.
      * intros [post H]. injection H as -> ->.
        split; [apply Ascii.eqb_refl | now exists post].
Qed.

Lemma find_from_occurs (s sub : string) (i : Z) :
  (0 <= i)%Z -> ((0 <= find_from s sub i)%Z <-> occurs_in sub s).
Proof.
  revert i; induction s as [|c s IH]; intros i Hi.
  - simpl. destruct (startswith "" sub) eqn:E.
    + split; intros _; [|lia].
      apply startswith_iff in E as [post E]. now exists "", post.
    + split; [lia|]. intros [pre [post H]]. destruct pre; simpl in H.
      * assert (startswith "" sub = true)
          by (apply startswith_iff; now exists post).
        congruence.
      * discriminate.
  - simpl. destruct (startswith (String c s) sub) eqn:E.
    + split; intros _; [|lia].
      apply startswith_iff in E as [post E]. now exists "", post.
    + rewrite IH by lia. split.
      * intros [pre [post ->]]. now exists (String c pre), post.
      * intros [pre [post H]]. destruct pre; simpl in H.
        -- assert (startswith (String c s) sub = true)
             by (apply startswith_iff; now exists post).
           congruence.
        -- injection H as _ ->. now exists pre, post.
Qed.

Lemma mentions_iff (l name : string) :
  mentions l name = true <-> occurs_in name l.
Proof.
  unfold mentions, find. rewrite Z.leb_le.
  apply find_from_occurs. lia.
Qed.

Lemma mentions_cons (a : ascii) (l name : string) :
  mentions l name = true -> mentions (String a l) name = true.
Proof.
  rewrite !mentions_iff. intros [pre [post ->]].
  now exists (String a pre), post.
Qed.

Lemma join_lines (s : string) : join (lines s) = s.
Proof.
  induction s as [|a s IH]; simpl; [reflexivity|].
  destruct (Ascii.eqb a NL).
  - simpl. now rewrite IH.
  - destruct (lines s) as [|l ls]; simpl in *; now rewrite <- IH.
Qed.

Lemma lines_nonempty (s l : string) : In l (lines s) -> l <> "".
Proof.
  revert l; induction s as [|a s IH]; simpl; intros l; [tauto|].
  destruct (Ascii.eqb a NL).
  - intros [<-|H]; [discriminate | now apply IH].
  - destruct (lines s) as [|l0 ls].
    + intros [<-|[]]. discriminate.
    + intros [<-|H]; [discriminate | apply IH; now right].
Qed.

Lemma lines_complete (b s : string) :
  no_newline b = true ->
  lines (b ++ String NL s) = (b ++ String NL "") :: lines s.
Proof.
  induction b as [|a b IH]; simpl; intros H.
  - reflexivity.
  - apply andb_true_iff in H as [Ha Hb]. apply negb_true_iff in Ha.
    rewrite Ha, IH by assumption. reflexivity.
Qed.

Lemma lines_single (b : string) :
  no_newline b = true -> b <> "" -> lines b = [b].
Proof.
  induction b as [|a b IH]; [congruence|]. simpl. intros H _.
  apply andb_true_iff in H as [Ha Hb]. apply negb_true_iff in Ha.
  rewrite Ha. destruct b as [|a' b]; [reflexivity|].
  rewrite IH; [reflexivity | assumption | discriminate].
Qed.

Lemma lines_head (n post : string) :
  no_newline n = true -> n <> "" ->
  exists l ls, lines (n ++ post) = (n ++ l) :: ls.
Proof.
  induction n as [|a n IH]; [congruence|]. simpl. intros H _.
  apply andb_true_iff in H as [Ha Hn]. apply negb_true_iff in Ha.
  rewrite Ha. destruct n as [|a' n].
  - simpl. destruct (lines post) as [|l ls]; eauto.
  - destruct IH as (l & ls & ->); [assumption | discriminate |]. eauto.
Qed.

Lemma wf_lines_lines (s : string) : wf_lines (lines s).
Proof.
  induction s as [|a s IH]; simpl; [constructor|].
  destruct (Ascii.eqb a NL) eqn:E.
  - apply Ascii.eqb_eq in E; subst.
    exact (wf_lines_cons "" _ eq_refl IH).
  - destruct (lines s) as [|l ls].
    + apply wf_lines_last; [discriminate | simpl; now rewrite E].
    + inversion IH; subst.
      * apply wf_lines_last; [discriminate | simpl; now rewrite E].
      * apply (wf_lines_cons (String a b)); [simpl; now rewrite E | assumption].
Qed.

Lemma wf_lines_filter (p : string -> bool) (ls : list string) :
  wf_lines ls -> wf_lines (filter p ls).
Proof.
  induction 1; simpl.
  - constructor.
  - destruct (p l); now constructor.
  - destruct (p _); [now constructor | assumption].
Qed.

Lemma lines_join (ls : list string) : wf_lines ls -> lines (join ls) = ls.
Proof.
  induction 1; simpl.
  - reflexivity.
  - rewrite append_nil_r. now apply lines_single.
  - rewrite append_assoc. simpl. rewrite lines_complete by assumption.
    now f_equal.
Qed.

Lemma occurs_line (name s : string) :
  name <> "" -> no_newline name = true -> occurs_in name s ->
  Exists (fun l => mentions l name = true) (lines s).
Proof.
  intros Hne Hnl [pre [post ->]]. induction pre as [|a pre IH]; simpl.
  - destruct (lines_head name post Hnl Hne) as (l & ls & ->).
    apply Exists_cons_hd. apply mentions_iff. now exists "", l.
  - destruct (Ascii.eqb a NL); [now apply Exists_cons_tl|].
    destruct (lines (pre ++ name ++ post)) as [|l ls]; [inversion IH|].
    inversion IH; subst.
    + apply Exists_cons_hd. now apply mentions_cons.
    + now apply Exists_cons_tl.
Qed.

Lemma first_line_with_cases (name : string) (ls : list string) :
  (first_line_with name ls = ""
   /\ Forall (fun l => mentions l name = false) ls)
  \/ (exists pre post,
        ls = (pre ++ first_line_with name ls :: post)%list
        /\ mentions (first_line_with name ls) name = true
        /\ Forall (fun l => mentions l name = false) pre).
Proof.
  induction ls as [|a ls IH]; simpl.
  - left. split; [reflexivity | constructor].
  - destruct (mentions a name) eqn:E.
    + right. exists [], ls. repeat split; [assumption | constructor].
    + destruct IH as [[H1 H2] | (pre & post & H1 & H2 & H3)].
      * left. split; [assumption | now constructor].
      * right. exists (a :: pre), post.
        repeat split; [simpl; now f_equal | assumption | now constructor].
Qed.

Lemma first_line_with_none (name : string) (ls : list string) :
  Forall (fun l => mentions l name = false) ls ->
  first_line_with name ls = "".
Proof.
  induction 1 as [|a ls Ha _ IH]; simpl; [reflexivity|]. now rewrite Ha.
Qed.

Lemma first_line_with_found (name : string) (ls : list string) :
  (forall l, In l ls -> l <> "") ->
  Exists (fun l => mentions l name = true) ls ->
  first_line_with name ls <> "".
Proof.
  intros Hne Hex.
  destruct (first_line_with_cases name ls)
    as [[_ Hall] | (pre & post & H1 & _ & _)].
  - exfalso. apply Exists_exists in Hex as (l & Hin & Hl).
    rewrite Forall_forall in Hall. specialize (Hall l Hin). congruence.
  - apply Hne. rewrite H1 at 2. apply in_elt.
Qed.


Lemma is_time_stamp_no_newline (s : string) :
  is_time_stamp s = true -> no_newline s = true.
Proof.
  induction s as [|c s IH]; simpl; [reflexivity|]. intros H.
  apply andb_true_iff in H as [Hc Hs]. rewrite IH by assumption.
  destruct (Ascii.eqb_spec c NL) as [->|_]; [discriminate | reflexivity].
Qed.

Lemma no_newline_app (a b : string) :
  no_newline (a ++ b) = no_newline a && no_newline b.
Proof.
  induction a as [|c a IH]; simpl; [reflexivity|].
  now rewrite IH, andb_assoc.
Qed.

End StringFacts.

(** ** Facts about text mode *)

Section TextMode.

Lemma no_cr_app (a b : string) : no_cr (a ++ b) = no_cr a && no_cr b.
Proof.
  induction a as [|c a IH]; simpl; [reflexivity|].
  now rewrite IH, andb_assoc.
Qed.

(** A text without carriage returns is read as it is. *)
Lemma universal_newlines_id (s : string) :
  no_cr s = true -> universal_newlines s = s.
Proof.
  induction s as [|c s IH]; simpl; [reflexivity|]. intros H.
  apply andb_true_iff in H as [Hc Hs]. apply negb_true_iff in Hc.
  now rewrite Hc, IH.
Qed.

(** What is read has no carriage return. *)
Lemma universal_newlines_no_cr (s : string) :
  no_cr (universal_newlines s) = true.
Proof.
  induction s as [|c s IH]; simpl; [reflexivity|].
  destruct (Ascii.eqb c CR) eqn:E.
  - destruct s as [|c' s']; [reflexivity|].
    destruct (Ascii.eqb c' NL); [exact IH | simpl; exact IH].
  - simpl. now rewrite E, IH.
Qed.

Lemma universal_newlines_idem (s : string) :
  universal_newlines (universal_newlines s) = universal_newlines s.
Proof. apply universal_newlines_id, universal_newlines_no_cr. Qed.

(** Reading commutes with concatenation, unless a CR LF pair is cut. *)
Lemma universal_newlines_app (a b : string) :
  startswith b (String NL "") = false ->
  universal_newlines (a ++ b) = universal_newlines a ++ universal_newlines b.
Proof.
  intros Hb. induction a as [|c a IH]; [reflexivity|].
  cbn [append universal_newlines]. destruct (Ascii.eqb c CR) eqn:E.
  - destruct a as [|c' a'].
    + cbn [append]. destruct b as [|c' b']; [reflexivity|].
      cbn [startswith] in Hb. rewrite andb_true_r in Hb.
      rewrite Ascii.eqb_sym, Hb. reflexivity.
    + cbn [append] in *. destruct (Ascii.eqb c' NL); rewrite IH; reflexivity.
  - rewrite IH. reflexivity.
Qed.

Lemma no_cr_join_inv (ls : list string) :
  no_cr (join ls) = true -> Forall (fun l => no_cr l = true) ls.
Proof.
  unfold join. induction ls as [|x ls IH]; cbn [fold_right]; [constructor|].
  rewrite no_cr_app. intros H. apply andb_true_iff in H as [Hx Hls].
  constructor; auto.
Qed.

Lemma no_cr_lines (t : string) :
  no_cr t = true -> Forall (fun l => no_cr l = true) (lines t).
Proof. intros H. apply no_cr_join_inv. now rewrite join_lines. Qed.

Lemma no_cr_join (ls : list string) :
  Forall (fun l => no_cr l = true) ls -> no_cr (join ls) = true.
Proof.
  unfold join. induction 1 as [|x ls Hx _ IH]; cbn [fold_right];
    [reflexivity|].
  now rewrite no_cr_app, Hx, IH.
Qed.

Lemma Forall_filter_keep {A : Type} (P : A -> Prop) (p : A -> bool)
  (ls : list A) :
  Forall P ls -> Forall P (filter p ls).
Proof.
  induction 1 as [|x ls Hx _ IH]; cbn; [constructor|].
  destruct (p x); [now constructor | assumption].
Qed.

(** The lines of a file are those of its text. *)
Lemma text_lines_text (c : string) :
  text_lines (universal_newlines c) = text_lines c.
Proof. unfold text_lines. now rewrite universal_newlines_idem. Qed.

Lemma text_lines_id (c : string) : no_cr c = true -> text_lines c = lines c.
Proof. intros H. unfold text_lines. now rewrite universal_newlines_id. Qed.

Lemma join_text_lines (c : string) :
  join (text_lines c) = universal_newlines c.
Proof. apply join_lines. Qed.


(** Lines chosen among those of a file, written one after another, are
    read back as they are. *)
Lemma text_lines_join_filter (p : string -> bool) (c : string) :
  text_lines (join (filter p (text_lines c))) = filter p (text_lines c).
Proof.
  rewrite text_lines_id.
  - apply lines_join, wf_lines_filter, wf_lines_lines.
  - apply no_cr_join, Forall_filter_keep, no_cr_lines,
      universal_newlines_no_cr.
Qed.

(** A name without line ends that occurs in the bytes occurs in the
    text. *)
Lemma universal_newlines_keeps (name : string) :
  no_cr name = true ->
  forall rest, universal_newlines (name ++ rest)
               = name ++ universal_newlines rest.
Proof.
  induction name as [|c name IH]; [reflexivity|]. intros H rest.
  cbn in H. apply andb_true_iff in H as [Hc Hn]. apply negb_true_iff in Hc.
  cbn [append universal_newlines]. now rewrite Hc, IH.
Qed.

Lemma occurs_universal_newlines (name c : string) :
  name <> "" -> no_cr name = true -> no_newline name = true ->
  occurs_in name c -> occurs_in name (universal_newlines c).
Proof.
  intros Hne Hcr Hnl (pre & post & ->).
  exists (universal_newlines pre), (universal_newlines post).
  rewrite universal_newlines_app.
  - now rewrite (universal_newlines_keeps _ Hcr).
  - destruct name as [|a name]; [contradiction|].
    cbn [no_newline] in Hnl. cbn [append startswith].
    apply andb_true_iff in Hnl as [Ha _]. apply negb_true_iff in Ha.
    now rewrite andb_true_r, Ascii.eqb_sym.
Qed.

(** *** The decoder *)

Lemma utf8_run_app (st : utf8_state) (a b : string) :
  utf8_run st (a ++ b)
  = match utf8_run st a with
    | Some st' => utf8_run st' b
    | None => None
    end.
Proof.
  revert st; induction a as [|c a IH]; intros st; cbn; [reflexivity|].
  destruct (utf8_step st c); [apply IH | reflexivity].
Qed.

Lemma valid_utf8_run (s : string) :
  valid_utf8 s = true <-> utf8_run Start s = Some Start.
Proof.
  unfold valid_utf8. destruct (utf8_run Start s) as [[]|]; split;
    congruence.
Qed.

Lemma valid_utf8_app (a b : string) :
  valid_utf8 a = true -> valid_utf8 (a ++ b) = valid_utf8 b.
Proof.
  intros H. apply valid_utf8_run in H. unfold valid_utf8.
  now rewrite utf8_run_app, H.
Qed.

(** A line end is a character of its own: it is accepted between two
    characters only. *)
Lemma utf8_step_line_end (st : utf8_state) (c : ascii) :
  c = NL \/ c = CR ->
  utf8_step st c = if match st with Start => true | _ => false end
                   then Some Start else None.
Proof. intros [-> | ->]; destruct st; reflexivity. Qed.

Lemma utf8_run_universal_newlines (s : string) (st : utf8_state) :
  utf8_run st (universal_newlines s) = utf8_run st s.
Proof.
  revert st; induction s as [|c s IH]; intros st; [reflexivity|].
  cbn [universal_newlines]. destruct (Ascii.eqb_spec c CR) as [->|Hc].
  - destruct s as [|c' s'].
    + cbn [utf8_run]. now rewrite !utf8_step_line_end by auto.
    + destruct (Ascii.eqb_spec c' NL) as [->|Hc'].
      * rewrite IH. cbn [utf8_run]. rewrite !utf8_step_line_end by auto.
        destruct st; reflexivity.
      * cbn [utf8_run] in *. rewrite !utf8_step_line_end by auto.
        destruct st; cbn; try reflexivity. apply IH.
  - cbn [utf8_run]. destruct (utf8_step st c); [apply IH | reflexivity].
Qed.

(** Reading with universal newlines does not change what decodes. *)
Lemma valid_universal_newlines (s : string) :
  valid_utf8 (universal_newlines s) = valid_utf8 s.
Proof. unfold valid_utf8. now rewrite utf8_run_universal_newlines. Qed.

Lemma utf8_run_lines (t : string) (st : utf8_state) :
  utf8_run st t = Some Start ->
  match lines t with
  | [] => st = Start
  | l :: ls =>
      utf8_run st l = Some Start
      /\ Forall (fun x => valid_utf8 x = true) ls
  end.
Proof.
  revert st; induction t as [|c t IH]; intros st; cbn [utf8_run lines].
  - congruence.
  - destruct (utf8_step st c) as [st'|] eqn:Es; [|discriminate].
    intros H. specialize (IH st' H).
    destruct (Ascii.eqb_spec c NL) as [->|Hc].
    + rewrite utf8_step_line_end in Es by auto.
      destruct st; try discriminate. injection Es as <-.
      cbn [utf8_run]. split; [reflexivity|].
      destruct (lines t) as [|l ls]; [constructor|].
      destruct IH as [Hl Hls]. constructor; [|exact Hls].
      now apply valid_utf8_run.
    + destruct (lines t) as [|l ls].
      * subst st'. cbn [utf8_run]. rewrite Es. split; [reflexivity|constructor].
      * destruct IH as [Hl Hls]. cbn [utf8_run]. rewrite Es. now split.
Qed.

Lemma valid_lines (t : string) :
  valid_utf8 t = true -> Forall (fun l => valid_utf8 l = true) (lines t).
Proof.
  intros H. apply valid_utf8_run in H. apply utf8_run_lines in H.
  destruct (lines t) as [|l ls]; [constructor|].
  destruct H as [Hl Hls]. constructor; [now apply valid_utf8_run | exact Hls].
Qed.

Lemma valid_join (ls : list string) :
  Forall (fun l => valid_utf8 l = true) ls -> valid_utf8 (join ls) = true.
Proof.
  unfold join. induction 1 as [|x ls Hx _ IH]; cbn [fold_right];
    [reflexivity|].
  now rewrite (valid_utf8_app _ _ Hx).
Qed.

(** Lines chosen among those of a file that decodes, written one after
    another, decode. *)
Lemma valid_join_filter (p : string -> bool) (c : string) :
  valid_utf8 c = true -> valid_utf8 (join (filter p (text_lines c))) = true.
Proof.
  intros H. apply valid_join, Forall_filter_keep, valid_lines.
  now rewrite valid_universal_newlines.
Qed.

Lemma decode_valid (c : string) :
  valid_utf8 c = true -> decode c = Some (universal_newlines c).
Proof. intros H. unfold decode. now rewrite H. Qed.

Lemma decode_invalid (c : string) : valid_utf8 c = false -> decode c = None.
Proof. intros H. unfold decode. now rewrite H. Qed.

End TextMode.

(** ** Reading a file line by line *)

Section Stream.

Lemma terminated_cons (c : ascii) (l : string) :
  l <> "" -> terminated (String c l) = terminated l.
Proof. destruct l; [contradiction | reflexivity]. Qed.

Lemma terminated_line (b : string) : terminated (b ++ String NL "") = true.
Proof.
  induction b as [|c b IH]; [reflexivity|]. cbn [append].
  rewrite terminated_cons; [exact IH|]. destruct b; discriminate.
Qed.

(** Only the last line of a text can lack its end. *)
Lemma lines_unterminated_first (t l : string) (ls : list string) :
  lines t = l :: ls -> terminated l = false -> ls = [].
Proof.
  intros E Hl. pose proof (wf_lines_lines t) as H. rewrite E in H.
  inversion H; subst; [reflexivity|].
  rewrite terminated_line in Hl. discriminate.
Qed.

(** The complete lines of a text are the first lines of any text that
    continues it. *)
Lemma lines_complete_prefix (t x : string) :
  exists rest, lines (t ++ x) = (filter terminated (lines t) ++ rest)%list.
Proof.
  induction t as [|c t IH]; [exists (lines x); reflexivity|].
  destruct IH as [rest IH]. cbn [append lines].
  destruct (Ascii.eqb c NL) eqn:Ec.
  - apply Ascii.eqb_eq in Ec; subst c. exists rest.
    cbn [filter]. change (terminated (String NL "")) with true. cbn iota.
    now rewrite IH.
  - destruct (lines t) as [|l ls] eqn:El.
    + cbn [filter terminated]. rewrite Ec. eexists. reflexivity.
    + assert (Hl : l <> "")
        by (apply (lines_nonempty t); rewrite El; now left).
      cbn [filter] in *. rewrite (terminated_cons _ _ Hl).
      destruct (terminated l) eqn:Et.
      * rewrite IH. exists rest. reflexivity.
      * rewrite (lines_unterminated_first _ _ _ El Et) in *.
        cbn [filter app] in *. eexists. reflexivity.
Qed.

Lemma without_final_cr_cases (d : string) :
  d = without_final_cr d \/ d = without_final_cr d ++ String CR "".
Proof.
  induction d as [|c d IH]; [now left|]. cbn [without_final_cr].
  destruct d as [|c' d'].
  - destruct (Ascii.eqb_spec c CR) as [->|_]; [now right | now left].
  - destruct IH as [IH|IH]; [left | right]; cbn [append]; now f_equal.
Qed.

(** What the end of the file cuts is made of bytes of a character:
    no line end is among them. *)
Lemma complete_characters_split (s : string) :
  forall st st', utf8_run st s = Some st' ->
  exists p, s = complete_characters st s ++ p
            /\ no_cr p = true /\ no_newline p = true.
Proof.
  induction s as [|c s IH]; intros st st' H.
  - exists "". now repeat split.
  - cbn [utf8_run] in H. cbn [complete_characters].
    destruct (utf8_step st c) as [st1|] eqn:Es; [|discriminate].
    destruct (IH _ _ H) as (p & Hs & Hcr & Hnl). cbv zeta.
    destruct (is_start st1 || negb (complete_characters st1 s =? ""))
      eqn:Ek.
    + exists p. cbn [append]. split; [now f_equal | now split].
    + apply orb_false_iff in Ek as [Hst Hd].
      apply negb_false_iff, String.eqb_eq in Hd. rewrite Hd in Hs.
      cbn [append] in Hs. subst p. exists (String c s).
      split; [reflexivity|]. cbn [no_cr no_newline]. rewrite Hcr, Hnl.
      assert (Hc : c <> NL /\ c <> CR).
      { split; intros ->;
          rewrite utf8_step_line_end in Es by auto;
          destruct st; try discriminate; injection Es as <-;
          discriminate. }
      destruct Hc as [H1 H2].
      apply Ascii.eqb_neq in H1, H2. now rewrite H1, H2.
Qed.

Lemma startswith_line_feed (p : string) :
  no_newline p = true -> startswith p (String NL "") = false.
Proof.
  destruct p as [|c p]; [reflexivity|]. cbn [no_newline startswith].
  intros H. apply andb_true_iff in H as [H _]. apply negb_true_iff in H.
  rewrite Ascii.eqb_sym, H. reflexivity.
Qed.

(** The lines an iteration gives are the first of the lines of the
    file. *)
Lemma stream_lines_prefix (c : string) :
  exists rest, text_lines c = (fst (stream_lines c) ++ rest)%list.
Proof.
  unfold stream_lines, text_lines.
  destruct (utf8_run Start c) as [st|] eqn:Er; [|eexists; reflexivity].
  assert (H : exists rest,
             lines (universal_newlines c)
             = (filter terminated
                  (lines (universal_newlines
                            (without_final_cr (complete_characters Start c))))
                ++ rest)%list).
  { destruct (complete_characters_split _ _ _ Er) as (p & Hs & Hcr & Hnl).
    set (d := complete_characters Start c) in *. clearbody d. subst c.
    destruct (without_final_cr_cases d) as [Hd|Hd].
    - rewrite universal_newlines_app by now apply startswith_line_feed.
      rewrite <- Hd. apply lines_complete_prefix.
    - set (d' := without_final_cr d) in *. clearbody d'. subst d.
      rewrite append_assoc.
      rewrite universal_newlines_app by reflexivity.
      apply lines_complete_prefix. }
  destruct st; try exact H. exists []. now rewrite app_nil_r.
Qed.

Lemma stream_lines_valid (c : string) :
  valid_utf8 c = true -> stream_lines c = (text_lines c, false).
Proof.
  unfold valid_utf8, stream_lines.
  destruct (utf8_run Start c) as [[]|]; try discriminate. reflexivity.
Qed.

Lemma stream_lines_invalid (c : string) :
  valid_utf8 c = false -> snd (stream_lines c) = true.
Proof.
  unfold valid_utf8, stream_lines.
  destruct (utf8_run Start c) as [[]|]; try discriminate; reflexivity.
Qed.


Lemma first_line_with_early (name : string) (l1 l2 : list string) :
  existsb (fun l => mentions l name) l1 = true ->
  first_line_with name (l1 ++ l2) = first_line_with name l1
  /\ In (first_line_with name l1) l1.
Proof.
  induction l1 as [|a l1 IH]; cbn; [discriminate|].
  destruct (mentions a name); cbn; [intros _; split; [reflexivity|now left]|].
  intros H. destruct (IH H) as [H1 H2]. split; [exact H1 | now right].
Qed.

Lemma first_line_with_absent (name : string) (ls : list string) :
  existsb (fun l => mentions l name) ls = false ->
  first_line_with name ls = "".
Proof.
  induction ls as [|a ls IH]; cbn; [reflexivity|].
  destruct (mentions a name); cbn; [discriminate | exact IH].
Qed.

(** A line found before the end of the file is the line located in the
    text of the file. *)
Lemma found_located (name c : string) :
  found_before_end name c = true ->
  first_line_with name (fst (stream_lines c)) = located name c
  /\ located name c <> ""
  /\ In (located name c) (fst (stream_lines c)).
Proof.
  unfold found_before_end, located. intros H.
  destruct (stream_lines_prefix c) as [rest Hp]. rewrite Hp.
  destruct (first_line_with_early name _ rest H) as [H1 H2].
  rewrite H1. split; [reflexivity|]. split; [|exact H2].
  apply (lines_nonempty (universal_newlines c)).
  fold (text_lines c). rewrite Hp. apply in_or_app. now left.
Qed.

Lemma found_located_test (name c : string) :
  found_before_end name c = true -> negb (located name c =? "") = true.
Proof.
  intros H. apply negb_true_iff, String.eqb_neq.
  now destruct (found_located _ _ H) as (_ & Hne & _).
Qed.


Lemma read_loop_run (name : string) (ls : list string) (failure : bool)
  (w : World) :
  read_loop name ls failure w
  = (if existsb (fun l => mentions l name) ls
     then Ret (first_line_with name ls)
     else if failure then Raise UNICODE_DECODE_ERROR else Ret "", w).
Proof.
  induction ls as [|a ls IH]; cbn; [now destruct failure|].
  destruct (mentions a name); [reflexivity | exact IH].
Qed.

(** What [env_variable_read] does on a staging file with the bytes
    [c]. *)
Lemma env_variable_read_run (name c : string) (w : World) :
  staging w = Some c ->
  env_variable_read name w
  = (if valid_utf8 c || found_before_end name c
     then Ret (located name c) else Raise UNICODE_DECODE_ERROR,
     emit (EvOpen TMP_SNIFFER_CONF_FILE ModeRead) w).
Proof.
  intros H. unfold env_variable_read, bind, open_existing. rewrite H.
  rewrite read_loop_run. fold (found_before_end name c).
  destruct (valid_utf8 c) eqn:Hv; cbn [orb].
  - unfold found_before_end. rewrite (stream_lines_valid _ Hv).
    cbn [fst snd]. fold (located name c).
    destruct (existsb _ (text_lines c)) eqn:E; [reflexivity|].
    unfold located. now rewrite (first_line_with_absent _ _ E).
  - rewrite (stream_lines_invalid _ Hv).
    destruct (found_before_end name c) eqn:E; [|reflexivity].
    now destruct (found_located _ _ E) as [-> _].
Qed.

End Stream.

(** ** Running the program symbolically *)

Section WeakestPre.

Lemma wp_elim {A : Type} (m : M A) (w : World) Q r w' :
  wp m w Q -> m w = (r, w') -> Q r w'.
Proof. unfold wp. intros H E. now rewrite E in H. Qed.

Lemma wp_conseq {A : Type} (m : M A) (w : World)
  (Q Q' : result A -> World -> Prop) :
  wp m w Q -> (forall r w', Q r w' -> Q' r w') -> wp m w Q'.
Proof. unfold wp. auto. Qed.

Lemma wp_bind {A B : Type} (m : M A) (k : A -> M B) (w : World) Q :
  wp m w (fun r w1 => match r with
                      | Ret a => wp (k a) w1 Q
                      | Raise e => Q (Raise e) w1
                      end) ->
  wp (bind m k) w Q.
Proof. unfold wp, bind. destruct (m w) as [[a|e] w1]; cbn; auto. Qed.

Lemma wp_ret {A : Type} (a : A) (w : World)
  (Q : result A -> World -> Prop) : Q (Ret a) w -> wp (ret a) w Q.
Proof. auto. Qed.

Lemma wp_effect (f : World -> World) (w : World)
  (Q : result unit -> World -> Prop) :
  Q (Ret tt) (f w) -> wp (effect f) w Q.
Proof. auto. Qed.

Lemma wp_run_command (argv : list string) (w : World)
  (Q : result unit -> World -> Prop) :
  match hd CmdOk (outcomes w) with
  | CmdRaise e =>
      Q (Raise e)
        (emit (EvRun argv (CmdRaise e)) (set_outcomes (tl (outcomes w)) w))
  | CmdOk =>
      match command_effect argv (set_outcomes (tl (outcomes w)) w) with
      | Some w2 => Q (Ret tt) (emit (EvRun argv CmdOk) w2)
      | None =>
          Q (Raise (FatalError "command failed"))
            (emit (EvRun argv (CmdRaise (FatalError "command failed")))
                  (set_outcomes (tl (outcomes w)) w))
      end
  end -> wp (run_command argv) w Q.
Proof.
  unfold wp, run_command, next_outcome.
  destruct (hd CmdOk (outcomes w)); [|auto].
  destruct (command_effect argv _); auto.
Qed.

Lemma wp_open_existing (mode : open_mode) (w : World)
  (Q : result string -> World -> Prop) :
  match staging w with
  | Some c => Q (Ret c) (emit (EvOpen TMP_SNIFFER_CONF_FILE mode) w)
  | None => Q (Raise (OSError "No such file or directory"))
              (emit (EvOpen TMP_SNIFFER_CONF_FILE mode) w)
  end -> wp (open_existing mode) w Q.
Proof. unfold wp, open_existing. destruct (staging w); auto. Qed.

Lemma wp_open_append (w : World) (Q : result string -> World -> Prop) :
  Q (Ret (match staging w with Some c => c | None => "" end))
    (emit (EvOpen TMP_SNIFFER_CONF_FILE ModeAppend)
       (set_staging
          (Some (match staging w with Some c => c | None => "" end)) w)) ->
  wp open_append w Q.
Proof. auto. Qed.

Lemma wp_try_except_OSError {A : Type} (m : M A) (h : string -> M A)
  (w : World) Q :
  wp m w (fun r w1 => match r with
                      | Raise (OSError msg) => wp (h msg) w1 Q
                      | other => Q other w1
                      end) ->
  wp (try_except_OSError m h) w Q.
Proof.
  unfold wp, try_except_OSError. destruct (m w) as [[a|[msg|msg]] w1]; auto.
Qed.

Lemma wp_read_text (c : string) (w : World)
  (Q : result string -> World -> Prop) :
  (if valid_utf8 c then Q (Ret (universal_newlines c)) w
   else Q (Raise UNICODE_DECODE_ERROR) w) ->
  wp (read_text c) w Q.
Proof. unfold wp, read_text, decode. destruct (valid_utf8 c); auto. Qed.

Lemma wp_env_variable_read (name : string) (w : World)
  (Q : result string -> World -> Prop) :
  match staging w with
  | Some c =>
      if valid_utf8 c || found_before_end name c
      then Q (Ret (located name c))
             (emit (EvOpen TMP_SNIFFER_CONF_FILE ModeRead) w)
      else Q (Raise UNICODE_DECODE_ERROR)
             (emit (EvOpen TMP_SNIFFER_CONF_FILE ModeRead) w)
  | None => Q (Raise (OSError "No such file or directory"))
              (emit (EvOpen TMP_SNIFFER_CONF_FILE ModeRead) w)
  end -> wp (env_variable_read name) w Q.
Proof.
  unfold wp. destruct (staging w) as [c|] eqn:Hs.
  - rewrite (env_variable_read_run _ _ _ Hs).
    now destruct (valid_utf8 c || found_before_end name c).
  - unfold env_variable_read, bind, open_existing. now rewrite Hs.
Qed.

Lemma wp_sniffer_filename_generate (w : World)
  (Q : result string -> World -> Prop) :
  (if target_dir w then Q (Ret (sniffer_filename (now w))) w
   else match makedirs_outcome w with
        | CmdOk =>
            Q (Ret (sniffer_filename (now w)))
              (emit (EvMakedirs SDK_SNIFFER_TARGET_PATH)
                    (add_dir SDK_SNIFFER_TARGET_PATH w))
        | CmdRaise e => Q (Raise e) w
        end) ->
  wp (sniffer_filename_generate SDK_SNIFFER_TARGET_PATH
        SDK_SNIFFER_FILENAME_PREFIX SDK_SNIFFER_FILENAME_EXT) w Q.
Proof.
  unfold wp, sniffer_filename_generate, bind, makedirs, target_dir.
  destruct (path_exists SDK_SNIFFER_TARGET_PATH w); cbn; [auto|].
  destruct (makedirs_outcome w); auto.
Qed.

End WeakestPre.

Ltac unfold_program :=
  unfold sniffer_env_variable_set, conf_file_receive, conf_file_copy,
    config_file_send, env_variable_delete, env_variable_write, restart_swss.

(* On a world given by its fields. *)
Ltac world_compute :=
  lazy beta iota zeta delta
    [now remote staging dirs makedirs_outcome outcomes trace emit
     set_staging set_outcomes set_remote add_dir set_now fragment
     fst snd] in *.

(* On a world that is a variable. *)
Ltac world_simpl :=
  cbn [now remote staging dirs makedirs_outcome outcomes trace emit
       set_staging set_outcomes set_remote add_dir set_now fragment
       fst snd] in *.

Ltac wp_step :=
  lazymatch goal with
  | |- wp (bind _ _) _ _ => apply wp_bind
  | |- wp (ret _) _ _ => apply wp_ret
  | |- wp (effect _) _ _ => apply wp_effect
  | |- wp (echo _) _ _ => apply wp_effect
  | |- wp (log_error _) _ _ => apply wp_effect
  | |- wp (store _) _ _ => apply wp_effect
  | |- wp (run_command _) _ _ => apply wp_run_command; cbn
  | |- wp (open_existing _) _ _ => apply wp_open_existing; cbn
  | |- wp (env_variable_read _) _ _ => apply wp_env_variable_read; cbn
  | |- if valid_utf8 ?c || found_before_end ?n ?c then _ else _ =>
      let Hv := fresh "Hvalid" in
      let Hf := fresh "Hfound" in
      first [ match goal with
              | H : valid_utf8 c = true |- _ => rewrite H; cbn [orb]
              end
            | destruct (valid_utf8 c) eqn:Hv; cbn [orb];
              [| destruct (found_before_end n c) eqn:Hf;
                 [pose proof (found_located_test n c Hf)|] ] ]
  | |- wp (read_text _) _ _ => apply wp_read_text
  | |- if valid_utf8 ?c then _ else _ =>
      first [ match goal with
              | H : valid_utf8 c = _ |- _ => rewrite H
              end
            | destruct (valid_utf8 c) eqn:? ]
  | |- wp open_append _ _ => apply wp_open_append; cbn
  | |- wp (try_except_OSError _ _) _ _ => apply wp_try_except_OSError
  | |- wp (sniffer_filename_generate _ _ _) _ _ =>
      apply wp_sniffer_filename_generate
  | |- wp (if ?b then _ else _) _ _ =>
      first [ match goal with H : b = _ |- _ => rewrite H end
            | destruct b eqn:? ]; cbn
  | |- wp _ _ _ => progress unfold_program
  | |- match hd CmdOk ?x with _ => _ end => destruct (hd CmdOk x) eqn:?; cbn
  | |- match ?e with OSError _ => _ | FatalError _ => _ end => destruct e; cbn
  end.

Ltac trace_eq := cbn; rewrite <- ?app_assoc; reflexivity.

Ltac prefix_steps := unfold is_prefix; eexists; cbn; reflexivity.

(** ** Summaries of the runs *)

Lemma set_run (en : bool) (name s : string) (w : World) :
  wp (sniffer_env_variable_set en name s) w (set_post en name s w).
Proof.
  unfold set_post, toggle_ignore, toggle_content, set_events.
  destruct w as [rem stg ds mk nw outs tr].
  repeat wp_step.
  all: world_compute.
  all: set (c := match rem with Some c => c | None => "" end) in *; clearbody c.
  all: repeat match goal with H : _ = _ |- _ => rewrite H end.
  all: do 2 (split; [reflexivity|]).
  all: eexists; split; [trace_eq|].
  all: try (repeat split; reflexivity).
  all: split;
    [ first [ left; reflexivity | right; left; reflexivity
            | right; right; split; reflexivity ]
    | repeat match goal with
        | |- context [if ?b then _ else _] => destruct b
        end; prefix_steps ].
Qed.

Lemma steps_app (a b : list event) : steps (a ++ b) = (steps a ++ steps b)%list.
Proof.
  induction a as [|e a IH]; cbn; [reflexivity|].
  destruct (step_of e); cbn; now rewrite IH.
Qed.

Lemma steps_set_events (enable : bool) (l : string) :
  steps (set_events enable l)
  = if toggle_ignore enable l then NOOP_STEPS else CHANGE_STEPS.
Proof.
  unfold set_events, toggle_ignore.
  destruct (negb (l =? "")), enable; reflexivity.
Qed.

Lemma is_prefix_trans {A : Type} (a b c : list A) :
  is_prefix a b -> is_prefix b c -> is_prefix a c.
Proof.
  intros [x ->] [y ->]. exists (x ++ y)%list. now rewrite app_assoc.
Qed.

Lemma is_prefix_In {A : Type} (a b : list A) (x : A) :
  is_prefix a b -> In x a -> In x b.
Proof. intros [y ->] H. apply in_or_app. now left. Qed.

Lemma sdk_body_run (enable : bool) (s msg : string) (w : World) :
  wp (ignore <- sniffer_env_variable_set enable ENV_VARIABLE_SX_SNIFFER s ;;
      if negb ignore then
        err <- restart_swss ;;
        if negb (err =? 0)%Z then ret tt else echo msg
      else ret tt) w
     (sdk_post enable s msg [] (target_dir w) w).
Proof.
  apply wp_bind. eapply wp_conseq; [apply set_run|].
  intros [ig|e] w1 (Hnow & Htd & tr & Htr & H); unfold sdk_post.
  - destruct H as (Hig & Hrem & Hstg & ->). rewrite <- Hig.
    destruct ig; cbn [negb].
    + apply wp_ret. repeat split; try assumption.
      exists (set_events enable (located ENV_VARIABLE_SX_SNIFFER (fragment w))).
      repeat split; assumption.
    + repeat wp_step; world_simpl.
      all: do 2 (split; [assumption|]).
      all: eexists; (split; [rewrite Htr; rewrite <- ?app_assoc; reflexivity|]).
      * split; [assumption | split; [assumption | left; reflexivity]].
      * split; [assumption | split; [assumption | right; eexists; reflexivity]].
      * split; [right; right; split; [reflexivity | assumption]|].
        split; [|intros _; split; [assumption|split; [assumption|]];
                 eexists; reflexivity].
        rewrite steps_app, steps_set_events, <- Hig. now exists [].
  - destruct H as (Hrem & Hpre).
    do 2 (split; [assumption|]). exists tr. split; [assumption|].
    split; [assumption|]. split.
    + destruct (toggle_ignore enable _); [assumption|].
      apply (is_prefix_trans _ _ _ Hpre). now exists [Restart].
    + intros Hin. exfalso. apply (is_prefix_In _ _ _ Hpre) in Hin.
      destruct (toggle_ignore enable _); cbn in Hin;
        repeat (destruct Hin as [Hin|Hin]; [discriminate|]); exact Hin.
Qed.

Lemma sdk_sniffer_disable_run (w : World) :
  wp sdk_sniffer_disable w
     (sdk_post false "" MSG_DISABLED [] (target_dir w) w).
Proof. exact (sdk_body_run false "" MSG_DISABLED w). Qed.

Lemma target_dir_add_dir (w : World) :
  target_dir (add_dir SDK_SNIFFER_TARGET_PATH w) = true.
Proof. reflexivity. Qed.

Lemma sdk_sniffer_enable_run (w : World) :
  wp sdk_sniffer_enable w
     (fun r w' =>
        match makedirs_failure w with
        | Some e => r = Raise e /\ w' = w
        | None =>
            sdk_post true (directive_line (now w))
              (MSG_ENABLED (sniffer_filename (now w))) (makedirs_events w)
              true w r w'
        end).
Proof.
  unfold sdk_sniffer_enable. apply wp_bind.
  apply wp_sniffer_filename_generate. cbv zeta.
  unfold makedirs_failure, makedirs_events.
  destruct (target_dir w) eqn:Etd.
  - eapply wp_conseq; [apply sdk_body_run|].
    rewrite Etd. intros r w' H. exact H.
  - destruct (makedirs_outcome w) as [|e]; [|split; reflexivity].
    eapply wp_conseq; [apply sdk_body_run|].
    unfold sdk_post, directive_line. world_simpl.
    intros r w' (Hnow & Htd & tr & Htr & H).
    do 2 (split; [assumption|]). exists tr.
    split; [now rewrite Htr, <- app_assoc | exact H].
Qed.

(** ** The editors of the staging file *)

Lemma mentions_false_iff (l name : string) :
  mentions l name = false <-> ~ occurs_in name l.
Proof.
  rewrite <- mentions_iff. destruct (mentions l name).
  - split; [discriminate | intros H; exfalso; now apply H].
  - split; [intros _ H; discriminate | reflexivity].
Qed.


Lemma env_variable_delete_eq (delete_line c : string) (w : World) :
  staging w = Some c ->
  valid_utf8 c = true ->
  env_variable_delete delete_line w
  = (Ret tt,
     set_staging (Some (join (kept_lines delete_line (text_lines c))))
       (emit (EvOpen TMP_SNIFFER_CONF_FILE ModeReadWrite) w)).
Proof.
  intros H Hv.
  unfold env_variable_delete, bind, open_existing, read_text. rewrite H.
  now rewrite (decode_valid _ Hv).
Qed.

Lemma env_variable_delete_undecodable (delete_line c : string) (w : World) :
  staging w = Some c ->
  valid_utf8 c = false ->
  env_variable_delete delete_line w
  = (Raise UNICODE_DECODE_ERROR,
     emit (EvOpen TMP_SNIFFER_CONF_FILE ModeReadWrite) w).
Proof.
  intros H Hv.
  unfold env_variable_delete, bind, open_existing, read_text. rewrite H.
  now rewrite (decode_invalid _ Hv).
Qed.

(** What [env_variable_delete] writes is read back as the lines it
    kept, has no carriage return, and decodes when the file did. *)
Lemma lines_kept (delete_line c : string) :
  text_lines (join (kept_lines delete_line (text_lines c)))
  = kept_lines delete_line (text_lines c).
Proof. apply text_lines_join_filter. Qed.

Lemma no_cr_kept (delete_line c : string) :
  no_cr (join (kept_lines delete_line (text_lines c))) = true.
Proof.
  apply no_cr_join, Forall_filter_keep, no_cr_lines, universal_newlines_no_cr.
Qed.

Lemma valid_kept (delete_line c : string) :
  valid_utf8 c = true ->
  valid_utf8 (join (kept_lines delete_line (text_lines c))) = true.
Proof. apply valid_join_filter. Qed.

Lemma kept_lines_absent (delete_line : string) (ls : list string) :
  ~ In delete_line ls -> kept_lines delete_line ls = ls.
Proof.
  induction ls as [|l ls IH]; cbn; intros H; [reflexivity|].
  destruct (String.eqb_spec l delete_line) as [->|_]; cbn.
  - exfalso. apply H. now left.
  - f_equal. apply IH. intros Hin. apply H. now right.
Qed.

Lemma kept_lines_In (delete_line l : string) (ls : list string) :
  In l (kept_lines delete_line ls) <-> In l ls /\ l <> delete_line.
Proof.
  unfold kept_lines. rewrite filter_In, negb_true_iff, String.eqb_neq.
  reflexivity.
Qed.

Lemma located_cases (name c : string) :
  (located name c = ""
   /\ forall l, In l (text_lines c) -> ~ occurs_in name l)
  \/ (exists pre post,
         text_lines c = (pre ++ located name c :: post)%list
         /\ occurs_in name (located name c)
         /\ forall l, In l pre -> ~ occurs_in name l).
Proof.
  unfold located.
  destruct (first_line_with_cases name (text_lines c))
    as [[H1 H2] | (pre & post & H1 & H2 & H3)].
  - left. split; [assumption|]. intros l Hl.
    apply mentions_false_iff. rewrite Forall_forall in H2. now apply H2.
  - right. exists pre, post. split; [assumption|].
    split; [now apply mentions_iff|]. intros l Hl.
    apply mentions_false_iff. rewrite Forall_forall in H3. now apply H3.
Qed.


Lemma located_empty_iff (name c : string) :
  located name c = ""
  <-> forall l, In l (text_lines c) -> ~ occurs_in name l.
Proof.
  split.
  - intros He. destruct (located_cases name c)
      as [[_ H]|(pre & post & H1 & H2 & _)]; [exact H|].
    exfalso.
    apply (lines_nonempty (universal_newlines c) (located name c));
      [|exact He].
    fold (text_lines c). rewrite H1. apply in_elt.
  - intros Hno. unfold located. apply first_line_with_none.
    apply Forall_forall. intros l Hl. apply mentions_false_iff.
    now apply Hno.
Qed.


(** C10 (as the code has it).  On a staging file that decodes, one call
    of [env_variable_delete] removes every line equal to the given one,
    so a second call changes nothing more.  The file is rewritten from
    the lines the text stream presents: when no line equals the given
    one its content is the text of the old content, line ends read as
    LF, and it is the old content byte for byte when that had no
    carriage return. *)
Theorem env_variable_delete_idempotent (delete_line c : string) (w : World) :
  staging w = Some c ->
  valid_utf8 c = true ->
  exists w1 c1,
    env_variable_delete delete_line w = (Ret tt, w1)
    /\ staging w1 = Some c1 /\ remote w1 = remote w
    /\ text_lines c1 = kept_lines delete_line (text_lines c)
    /\ ~ In delete_line (text_lines c1)
    /\ (exists w2, env_variable_delete delete_line w1 = (Ret tt, w2)
                   /\ staging w2 = Some c1 /\ remote w2 = remote w)
    /\ (~ In delete_line (text_lines c) -> c1 = universal_newlines c)
    /\ (~ In delete_line (text_lines c) -> no_cr c = true -> c1 = c).
Proof.
  intros Hs Hv.
  exists (set_staging (Some (join (kept_lines delete_line (text_lines c))))
            (emit (EvOpen TMP_SNIFFER_CONF_FILE ModeReadWrite) w)).
  exists (join (kept_lines delete_line (text_lines c))).
  split; [exact (env_variable_delete_eq _ _ _ Hs Hv)|].
  do 2 (split; [reflexivity|]).
  split; [apply lines_kept|].
  assert (Hgone : ~ In delete_line
                      (text_lines
                         (join (kept_lines delete_line (text_lines c))))).
  { rewrite lines_kept, kept_lines_In. intros [_ H]. now apply H. }
  split; [exact Hgone|].
  assert (Habs : ~ In delete_line (text_lines c) ->
                 join (kept_lines delete_line (text_lines c))
                 = universal_newlines c).
  { intros Habs. now rewrite (kept_lines_absent _ _ Habs), join_text_lines. }
  split; [|split].
  - eexists. split.
    + apply (env_variable_delete_eq delete_line
               (join (kept_lines delete_line (text_lines c))));
        [reflexivity | exact (valid_kept _ _ Hv)].
    + world_simpl. split; [|reflexivity].
      rewrite (kept_lines_absent _ _ Hgone), join_text_lines.
      now rewrite (universal_newlines_id _ (no_cr_kept _ _)).
  - exact Habs.
  - intros Hno Hcr. now rewrite (Habs Hno), universal_newlines_id.
Qed.

(** ** Properties of the runs *)

Lemma new_events_eq (w w' : World) (tr : list event) :
  trace w' = (trace w ++ tr)%list -> new_events w w' = tr.
Proof.
  intros H. unfold new_events. rewrite H, skipn_app, skipn_all, Nat.sub_diag.
  reflexivity.
Qed.

Lemma new_events_refl (w : World) : new_events w w = [].
Proof. unfold new_events. apply skipn_all. Qed.

Lemma set_inv (en : bool) (name s : string) (w : World) r w' :
  sniffer_env_variable_set en name s w = (r, w') -> set_post en name s w r w'.
Proof. apply wp_elim, set_run. Qed.

(** A run of [sdk_sniffer_enable] that could not make the capture
    directory has done nothing. *)
Lemma enable_failed_inv (w : World) (e : exn) r w' :
  makedirs_failure w = Some e ->
  sdk_sniffer_enable w = (r, w') -> r = Raise e /\ w' = w.
Proof.
  intros Hf Hrun. pose proof (wp_elim _ _ _ _ _ (sdk_sniffer_enable_run w) Hrun)
    as H. now rewrite Hf in H.
Qed.

Lemma enable_run_inv (w : World) r w' :
  makedirs_failure w = None ->
  sdk_sniffer_enable w = (r, w') ->
  sdk_post true (directive_line (now w))
    (MSG_ENABLED (sniffer_filename (now w))) (makedirs_events w) true w r w'.
Proof.
  intros Hf Hrun. pose proof (wp_elim _ _ _ _ _ (sdk_sniffer_enable_run w) Hrun)
    as H. now rewrite Hf in H.
Qed.

(** A run of [sdk_sniffer_enable] that returns. *)
Lemma enable_inv (w : World) w' :
  sdk_sniffer_enable w = (Ret tt, w') ->
  sdk_post true (directive_line (now w))
    (MSG_ENABLED (sniffer_filename (now w))) (makedirs_events w) true w
    (Ret tt) w'.
Proof.
  intros Hrun. destruct (makedirs_failure w) as [e|] eqn:Hf.
  - destruct (enable_failed_inv _ _ _ _ Hf Hrun) as [H _]. discriminate H.
  - now apply enable_run_inv.
Qed.

Lemma disable_inv (w : World) r w' :
  sdk_sniffer_disable w = (r, w') ->
  sdk_post false "" MSG_DISABLED [] (target_dir w) w r w'.
Proof. apply wp_elim, sdk_sniffer_disable_run. Qed.

Lemma steps_makedirs_events (w : World) : steps (makedirs_events w) = [].
Proof. unfold makedirs_events. now destruct (target_dir w). Qed.

Lemma toggle_ignore_true (en : bool) (l : string) :
  toggle_ignore en l = true
  <-> (en = true /\ l <> "") \/ (en = false /\ l = "").
Proof.
  unfold toggle_ignore. destruct (String.eqb_spec l ""), en; cbn; split;
    intros H; try reflexivity; try discriminate; auto.
  all: destruct H as [[H1 H2]|[H1 H2]]; congruence.
Qed.

Lemma toggle_content_noop (en : bool) (l s c : string) :
  toggle_ignore en l = true -> toggle_content en l s c = c.
Proof.
  unfold toggle_ignore, toggle_content.
  destruct (negb (l =? "")), en; cbn; congruence.
Qed.

Lemma set_events_noop (en : bool) (l : string) :
  toggle_ignore en l = true ->
  set_events en l
  = noop_events (if en then MSG_ALREADY_ENABLED else MSG_ALREADY_DISABLED).
Proof.
  unfold toggle_ignore, set_events.
  destruct (negb (l =? "")), en; intros H; try discriminate H; reflexivity.
Qed.

(** A run of an entry point that finds the requested state in place. *)
Lemma sdk_post_noop (en : bool) (s msg : string) (pre : list event)
  (td : bool) (w : World) r w' :
  toggle_ignore en (located ENV_VARIABLE_SX_SNIFFER (fragment w)) = true ->
  sdk_post en s msg pre td w r w' ->
  fragment w' = fragment w
  /\ (remote w = Some (fragment w) -> remote w' = remote w)
  /\ (steps pre = [] -> is_prefix (steps (new_events w w')) NOOP_STEPS)
  /\ (r = Ret tt ->
      new_events w w'
      = (pre ++ noop_events (if en then MSG_ALREADY_ENABLED
                             else MSG_ALREADY_DISABLED))%list).
Proof.
  intros Hig (_ & _ & tr & Htr & H). unfold sdk_post in H.
  rewrite (new_events_eq _ _ _ Htr), steps_app.
  destruct r as [[]|e].
  - destruct H as (Hrem & _ & Hev). rewrite Hig in Hev. subst tr.
    rewrite toggle_content_noop in Hrem by assumption.
    assert (Hfrag : fragment w' = fragment w)
      by (unfold fragment at 1; now rewrite Hrem).
    split; [exact Hfrag|]. split; [congruence|]. split.
    + intros ->. rewrite steps_set_events, Hig. now exists [].
    + intros _. now rewrite set_events_noop.
  - destruct H as (Hrem & Hpre & _). rewrite Hig in Hpre.
    assert (Hfrag : fragment w' = fragment w).
    { destruct Hrem as [H|[H|[H _]]]; [| |congruence];
        unfold fragment at 1; now rewrite H. }
    split; [exact Hfrag|]. split.
    + intros Hw. destruct Hrem as [H|[H|[H _]]]; congruence.
    + split; [intros ->; exact Hpre | discriminate].
Qed.

(** A run of an entry point that returned, or got as far as the
    restart, has fetched the fragment into the staging file and removed
    the file afterwards. *)
Lemma set_events_staged (en : bool) (l : string) :
  In (EvRun ARGV_FETCH CmdOk) (set_events en l)
  /\ In (EvRun ARGV_CLEANUP CmdOk) (set_events en l).
Proof.
  unfold set_events. split.
  - right. left. reflexivity.
  - apply in_or_app. right. apply in_or_app. right. left. reflexivity.
Qed.

Lemma precedes_prefix (ss : list step) :
  ss = NOOP_STEPS \/ ss = APPLIED_STEPS ->
  precedes Fetch Cleanup ss = true.
Proof. intros [-> | ->]; reflexivity. Qed.

Lemma staged_and_removed (en : bool) (s msg : string) (pre : list event)
  (td : bool) (w : World) r w' :
  steps pre = [] ->
  sdk_post en s msg pre td w r w' ->
  r = Ret tt \/ In Restart (steps (new_events w w')) ->
  In (EvRun ARGV_FETCH CmdOk) (new_events w w')
  /\ In (EvRun ARGV_CLEANUP CmdOk) (new_events w w')
  /\ precedes Fetch Cleanup (steps (new_events w w')) = true
  /\ staging w' = None.
Proof.
  intros Hpre (_ & _ & tr & Htr & H) Hcase.
  rewrite (new_events_eq _ _ _ Htr) in *.
  rewrite steps_app, Hpre in *. cbn [app] in *.
  destruct r as [[]|e].
  - destruct H as (_ & Hstg & Hev).
    destruct (set_events_staged en
                (located ENV_VARIABLE_SX_SNIFFER (fragment w))) as [Hf Hc].
    destruct (toggle_ignore en _) eqn:Hig.
    + subst tr. rewrite steps_set_events, Hig.
      repeat split; try assumption; try reflexivity;
        apply in_or_app; now right.
    + assert (Hs : steps tr = APPLIED_STEPS).
      { destruct Hev as [->|[cause ->]];
          now rewrite steps_app, steps_set_events, Hig. }
      rewrite Hs.
      assert (Hin : forall e0, In e0 (set_events en
                       (located ENV_VARIABLE_SX_SNIFFER (fragment w))) ->
                               In e0 (pre ++ tr)%list).
      { intros e0 He0. apply in_or_app. right.
        destruct Hev as [->|[cause ->]]; apply in_or_app; now left. }
      repeat split; try assumption; try reflexivity; now apply Hin.
  - destruct Hcase as [Hc|Hc]; [discriminate|].
    destruct H as (_ & _ & Hr). destruct (Hr Hc) as (Hstg & _ & e0 & ->).
    destruct (set_events_staged en
                (located ENV_VARIABLE_SX_SNIFFER (fragment w))) as [Hf Hcl].
    rewrite steps_app, steps_set_events.
    split; [|split; [|split; [|exact Hstg]]].
    + apply in_or_app. right. apply in_or_app. now left.
    + apply in_or_app. right. apply in_or_app. now left.
    + now destruct (toggle_ignore en _).
Qed.

(** A run of [sniffer_env_variable_set] that returns has read the
    fragment: its bytes decode, unless the run is an enable that found
    the directive above a character cut short by the end of the file. *)
Lemma set_ret_valid (en : bool) (name s : string) (w : World) ig w' :
  sniffer_env_variable_set en name s w = (Ret ig, w') ->
  valid_utf8 (fragment w) = true
  \/ (en = true /\ ig = true /\ found_before_end name (fragment w) = true).
Proof.
  assert (Hwp : wp (sniffer_env_variable_set en name s) w
                   (fun r _ => forall ig, r = Ret ig ->
                      valid_utf8 (fragment w) = true
                      \/ (en = true /\ ig = true
                          /\ found_before_end name (fragment w) = true))).
  { destruct w as [rem stg ds mk nw outs tr].
    repeat wp_step; world_compute.
    all: intros ig0 Hr;
      first [ discriminate Hr
            | left; assumption
            | right; injection Hr as <-; repeat split; assumption ]. }
  intros Hrun. exact (wp_elim _ _ _ _ _ Hwp Hrun ig eq_refl).
Qed.

(** A disable that returns has read a fragment that decodes. *)
Lemma disable_ret_valid (w w' : World) :
  sdk_sniffer_disable w = (Ret tt, w') -> valid_utf8 (fragment w) = true.
Proof.
  unfold sdk_sniffer_disable, bind at 1.
  destruct (sniffer_env_variable_set false ENV_VARIABLE_SX_SNIFFER "" w)
    as [[ig|e] w1] eqn:Hset; [|discriminate].
  intros _. destruct (set_ret_valid _ _ _ _ _ _ Hset) as [H|(H & _)];
    [exact H | discriminate H].
Qed.

(** C6 (as the code has it).  On a staging file that decodes,
    [env_variable_delete] writes back exactly the lines that differ
    from the given one, in their order, each as the text stream
    presented it (so with LF at its end, whatever its end was); and
    disabling on a fragment whose lines are
    [header; X; directive; Y], where the header and [X] do not mention
    the variable and [Y] is not the directive line, leaves the lines
    [header; X; Y].  On bytes that do not decode nothing is written
    back: the call raises and the file is as it was. *)
Theorem env_variable_delete_keeps_other_lines :
  (forall delete_line c w,
      staging w = Some c ->
      valid_utf8 c = true ->
      exists w1 c1,
        env_variable_delete delete_line w = (Ret tt, w1)
        /\ staging w1 = Some c1
        /\ text_lines c1
           = filter (fun line => negb (line =? delete_line)) (text_lines c)
        /\ c1 = join (text_lines c1)
        /\ no_cr c1 = true
        /\ forall l, In l (text_lines c1)
                     <-> In l (text_lines c) /\ l <> delete_line)
  /\ (forall c h x d y w w',
         remote w = Some c ->
         text_lines c = [h; x; d; y] ->
         mentions h ENV_VARIABLE_SX_SNIFFER = false ->
         mentions x ENV_VARIABLE_SX_SNIFFER = false ->
         mentions d ENV_VARIABLE_SX_SNIFFER = true ->
         y <> d ->
         sdk_sniffer_disable w = (Ret tt, w') ->
         remote w' = Some (join [h; x; y])
         /\ text_lines (fragment w') = [h; x; y])
  /\ (forall delete_line c w,
         staging w = Some c ->
         valid_utf8 c = false ->
         exists w1,
           env_variable_delete delete_line w
           = (Raise UNICODE_DECODE_ERROR, w1)
           /\ staging w1 = Some c /\ remote w1 = remote w).
Proof.
  split; [|split].
  - intros delete_line c w Hs Hv. do 2 eexists.
    split; [exact (env_variable_delete_eq delete_line c w Hs Hv)|].
    world_simpl. split; [reflexivity|]. rewrite lines_kept.
    split; [reflexivity|]. split; [reflexivity|].
    split; [apply no_cr_kept|]. intros l. apply kept_lines_In.
  - intros c h x d y w w' Hremc Hlines Hh Hx Hd Hy Hrun.
    apply disable_inv in Hrun as (_ & _ & tr & _ & Hrem' & _).
    assert (Hfrag : fragment w = c) by (unfold fragment; now rewrite Hremc).
    rewrite Hfrag in Hrem'.
    assert (Hloc : located ENV_VARIABLE_SX_SNIFFER c = d).
    { unfold located. rewrite Hlines. cbn [first_line_with].
      now rewrite Hh, Hx, Hd. }
    assert (Hne : d <> "").
    { apply (lines_nonempty (universal_newlines c)). fold (text_lines c).
      rewrite Hlines. cbn. auto. }
    assert (Hkept : kept_lines d (text_lines c) = [h; x; y]).
    { rewrite Hlines. unfold kept_lines. cbn [filter].
      assert (Hhd : (h =? d) = false) by (apply String.eqb_neq; congruence).
      assert (Hxd : (x =? d) = false) by (apply String.eqb_neq; congruence).
      apply String.eqb_neq in Hy.
      now rewrite Hhd, Hxd, Hy, String.eqb_refl. }
    rewrite Hloc in Hrem'. unfold toggle_content in Hrem'.
    rewrite (proj2 (String.eqb_neq _ _) Hne) in Hrem'. cbn [negb] in Hrem'.
    split; [now rewrite Hrem', Hkept|].
    unfold fragment. now rewrite Hrem', lines_kept.
  - intros delete_line c w Hs Hv. eexists.
    split; [exact (env_variable_delete_undecodable delete_line c w Hs Hv)|].
    world_simpl. split; [assumption | reflexivity].
Qed.

(** C2.  A run of [sniffer_env_variable_set] that returns has created
    the staging file, by copying the fragment into it whatever was
    there before, and has removed it with its last command: the file
    does not exist when the run returns.  The same holds of an entry
    point that returns or has got as far as the restart: this covers a
    change that was applied, a request found in place, and a failed
    restart. *)
Theorem staging_removed_on_return :
  (forall en name s w ig w',
      sniffer_env_variable_set en name s w = (Ret ig, w') ->
      (exists w0,
          conf_file_receive w = (Ret tt, w0)
          /\ staging w0 = Some (fragment w))
      /\ (exists tr,
             new_events w w'
             = (EvRun ARGV_TOUCH CmdOk :: EvRun ARGV_FETCH CmdOk
                  :: EvOpen TMP_SNIFFER_CONF_FILE ModeRead :: tr
                  ++ [EvRun ARGV_CLEANUP CmdOk])%list)
      /\ staging w' = None)
  /\ (forall w r w',
         sdk_sniffer_enable w = (r, w') ->
         r = Ret tt \/ In Restart (steps (new_events w w')) ->
         In (EvRun ARGV_FETCH CmdOk) (new_events w w')
         /\ In (EvRun ARGV_CLEANUP CmdOk) (new_events w w')
         /\ precedes Fetch Cleanup (steps (new_events w w')) = true
         /\ staging w' = None)
  /\ (forall w r w',
         sdk_sniffer_disable w = (r, w') ->
         r = Ret tt \/ In Restart (steps (new_events w w')) ->
         In (EvRun ARGV_FETCH CmdOk) (new_events w w')
         /\ In (EvRun ARGV_CLEANUP CmdOk) (new_events w w')
         /\ precedes Fetch Cleanup (steps (new_events w w')) = true
         /\ staging w' = None).
Proof.
  split; [|split].
  - intros en name s w ig w' Hrun.
    pose proof (set_inv _ _ _ _ _ _ Hrun)
      as (_ & _ & tr & Htr & _ & _ & Hstg & Hev).
    split; [|split; [|exact Hstg]].
    + unfold sniffer_env_variable_set in Hrun. unfold bind at 1 in Hrun.
      destruct (conf_file_receive w) as [[[]|e] w0] eqn:Hrec;
        [|discriminate].
      exists w0. split; [reflexivity|]. clear Hrun.
      revert Hrec. unfold conf_file_receive, conf_file_copy, bind,
        run_command, next_outcome.
      destruct (hd CmdOk (outcomes w)); [|discriminate]. cbn.
      destruct (hd CmdOk (tl (outcomes w))); [|discriminate]. cbn.
      now intros [= <-].
    + rewrite (new_events_eq _ _ _ Htr), Hev. unfold set_events.
      eexists. cbn [app]. reflexivity.
  - intros w r w' Hrun Hcase.
    apply (staged_and_removed true (directive_line (now w))
             (MSG_ENABLED (sniffer_filename (now w))) (makedirs_events w)
             true w r w');
      [apply steps_makedirs_events | | exact Hcase].
    destruct (makedirs_failure w) as [e|] eqn:Hf.
    + exfalso. destruct (enable_failed_inv _ _ _ _ Hf Hrun) as [-> ->].
      destruct Hcase as [Hc|Hc]; [discriminate|].
      rewrite new_events_refl in Hc. exact Hc.
    + now apply enable_run_inv.
  - intros w r w' Hrun Hcase.
    apply (staged_and_removed false "" MSG_DISABLED [] (target_dir w)
             w r w');
      [reflexivity | now apply disable_inv | exact Hcase].
Qed.

Lemma sdk_post_steps (en : bool) (s msg : string) (pre : list event)
  (td : bool) (w : World) r w' :
  steps pre = [] ->
  sdk_post en s msg pre td w r w' ->
  (is_prefix (steps (new_events w w')) NOOP_STEPS
   \/ is_prefix (steps (new_events w w')) APPLIED_STEPS)
  /\ (r = Ret tt ->
      steps (new_events w w') = NOOP_STEPS
      \/ steps (new_events w w') = APPLIED_STEPS).
Proof.
  intros Hpre (_ & _ & tr & Htr & H).
  rewrite (new_events_eq _ _ _ Htr), steps_app, Hpre. cbn [app].
  destruct r as [[]|e].
  - destruct H as (_ & _ & Hev).
    destruct (toggle_ignore en _) eqn:Hig.
    + subst tr. rewrite steps_set_events, Hig.
      split; [left; now exists [] | now left].
    + assert (Hs : steps tr = APPLIED_STEPS).
      { destruct Hev as [->|[cause ->]];
          now rewrite steps_app, steps_set_events, Hig. }
      rewrite Hs. split; [right; now exists [] | now right].
  - destruct H as (_ & Hp & _). split; [|discriminate].
    destruct (toggle_ignore en _); [now left | now right].
Qed.

Ltac enum_prefix H :=
  repeat
    (match type of H with
     | _ = (?ss ++ _)%list =>
         destruct ss as [|? ss]; cbn in H;
         [ | first [ discriminate H | injection H as <- H ] ]
     end).

Lemma prefix_order (ss : list step) :
  is_prefix ss NOOP_STEPS \/ is_prefix ss APPLIED_STEPS ->
  precedes Restart Cleanup ss = false
  /\ (In Restart ss -> precedes Cleanup Restart ss = true).
Proof.
  intros [[l3 H]|[l3 H]]; unfold NOOP_STEPS, APPLIED_STEPS in H;
    enum_prefix H; (split; [reflexivity|]); cbn;
    intros Hin; try reflexivity;
    repeat (destruct Hin as [Hin|Hin]; [discriminate|]); destruct Hin.
Qed.

(** C3 (as the code has it).  The steps of an entry point come in the
    order fetch, locate, then either nothing more than cleanup (the
    request is already satisfied) or mutate, publish, cleanup and, after
    cleanup, restart.  A run that is cut short by an exception has done
    a prefix of that sequence.  Restart never comes before cleanup; when
    there is a restart, the cleanup is before it. *)
Theorem steps_in_program_order (enable : bool) (w : World) r w' :
  (if enable then sdk_sniffer_enable else sdk_sniffer_disable) w = (r, w') ->
  (is_prefix (steps (new_events w w')) NOOP_STEPS
   \/ is_prefix (steps (new_events w w')) APPLIED_STEPS)
  /\ (r = Ret tt ->
      steps (new_events w w') = NOOP_STEPS
      \/ steps (new_events w w') = APPLIED_STEPS)
  /\ precedes Restart Cleanup (steps (new_events w w')) = false
  /\ (In Restart (steps (new_events w w')) ->
      precedes Cleanup Restart (steps (new_events w w')) = true).
Proof.
  intros Hrun.
  assert (H : (is_prefix (steps (new_events w w')) NOOP_STEPS
               \/ is_prefix (steps (new_events w w')) APPLIED_STEPS)
              /\ (r = Ret tt ->
                  steps (new_events w w') = NOOP_STEPS
                  \/ steps (new_events w w') = APPLIED_STEPS)).
  { destruct enable.
    - destruct (makedirs_failure w) as [e|] eqn:Hf.
      + destruct (enable_failed_inv _ _ _ _ Hf Hrun) as [-> ->].
        rewrite new_events_refl.
        split; [left; now exists NOOP_STEPS | discriminate].
      + apply (enable_run_inv _ _ _ Hf) in Hrun.
        exact (sdk_post_steps _ _ _ _ _ _ _ _ (steps_makedirs_events w) Hrun).
    - apply disable_inv in Hrun.
      exact (sdk_post_steps _ _ _ [] _ _ _ _ eq_refl Hrun). }
  destruct H as [Hp Hr]. split; [exact Hp|]. split; [exact Hr|].
  now apply prefix_order.
Qed.

(** C7.  When the located presence of the directive matches the request,
    the run leaves the content of the fragment as it was, performs only
    fetch, locate and cleanup steps (no mutation, no publish, no
    restart), and, when it returns, [ignore] is true and the only message
    is the one that says nothing was done. *)
Theorem noop_when_already_in_desired_state :
  (forall en name s w r w',
      (en = true /\ located name (fragment w) <> "")
      \/ (en = false /\ located name (fragment w) = "") ->
      sniffer_env_variable_set en name s w = (r, w') ->
      fragment w' = fragment w
      /\ is_prefix (steps (new_events w w')) NOOP_STEPS
      /\ forall ig, r = Ret ig ->
           ig = true
           /\ new_events w w'
              = noop_events (if en then MSG_ALREADY_ENABLED
                             else MSG_ALREADY_DISABLED))
  /\ (forall w r w',
         located ENV_VARIABLE_SX_SNIFFER (fragment w) <> "" ->
         sdk_sniffer_enable w = (r, w') ->
         fragment w' = fragment w
         /\ is_prefix (steps (new_events w w')) NOOP_STEPS
         /\ (r = Ret tt ->
             new_events w w'
             = (makedirs_events w ++ noop_events MSG_ALREADY_ENABLED)%list))
  /\ (forall w r w',
         located ENV_VARIABLE_SX_SNIFFER (fragment w) = "" ->
         sdk_sniffer_disable w = (r, w') ->
         fragment w' = fragment w
         /\ is_prefix (steps (new_events w w')) NOOP_STEPS
         /\ (r = Ret tt ->
             new_events w w' = noop_events MSG_ALREADY_DISABLED)).
Proof.
  split; [|split].
  - intros en name s w r w' Hcase Hrun.
    apply toggle_ignore_true in Hcase.
    apply set_inv in Hrun as (_ & _ & tr & Htr & H).
    rewrite (new_events_eq _ _ _ Htr). destruct r as [ig|e].
    + destruct H as (Hig & Hrem & _ & ->).
      rewrite toggle_content_noop in Hrem by assumption.
      split; [unfold fragment at 1; now rewrite Hrem|].
      split; [rewrite steps_set_events, Hcase; now exists []|].
      intros ig' [= <-]. split; [congruence | now apply set_events_noop].
    + destruct H as (Hrem & Hp). rewrite Hcase in Hp.
      split; [|split; [exact Hp | discriminate]].
      destruct Hrem as [H|[H|[H _]]]; [| |congruence];
        unfold fragment at 1; now rewrite H.
  - intros w r w' Hloc Hrun.
    destruct (makedirs_failure w) as [e|] eqn:Hf.
    { destruct (enable_failed_inv _ _ _ _ Hf Hrun) as [-> ->].
      rewrite new_events_refl. split; [reflexivity|].
      split; [now exists NOOP_STEPS | discriminate]. }
    apply (enable_run_inv _ _ _ Hf) in Hrun.
    assert (Hig : toggle_ignore true
                    (located ENV_VARIABLE_SX_SNIFFER (fragment w)) = true)
      by (apply toggle_ignore_true; now left).
    destruct (sdk_post_noop _ _ _ _ _ _ _ _ Hig Hrun) as (H1 & _ & H2 & H3).
    split; [exact H1|]. split; [apply H2, steps_makedirs_events | exact H3].
  - intros w r w' Hloc Hrun. apply disable_inv in Hrun.
    assert (Hig : toggle_ignore false
                    (located ENV_VARIABLE_SX_SNIFFER (fragment w)) = true)
      by (apply toggle_ignore_true; now right).
    destruct (sdk_post_noop _ _ _ _ _ _ _ _ Hig Hrun) as (H1 & _ & H2 & H3).
    split; [exact H1|]. split; [now apply H2 | exact H3].
Qed.

(** *** Two calls in a row *)

Lemma directive_line_eq (t : string) :
  directive_line t
  = "environment=" ++ ENV_VARIABLE_SX_SNIFFER ++ "=1,"
      ++ ENV_VARIABLE_SX_SNIFFER_TARGET ++ "=" ++ sniffer_filename t
      ++ String NL "".
Proof. reflexivity. Qed.

Lemma directive_line_occurs (prefix : string) (t : string) :
  occurs_in ENV_VARIABLE_SX_SNIFFER (prefix ++ directive_line t).
Proof.
  exists (prefix ++ "environment=").
  exists ("=1," ++ ENV_VARIABLE_SX_SNIFFER_TARGET ++ "=" ++ sniffer_filename t
            ++ String NL "").
  now rewrite append_assoc.
Qed.

(** A fragment in which the name of the variable occurs has a line
    that mentions it. *)
Lemma located_occurs (c : string) :
  occurs_in ENV_VARIABLE_SX_SNIFFER c ->
  located ENV_VARIABLE_SX_SNIFFER c <> "".
Proof.
  intros H. unfold located, text_lines.
  apply first_line_with_found; [intros l; apply lines_nonempty|].
  apply occurs_line; [discriminate | reflexivity |].
  apply occurs_universal_newlines;
    [discriminate | reflexivity | reflexivity | exact H].
Qed.

(** After an enable the fragment has a line that mentions the variable. *)
Lemma enabled_after (c t : string) :
  located ENV_VARIABLE_SX_SNIFFER
    (toggle_content true (located ENV_VARIABLE_SX_SNIFFER c)
       (directive_line t) c) <> "".
Proof.
  unfold toggle_content.
  destruct (String.eqb_spec (located ENV_VARIABLE_SX_SNIFFER c) "")
    as [E|E]; cbn [negb]; [|exact E].
  apply located_occurs. destruct (c =? ""); apply directive_line_occurs.
Qed.

(** After a disable no line mentions the variable, provided the lines
    that mentioned it were all the same line. *)
Lemma disabled_after (c : string) :
  directive_lines_agree ENV_VARIABLE_SX_SNIFFER c = true ->
  located ENV_VARIABLE_SX_SNIFFER
    (toggle_content false (located ENV_VARIABLE_SX_SNIFFER c) "" c) = "".
Proof.
  intros Hagree. unfold toggle_content.
  destruct (String.eqb_spec (located ENV_VARIABLE_SX_SNIFFER c) "")
    as [E|E]; cbn [negb]; [exact E|].
  unfold located at 1. rewrite lines_kept. apply first_line_with_none.
  apply Forall_forall. intros x Hx. apply kept_lines_In in Hx as [Hin Hneq].
  destruct (mentions x ENV_VARIABLE_SX_SNIFFER) eqn:M; [|reflexivity].
  exfalso. apply Hneq. unfold directive_lines_agree in Hagree.
  rewrite forallb_forall in Hagree. specialize (Hagree x Hin).
  rewrite M in Hagree. now apply String.eqb_eq in Hagree.
Qed.

Lemma second_call_noop (en : bool) (s msg : string) (pre : list event)
  (td : bool) (c1 t : string) (w1 : World) r w2 :
  remote w1 = Some c1 ->
  toggle_ignore en (located ENV_VARIABLE_SX_SNIFFER c1) = true ->
  sdk_post en s msg pre td (set_now t w1) r w2 ->
  remote w2 = remote w1
  /\ (r = Ret tt ->
      new_events w1 w2
      = (pre ++ noop_events (if en then MSG_ALREADY_ENABLED
                             else MSG_ALREADY_DISABLED))%list)
  /\ (forall s' ig w3,
         sniffer_env_variable_set en ENV_VARIABLE_SX_SNIFFER s' (set_now t w1)
         = (Ret ig, w3) -> ig = true).
Proof.
  intros Hrem Hig Hpost.
  assert (Hfrag : fragment (set_now t w1) = c1)
    by (unfold fragment; cbn; now rewrite Hrem).
  rewrite <- Hfrag in Hig.
  destruct (sdk_post_noop _ _ _ _ _ _ _ _ Hig Hpost) as (_ & Hr & _ & Hev).
  split; [|split].
  - apply Hr. rewrite Hfrag. exact Hrem.
  - exact Hev.
  - intros s' ig w3 H3.
    apply set_inv in H3 as (_ & _ & tr & _ & Hig3 & _). congruence.
Qed.

(** C1 (as the code has it).  After an enable has returned, a second
    enable leaves the fragment exactly as the first one left it, and,
    when it returns, has found the directive in place: [ignore] is true
    and it has only fetched, located, reported and cleaned up.  The same
    holds for two disables, provided the lines of the initial fragment
    that mention the variable are all the same line, which is the case
    when at most one line mentions it. *)
Theorem toggle_twice_same_state :
  (forall w w1 t r w2,
      sdk_sniffer_enable w = (Ret tt, w1) ->
      sdk_sniffer_enable (set_now t w1) = (r, w2) ->
      remote w2 = remote w1
      /\ (r = Ret tt ->
          new_events w1 w2 = noop_events MSG_ALREADY_ENABLED)
      /\ (forall s ig w3,
             sniffer_env_variable_set true ENV_VARIABLE_SX_SNIFFER s
               (set_now t w1) = (Ret ig, w3) -> ig = true))
  /\ (forall w w1 t r w2,
         directive_lines_agree ENV_VARIABLE_SX_SNIFFER (fragment w) = true ->
         sdk_sniffer_disable w = (Ret tt, w1) ->
         sdk_sniffer_disable (set_now t w1) = (r, w2) ->
         remote w2 = remote w1
         /\ (r = Ret tt ->
             new_events w1 w2 = noop_events MSG_ALREADY_DISABLED)
         /\ (forall s ig w3,
                sniffer_env_variable_set false ENV_VARIABLE_SX_SNIFFER s
                  (set_now t w1) = (Ret ig, w3) -> ig = true)).
Proof.
  split.
  - intros w w1 t r w2 H1 H2.
    apply enable_inv in H1 as (_ & Htd & tr & _ & Hrem & _).
    assert (Htd' : target_dir (set_now t w1) = true) by exact Htd.
    assert (Hf : makedirs_failure (set_now t w1) = None)
      by (unfold makedirs_failure; now rewrite Htd').
    apply (enable_run_inv _ _ _ Hf) in H2.
    assert (Hpre : makedirs_events (set_now t w1) = [])
      by (unfold makedirs_events; now rewrite Htd').
    rewrite Hpre in H2.
    apply (second_call_noop _ _ _ _ _ _ _ _ _ _ Hrem) in H2; [exact H2|].
    apply toggle_ignore_true. left. split; [reflexivity|].
    apply enabled_after.
  - intros w w1 t r w2 Hagree H1 H2.
    apply disable_inv in H1 as (_ & _ & tr & _ & Hrem & _).
    apply disable_inv in H2.
    apply (second_call_noop _ _ _ _ _ _ _ _ _ _ Hrem) in H2; [exact H2|].
    apply toggle_ignore_true. right. split; [reflexivity|].
    now apply disabled_after.
Qed.

(** *** Enabling on an empty fragment *)

Lemma toggle_content_empty (s : string) :
  toggle_content true (located ENV_VARIABLE_SX_SNIFFER "") s ""
  = PROGRAM_HEADER ++ s.
Proof. reflexivity. Qed.

Lemma directive_line_nonempty (t : string) : directive_line t <> "".
Proof. rewrite directive_line_eq. discriminate. Qed.

Lemma header_not_directive (t : string) : PROGRAM_HEADER <> directive_line t.
Proof. rewrite directive_line_eq. discriminate. Qed.

Lemma lines_enabled (t : string) :
  is_time_stamp t = true ->
  lines (PROGRAM_HEADER ++ directive_line t)
  = [PROGRAM_HEADER; directive_line t].
Proof.
  intros Ht.
  change (PROGRAM_HEADER ++ directive_line t)
    with ("[program:syncd]" ++ String NL (directive_line t)).
  rewrite lines_complete by reflexivity. f_equal.
  change (directive_line t)
    with (("environment=SX_SNIFFER_ENABLE=1,SX_SNIFFER_TARGET="
             ++ SDK_SNIFFER_TARGET_PATH ++ SDK_SNIFFER_FILENAME_PREFIX
             ++ t ++ SDK_SNIFFER_FILENAME_EXT) ++ String NL "").
  rewrite lines_complete; [reflexivity|].
  rewrite !no_newline_app, (is_time_stamp_no_newline _ Ht). reflexivity.
Qed.

Lemma append_items_eq (acc : string) (items : list (string * string)) :
  append_items acc items
  = acc ++ join (map (fun kv => fst kv ++ "=" ++ snd kv) items).
Proof.
  revert acc; induction items as [|[k v] items IH]; intros acc; cbn.
  - now rewrite append_nil_r.
  - now rewrite IH, append_assoc.
Qed.

(** C4 (as the code has it).  Enabling on an empty fragment leaves the
    header line followed by the one line
    [environment=SX_SNIFFER_ENABLE=1,SX_SNIFFER_TARGET=<capture file>].
    The line is built from the program's own two-entry mapping, whose
    first value is ["1,"]: the pairs [key=value] are concatenated in
    insertion order with nothing put between them. *)
Theorem enable_from_empty_fragment :
  (forall w w',
      fragment w = "" ->
      sdk_sniffer_enable w = (Ret tt, w') ->
      remote w'
      = Some (PROGRAM_HEADER
                ++ "environment=SX_SNIFFER_ENABLE=1,SX_SNIFFER_TARGET="
                ++ sniffer_filename (now w) ++ String NL "")
      /\ (is_time_stamp (now w) = true ->
          lines (fragment w')
          = [PROGRAM_HEADER;
             "environment=SX_SNIFFER_ENABLE=1,SX_SNIFFER_TARGET="
               ++ sniffer_filename (now w) ++ String NL ""]))
  /\ (forall items,
         env_variable_string_of items
         = "environment="
             ++ join (map (fun kv => fst kv ++ "=" ++ snd kv) items)
             ++ String NL "")
  /\ (forall f,
         sdk_sniffer_env_variable_dict f
         = [("SX_SNIFFER_ENABLE", "1,"); ("SX_SNIFFER_TARGET", f)]).
Proof.
  split; [|split].
  - intros w w' Hfrag Hrun.
    apply enable_inv in Hrun as (_ & _ & tr & _ & Hrem & _).
    rewrite Hfrag, toggle_content_empty in Hrem.
    split; [exact Hrem|]. intros Ht. unfold fragment. rewrite Hrem.
    now apply lines_enabled.
  - intros items. unfold env_variable_string_of.
    now rewrite append_items_eq, append_assoc.
  - reflexivity.
Qed.

Lemma is_time_stamp_no_cr (s : string) :
  is_time_stamp s = true -> no_cr s = true.
Proof.
  induction s as [|c s IH]; simpl; [reflexivity|]. intros H.
  apply andb_true_iff in H as [Hc Hs]. rewrite IH by assumption.
  destruct (Ascii.eqb_spec c CR) as [->|_]; [discriminate | reflexivity].
Qed.

Lemma directive_line_no_cr (t : string) :
  is_time_stamp t = true -> no_cr (directive_line t) = true.
Proof.
  intros Ht. rewrite directive_line_eq.
  unfold sniffer_filename. rewrite !no_cr_app, (is_time_stamp_no_cr _ Ht).
  reflexivity.
Qed.

Lemma text_lines_enabled (t : string) :
  is_time_stamp t = true ->
  text_lines (PROGRAM_HEADER ++ directive_line t)
  = [PROGRAM_HEADER; directive_line t].
Proof.
  intros Ht. rewrite text_lines_id; [now apply lines_enabled|].
  now rewrite no_cr_app, directive_line_no_cr.
Qed.

(** C5.  Starting from an empty fragment, an enable leaves the header
    line and the line
    [environment=SX_SNIFFER_ENABLE=1,SX_SNIFFER_TARGET=<capture file>],
    in which the name of the variable occurs, and the disable that
    follows removes that line and leaves the header line alone: the
    name of the variable occurs nowhere in the fragment. *)
Theorem enable_then_disable_removes_directive
  (w w1 : World) (t : string) (w2 : World) :
  fragment w = "" ->
  is_time_stamp (now w) = true ->
  sdk_sniffer_enable w = (Ret tt, w1) ->
  sdk_sniffer_disable (set_now t w1) = (Ret tt, w2) ->
  remote w1
  = Some (PROGRAM_HEADER
            ++ "environment=SX_SNIFFER_ENABLE=1,SX_SNIFFER_TARGET="
            ++ sniffer_filename (now w) ++ String NL "")
  /\ text_lines (fragment w1)
     = [PROGRAM_HEADER;
        "environment=SX_SNIFFER_ENABLE=1,SX_SNIFFER_TARGET="
          ++ sniffer_filename (now w) ++ String NL ""]
  /\ located ENV_VARIABLE_SX_SNIFFER (fragment w1)
     = "environment=SX_SNIFFER_ENABLE=1,SX_SNIFFER_TARGET="
         ++ sniffer_filename (now w) ++ String NL ""
  /\ occurs_in ENV_VARIABLE_SX_SNIFFER (fragment w1)
  /\ ~ no_directive ENV_VARIABLE_SX_SNIFFER (fragment w1)
  /\ remote w2 = Some PROGRAM_HEADER
  /\ no_directive ENV_VARIABLE_SX_SNIFFER (fragment w2)
  /\ (forall l, In l (text_lines (fragment w2)) ->
                ~ occurs_in ENV_VARIABLE_SX_SNIFFER l)
  /\ ~ occurs_in ENV_VARIABLE_SX_SNIFFER (fragment w2).
Proof.
  intros Hfrag Ht H1 H2.
  apply enable_inv in H1 as (_ & _ & tr1 & _ & Hrem1 & _).
  rewrite Hfrag, toggle_content_empty in Hrem1.
  apply disable_inv in H2 as (_ & _ & tr2 & _ & Hrem2 & _).
  assert (Hfrag1 : fragment w1 = PROGRAM_HEADER ++ directive_line (now w))
    by (unfold fragment; now rewrite Hrem1).
  assert (Hfrag1' : fragment (set_now t w1)
                    = PROGRAM_HEADER ++ directive_line (now w))
    by exact Hfrag1.
  assert (Hh : mentions PROGRAM_HEADER ENV_VARIABLE_SX_SNIFFER = false)
    by reflexivity.
  assert (Hd : mentions (directive_line (now w)) ENV_VARIABLE_SX_SNIFFER
               = true)
    by (apply mentions_iff; exact (directive_line_occurs "" (now w))).
  assert (Hloc : located ENV_VARIABLE_SX_SNIFFER
                   (PROGRAM_HEADER ++ directive_line (now w))
                 = directive_line (now w)).
  { unfold located. rewrite (text_lines_enabled _ Ht).
    cbn [first_line_with]. now rewrite Hh, Hd. }
  rewrite Hfrag1', Hloc in Hrem2. unfold toggle_content in Hrem2.
  rewrite (proj2 (String.eqb_neq _ _) (directive_line_nonempty (now w))),
    (text_lines_enabled _ Ht) in Hrem2.
  unfold kept_lines in Hrem2. cbn [negb filter] in Hrem2.
  rewrite (proj2 (String.eqb_neq _ _) (header_not_directive (now w))),
    String.eqb_refl in Hrem2.
  cbn [negb join fold_right] in Hrem2. rewrite append_nil_r in Hrem2.
  assert (Hfrag2 : fragment w2 = PROGRAM_HEADER)
    by (unfold fragment; now rewrite Hrem2).
  assert (Hno : no_directive ENV_VARIABLE_SX_SNIFFER (fragment w2)).
  { unfold no_directive. rewrite Hfrag2. intros l [<-|[]]. exact Hh. }
  rewrite Hfrag1.
  split; [exact Hrem1|]. split; [now apply text_lines_enabled|].
  split; [exact Hloc|]. split; [apply directive_line_occurs|]. split.
  { intros Hnone. unfold no_directive in Hnone.
    rewrite (text_lines_enabled _ Ht) in Hnone.
    specialize (Hnone (directive_line (now w)) (or_intror (or_introl eq_refl))).
    congruence. }
  split; [exact Hrem2|]. split; [exact Hno|]. split.
  - intros l Hl. apply mentions_false_iff. now apply Hno.
  - rewrite Hfrag2. now apply mentions_false_iff.
Qed.

(** *** A restart that fails *)

Lemma restart_swss_failed (w : World) (cause : string) :
  hd CmdOk (outcomes w) = CmdRaise (OSError cause) ->
  restart_swss w
  = (Ret 1%Z,
     emit (EvLogError ("Not able to restart swss service, " ++ cause))
       (emit (EvRun COMMAND_RESTART_SWSS (CmdRaise (OSError cause)))
          (set_outcomes (tl (outcomes w)) w))).
Proof.
  intros H.
  unfold restart_swss, try_except_OSError, bind, run_command, next_outcome.
  now rewrite H.
Qed.

Lemma restart_swss_passed (w : World) (msg : string) :
  hd CmdOk (outcomes w) = CmdRaise (FatalError msg) ->
  restart_swss w
  = (Raise (FatalError msg),
     emit (EvRun COMMAND_RESTART_SWSS (CmdRaise (FatalError msg)))
       (set_outcomes (tl (outcomes w)) w)).
Proof.
  intros H.
  unfold restart_swss, try_except_OSError, bind, run_command, next_outcome.
  now rewrite H.
Qed.

Lemma restart_failure_run (w : World) (e : exn) :
  located ENV_VARIABLE_SX_SNIFFER (fragment w) = "" ->
  valid_utf8 (fragment w) = true ->
  makedirs_failure w = None ->
  hd CmdOk (outcomes w) = CmdOk ->
  hd CmdOk (tl (outcomes w)) = CmdOk ->
  hd CmdOk (tl (tl (outcomes w))) = CmdOk ->
  hd CmdOk (tl (tl (tl (outcomes w)))) = CmdOk ->
  hd CmdOk (tl (tl (tl (tl (outcomes w))))) = CmdRaise e ->
  wp sdk_sniffer_enable w (fun r w' =>
    r = match e with
        | OSError _ => Ret tt
        | FatalError _ => Raise e
        end
    /\ trace w'
       = (trace w ++ makedirs_events w
          ++ set_events true "" ++ restart_raised_events e)%list).
Proof.
  intros Hloc Hv Hf H0 H1 H2 H3 H4.
  unfold sdk_sniffer_enable. apply wp_bind.
  apply wp_sniffer_filename_generate.
  unfold makedirs_failure in Hf. unfold makedirs_events.
  destruct (target_dir w) eqn:Etd;
    [|destruct (makedirs_outcome w); [|discriminate Hf]].
  all: clear Etd Hf.
  all: destruct w as [rem stg ds mk nw outs tr]; world_compute.
  all: repeat wp_step; world_compute.
  all: try congruence.
  all: try (rewrite Hloc in *; discriminate).
  all: match goal with
       | H : CmdRaise _ = CmdRaise ?x |- _ => injection H as H; subst x
       end.
  all: split; [reflexivity|].
  all: rewrite <- ?app_assoc; reflexivity.
Qed.

(** C8 (as the code has it).  When the change was published and the
    restart command then fails, the fragment keeps the published
    directive, the staging file is gone, the success message is not
    printed and nothing more is done.  What the caller sees depends on
    the failure.  An [OSError] is the one failure [restart_swss]
    handles: it is logged with its cause, [restart_swss] reports 1 and
    the entry point returns.  Any other exception, such as the exit on
    a status that is not zero, is not handled: nothing is logged,
    [restart_swss] does not return and the entry point ends with the
    exception. *)
Theorem restart_failure_keeps_published_change
  (w : World) (e : exn) (rest : list cmd_result) :
  located ENV_VARIABLE_SX_SNIFFER (fragment w) = "" ->
  valid_utf8 (fragment w) = true ->
  makedirs_failure w = None ->
  outcomes w = CmdOk :: CmdOk :: CmdOk :: CmdOk :: CmdRaise e :: rest ->
  exists r w',
    sdk_sniffer_enable w = (r, w')
    /\ remote w'
       = Some (if fragment w =? ""
               then PROGRAM_HEADER ++ directive_line (now w)
               else fragment w ++ directive_line (now w))
    /\ located ENV_VARIABLE_SX_SNIFFER (fragment w') <> ""
    /\ staging w' = None
    /\ new_events w w'
       = (makedirs_events w
          ++ [EvRun ARGV_TOUCH CmdOk; EvRun ARGV_FETCH CmdOk;
              EvOpen TMP_SNIFFER_CONF_FILE ModeRead;
              EvOpen TMP_SNIFFER_CONF_FILE ModeAppend;
              EvRun ARGV_PUBLISH CmdOk; EvRun ARGV_CLEANUP CmdOk;
              EvRun COMMAND_RESTART_SWSS (CmdRaise e)]
          ++ match e with
             | OSError cause =>
                 [EvLogError ("Not able to restart swss service, " ++ cause)]
             | FatalError _ => []
             end)%list
    /\ ~ In (EvEcho (MSG_ENABLED (sniffer_filename (now w))))
            (new_events w w')
    /\ match e with
       | OSError cause =>
           r = Ret tt
           /\ (forall w0,
                  hd CmdOk (outcomes w0) = CmdRaise (OSError cause) ->
                  exists w0',
                    restart_swss w0 = (Ret 1%Z, w0')
                    /\ remote w0' = remote w0
                    /\ new_events w0 w0' = restart_events_failed cause)
       | FatalError msg =>
           r = Raise (FatalError msg)
           /\ (forall logged, ~ In (EvLogError logged) (new_events w w'))
           /\ (forall w0,
                  hd CmdOk (outcomes w0) = CmdRaise (FatalError msg) ->
                  exists w0',
                    restart_swss w0 = (Raise (FatalError msg), w0')
                    /\ remote w0' = remote w0
                    /\ new_events w0 w0'
                       = [EvRun COMMAND_RESTART_SWSS
                            (CmdRaise (FatalError msg))])
       end.
Proof.
  intros Hloc Hv Hf Hout.
  destruct (sdk_sniffer_enable w) as [r w'] eqn:Hrun. exists r, w'.
  assert (Hgoal := restart_failure_run w e Hloc Hv Hf).
  rewrite Hout in Hgoal.
  specialize (Hgoal eq_refl eq_refl eq_refl eq_refl eq_refl).
  destruct (wp_elim _ _ _ _ _ Hgoal Hrun) as [Hr Hev].
  apply new_events_eq in Hev.
  assert (Hev' : new_events w w'
                 = (makedirs_events w
                    ++ [EvRun ARGV_TOUCH CmdOk; EvRun ARGV_FETCH CmdOk;
                        EvOpen TMP_SNIFFER_CONF_FILE ModeRead;
                        EvOpen TMP_SNIFFER_CONF_FILE ModeAppend;
                        EvRun ARGV_PUBLISH CmdOk; EvRun ARGV_CLEANUP CmdOk;
                        EvRun COMMAND_RESTART_SWSS (CmdRaise e)]
                    ++ match e with
                       | OSError cause =>
                           [EvLogError
                              ("Not able to restart swss service, " ++ cause)]
                       | FatalError _ => []
                       end)%list)
    by (rewrite Hev; now destruct e).
  pose proof (enable_run_inv _ _ _ Hf Hrun) as (_ & _ & tr & Htr & Hpost).
  assert (Hrest : In Restart (steps tr)).
  { apply new_events_eq in Htr. rewrite Hev in Htr.
    apply app_inv_head in Htr. subst tr.
    rewrite steps_app. apply in_or_app. right. now left. }
  assert (Hrem : remote w'
                 = Some (toggle_content true
                           (located ENV_VARIABLE_SX_SNIFFER (fragment w))
                           (directive_line (now w)) (fragment w))
                 /\ staging w' = None).
  { destruct r as [[]|e0].
    - destruct Hpost as (H1 & H2 & _). now split.
    - destruct Hpost as (_ & _ & H). destruct (H Hrest) as (H1 & H2 & _).
      now split. }
  destruct Hrem as [Hrem Hstg].
  rewrite Hloc in Hrem. unfold toggle_content in Hrem.
  cbn [String.eqb negb] in Hrem.
  split; [reflexivity|]. split; [exact Hrem|]. split.
  { unfold fragment at 1. rewrite Hrem. apply located_occurs.
    destruct (fragment w =? ""); apply directive_line_occurs. }
  split; [exact Hstg|]. split; [exact Hev'|].
  assert (Hnot : forall x,
             In x (new_events w w') ->
             In x (makedirs_events w)
             \/ In x [EvRun ARGV_TOUCH CmdOk; EvRun ARGV_FETCH CmdOk;
                      EvOpen TMP_SNIFFER_CONF_FILE ModeRead;
                      EvOpen TMP_SNIFFER_CONF_FILE ModeAppend;
                      EvRun ARGV_PUBLISH CmdOk; EvRun ARGV_CLEANUP CmdOk;
                      EvRun COMMAND_RESTART_SWSS (CmdRaise e)]
             \/ In x match e with
                     | OSError cause =>
                         [EvLogError
                            ("Not able to restart swss service, " ++ cause)]
                     | FatalError _ => []
                     end).
  { intros x Hx. rewrite Hev' in Hx.
    apply in_app_or in Hx as [Hx|Hx]; [now left|].
    apply in_app_or in Hx as [Hx|Hx]; auto. }
  assert (Hmk : forall x, In x (makedirs_events w) ->
                          x = EvMakedirs SDK_SNIFFER_TARGET_PATH).
  { intros x. unfold makedirs_events.
    destruct (target_dir w); [intros [] | intros [<-|[]]; reflexivity]. }
  split.
  - intros Hin. apply Hnot in Hin as [Hin|[Hin|Hin]].
    + apply Hmk in Hin. discriminate.
    + cbn in Hin.
      repeat (destruct Hin as [Hin|Hin]; [discriminate|]). exact Hin.
    + destruct e; cbn in Hin; [|exact Hin].
      destruct Hin as [Hin|[]]; discriminate.
  - destruct e as [cause|msg].
    + split; [exact Hr|]. intros w0 H0. eexists.
      split; [exact (restart_swss_failed _ _ H0)|].
      split; [reflexivity|].
      apply new_events_eq. cbn. now rewrite <- app_assoc.
    + split; [exact Hr|]. split.
      * intros logged Hin. apply Hnot in Hin as [Hin|[Hin|Hin]].
        -- apply Hmk in Hin. discriminate.
        -- cbn in Hin.
           repeat (destruct Hin as [Hin|Hin]; [discriminate|]). exact Hin.
        -- exact Hin.
      * intros w0 H0. eexists.
        split; [exact (restart_swss_passed _ _ H0)|].
        split; [reflexivity|]. apply new_events_eq. reflexivity.
Qed.

(** ** The properties at sample inputs *)

Ltac split_all := repeat match goal with |- _ /\ _ => split end.


Lemma env_variable_delete_idempotent_witness :
  (staging (W_STAGED SAMPLE_FOUR_LINES_CRLF) = Some SAMPLE_FOUR_LINES_CRLF
   /\ valid_utf8 SAMPLE_FOUR_LINES_CRLF = true)
  /\ exists w1 c1,
       env_variable_delete (SAMPLE_DIRECTIVE ++ String NL "")
         (W_STAGED SAMPLE_FOUR_LINES_CRLF) = (Ret tt, w1)
       /\ staging w1 = Some c1
       /\ c1 = PROGRAM_HEADER ++ SAMPLE_X ++ SAMPLE_Y
       /\ ~ In (SAMPLE_DIRECTIVE ++ String NL "") (text_lines c1).
Proof.
  split; [split; vm_compute; reflexivity|].
  destruct (env_variable_delete_idempotent (SAMPLE_DIRECTIVE ++ String NL "")
              SAMPLE_FOUR_LINES_CRLF (W_STAGED SAMPLE_FOUR_LINES_CRLF)
              eq_refl eq_refl)
    as (w1 & c1 & H1 & H2 & _ & H3 & H4 & _).
  exists w1, c1. split_all; try assumption.
  assert (Hc : staging w1 = Some (PROGRAM_HEADER ++ SAMPLE_X ++ SAMPLE_Y))
    by (vm_compute in H1; injection H1 as <-; reflexivity).
  congruence.
Defined.

Lemma env_variable_delete_keeps_other_lines_witness :
  (remote W_FOUR_LINES_CRLF = Some SAMPLE_FOUR_LINES_CRLF
   /\ text_lines SAMPLE_FOUR_LINES_CRLF
      = [PROGRAM_HEADER; SAMPLE_X; directive_line SAMPLE_TIME; SAMPLE_Y]
   /\ mentions PROGRAM_HEADER ENV_VARIABLE_SX_SNIFFER = false
   /\ mentions SAMPLE_X ENV_VARIABLE_SX_SNIFFER = false
   /\ mentions (directive_line SAMPLE_TIME) ENV_VARIABLE_SX_SNIFFER = true
   /\ SAMPLE_Y <> directive_line SAMPLE_TIME
   /\ sdk_sniffer_disable W_FOUR_LINES_CRLF
      = (Ret tt, after sdk_sniffer_disable W_FOUR_LINES_CRLF))
  /\ remote (after sdk_sniffer_disable W_FOUR_LINES_CRLF)
     = Some (join [PROGRAM_HEADER; SAMPLE_X; SAMPLE_Y]).
Proof.
  assert (Hy : SAMPLE_Y <> directive_line SAMPLE_TIME)
    by (apply String.eqb_neq; vm_compute; reflexivity).
  assert (Hrun : sdk_sniffer_disable W_FOUR_LINES_CRLF
                 = (Ret tt, after sdk_sniffer_disable W_FOUR_LINES_CRLF))
    by (vm_compute; reflexivity).
  split.
  - split_all; try (vm_compute; reflexivity); assumption.
  - apply (proj1 (proj2 env_variable_delete_keeps_other_lines)
             SAMPLE_FOUR_LINES_CRLF PROGRAM_HEADER SAMPLE_X
             (directive_line SAMPLE_TIME) SAMPLE_Y W_FOUR_LINES_CRLF
             (after sdk_sniffer_disable W_FOUR_LINES_CRLF));
      try (vm_compute; reflexivity); assumption.
Defined.

Lemma staging_removed_on_return_witness :
  (staging (stale W_EMPTY) <> None
   /\ sdk_sniffer_enable (stale W_EMPTY)
      = (Ret tt, after sdk_sniffer_enable (stale W_EMPTY))
   /\ sdk_sniffer_enable (stale W_ENABLED)
      = (Ret tt, after sdk_sniffer_enable (stale W_ENABLED))
   /\ sdk_sniffer_enable (stale W_RESTART_FAILS)
      = (Ret tt, after sdk_sniffer_enable (stale W_RESTART_FAILS))
   /\ sdk_sniffer_disable (stale W_ENABLED)
      = (Ret tt, after sdk_sniffer_disable (stale W_ENABLED))
   /\ fst (sdk_sniffer_enable (stale W_RESTART_EXITS))
      = Raise (FatalError "exit status 1")
   /\ sniffer_env_variable_set false ENV_VARIABLE_SX_SNIFFER ""
        (stale W_ENABLED)
      = (Ret false,
         after (sniffer_env_variable_set false ENV_VARIABLE_SX_SNIFFER "")
           (stale W_ENABLED)))
  /\ (In (EvRun ARGV_FETCH CmdOk)
         (new_events (stale W_EMPTY)
            (after sdk_sniffer_enable (stale W_EMPTY)))
      /\ staging (after sdk_sniffer_enable (stale W_EMPTY)) = None)
  /\ staging (after sdk_sniffer_enable (stale W_ENABLED)) = None
  /\ staging (after sdk_sniffer_enable (stale W_RESTART_FAILS)) = None
  /\ staging (after sdk_sniffer_disable (stale W_ENABLED)) = None
  /\ staging (after sdk_sniffer_enable (stale W_RESTART_EXITS)) = None
  /\ (exists w0,
         conf_file_receive (stale W_ENABLED) = (Ret tt, w0)
         /\ staging w0 = Some SAMPLE_ENABLED)
  /\ staging (after (sniffer_env_variable_set false ENV_VARIABLE_SX_SNIFFER "")
                (stale W_ENABLED)) = None.
Proof.
  assert (H1 : sdk_sniffer_enable (stale W_EMPTY)
               = (Ret tt, after sdk_sniffer_enable (stale W_EMPTY)))
    by (vm_compute; reflexivity).
  assert (H2 : sdk_sniffer_enable (stale W_ENABLED)
               = (Ret tt, after sdk_sniffer_enable (stale W_ENABLED)))
    by (vm_compute; reflexivity).
  assert (H3 : sdk_sniffer_enable (stale W_RESTART_FAILS)
               = (Ret tt, after sdk_sniffer_enable (stale W_RESTART_FAILS)))
    by (vm_compute; reflexivity).
  assert (H4 : sdk_sniffer_disable (stale W_ENABLED)
               = (Ret tt, after sdk_sniffer_disable (stale W_ENABLED)))
    by (vm_compute; reflexivity).
  assert (H5 : sdk_sniffer_enable (stale W_RESTART_EXITS)
               = (Raise (FatalError "exit status 1"),
                  after sdk_sniffer_enable (stale W_RESTART_EXITS)))
    by (vm_compute; reflexivity).
  assert (H6 : sniffer_env_variable_set false ENV_VARIABLE_SX_SNIFFER ""
                 (stale W_ENABLED)
               = (Ret false,
                  after (sniffer_env_variable_set false
                           ENV_VARIABLE_SX_SNIFFER "") (stale W_ENABLED)))
    by (vm_compute; reflexivity).
  assert (H7 : In Restart
                 (steps (new_events (stale W_RESTART_EXITS)
                           (after sdk_sniffer_enable
                              (stale W_RESTART_EXITS)))))
    by (vm_compute; repeat (first [left; reflexivity | right])).
  destruct staging_removed_on_return as (Hs & He & Hd).
  split; [split_all; try assumption; try discriminate;
          vm_compute; reflexivity|].
  destruct (He _ _ _ H1 (or_introl eq_refl)) as (Ha & _ & _ & Hb).
  split; [split; assumption|].
  split; [exact (proj2 (proj2 (proj2 (He _ _ _ H2 (or_introl eq_refl)))))|].
  split; [exact (proj2 (proj2 (proj2 (He _ _ _ H3 (or_introl eq_refl)))))|].
  split; [exact (proj2 (proj2 (proj2 (Hd _ _ _ H4 (or_introl eq_refl)))))|].
  split; [exact (proj2 (proj2 (proj2 (He _ _ _ H5 (or_intror H7)))))|].
  destruct (Hs _ _ _ _ _ _ H6) as (Hrec & _ & Hgone).
  split; [exact Hrec | exact Hgone].
Defined.

Lemma steps_in_program_order_witness :
  sdk_sniffer_enable W_EMPTY = (Ret tt, after sdk_sniffer_enable W_EMPTY)
  /\ steps (new_events W_EMPTY (after sdk_sniffer_enable W_EMPTY))
     = APPLIED_STEPS
  /\ precedes Restart Cleanup
       (steps (new_events W_EMPTY (after sdk_sniffer_enable W_EMPTY)))
     = false.
Proof.
  assert (H1 : sdk_sniffer_enable W_EMPTY
               = (Ret tt, after sdk_sniffer_enable W_EMPTY))
    by (vm_compute; reflexivity).
  destruct (steps_in_program_order true W_EMPTY _ _ H1) as (_ & _ & H & _).
  split; [exact H1|]. split; [vm_compute; reflexivity | exact H].
Defined.

Lemma noop_when_already_in_desired_state_witness :
  (located ENV_VARIABLE_SX_SNIFFER (fragment W_ENABLED) <> ""
   /\ sdk_sniffer_enable W_ENABLED
      = (Ret tt, after sdk_sniffer_enable W_ENABLED))
  /\ fragment (after sdk_sniffer_enable W_ENABLED) = fragment W_ENABLED
  /\ new_events W_ENABLED (after sdk_sniffer_enable W_ENABLED)
     = noop_events MSG_ALREADY_ENABLED.
Proof.
  assert (H0 : located ENV_VARIABLE_SX_SNIFFER (fragment W_ENABLED) <> "")
    by (apply String.eqb_neq; vm_compute; reflexivity).
  assert (H1 : sdk_sniffer_enable W_ENABLED
               = (Ret tt, after sdk_sniffer_enable W_ENABLED))
    by (vm_compute; reflexivity).
  destruct (proj1 (proj2 noop_when_already_in_desired_state) _ _ _ H0 H1)
    as (Ha & _ & Hb).
  split; [split; assumption|]. split; [exact Ha | exact (Hb eq_refl)].
Defined.

Lemma toggle_twice_same_state_witness :
  (sdk_sniffer_enable W_RESTART_FAILS
   = (Ret tt, after sdk_sniffer_enable W_RESTART_FAILS)
   /\ sdk_sniffer_enable
        (set_now "20240101000107" (after sdk_sniffer_enable W_RESTART_FAILS))
      = (Ret tt,
         after sdk_sniffer_enable
           (set_now "20240101000107"
              (after sdk_sniffer_enable W_RESTART_FAILS))))
  /\ remote (after sdk_sniffer_enable
               (set_now "20240101000107"
                  (after sdk_sniffer_enable W_RESTART_FAILS)))
     = remote (after sdk_sniffer_enable W_RESTART_FAILS)
  /\ (directive_lines_agree ENV_VARIABLE_SX_SNIFFER (fragment W_ENABLED)
      = true
      /\ sdk_sniffer_disable W_ENABLED
         = (Ret tt, after sdk_sniffer_disable W_ENABLED)
      /\ sdk_sniffer_disable
           (set_now "20240101000107" (after sdk_sniffer_disable W_ENABLED))
         = (Ret tt,
            after sdk_sniffer_disable
              (set_now "20240101000107"
                 (after sdk_sniffer_disable W_ENABLED))))
  /\ remote (after sdk_sniffer_disable
               (set_now "20240101000107"
                  (after sdk_sniffer_disable W_ENABLED)))
     = remote (after sdk_sniffer_disable W_ENABLED).
Proof.
  assert (H1 : sdk_sniffer_enable W_RESTART_FAILS
               = (Ret tt, after sdk_sniffer_enable W_RESTART_FAILS))
    by (vm_compute; reflexivity).
  assert (H2 : sdk_sniffer_enable
                 (set_now "20240101000107"
                    (after sdk_sniffer_enable W_RESTART_FAILS))
               = (Ret tt,
                  after sdk_sniffer_enable
                    (set_now "20240101000107"
                       (after sdk_sniffer_enable W_RESTART_FAILS))))
    by (vm_compute; reflexivity).
  assert (H3 : directive_lines_agree ENV_VARIABLE_SX_SNIFFER
                 (fragment W_ENABLED) = true)
    by (vm_compute; reflexivity).
  assert (H4 : sdk_sniffer_disable W_ENABLED
               = (Ret tt, after sdk_sniffer_disable W_ENABLED))
    by (vm_compute; reflexivity).
  assert (H5 : sdk_sniffer_disable
                 (set_now "20240101000107"
                    (after sdk_sniffer_disable W_ENABLED))
               = (Ret tt,
                  after sdk_sniffer_disable
                    (set_now "20240101000107"
                       (after sdk_sniffer_disable W_ENABLED))))
    by (vm_compute; reflexivity).
  destruct toggle_twice_same_state as (He & Hd).
  destruct (He _ _ _ _ _ H1 H2) as (Ha & _).
  destruct (Hd _ _ _ _ _ H3 H4 H5) as (Hb & _).
  split_all; assumption.
Defined.

Lemma enable_from_empty_fragment_witness :
  (fragment W_EMPTY = ""
   /\ sdk_sniffer_enable W_EMPTY = (Ret tt, after sdk_sniffer_enable W_EMPTY))
  /\ remote (after sdk_sniffer_enable W_EMPTY)
     = Some (PROGRAM_HEADER
               ++ "environment=SX_SNIFFER_ENABLE=1,SX_SNIFFER_TARGET=/var/log/sdk_dbg/sx_sdk_sniffer_20240101000000.pcap"
               ++ String NL "").
Proof.
  assert (H1 : sdk_sniffer_enable W_EMPTY
               = (Ret tt, after sdk_sniffer_enable W_EMPTY))
    by (vm_compute; reflexivity).
  split; [split; [reflexivity | exact H1]|].
  exact (proj1 (proj1 enable_from_empty_fragment W_EMPTY _ eq_refl H1)).
Defined.

Lemma enable_then_disable_removes_directive_witness :
  (fragment W_EMPTY = ""
   /\ is_time_stamp (now W_EMPTY) = true
   /\ sdk_sniffer_enable W_EMPTY = (Ret tt, after sdk_sniffer_enable W_EMPTY)
   /\ sdk_sniffer_disable
        (set_now "20240101000107" (after sdk_sniffer_enable W_EMPTY))
      = (Ret tt,
         after sdk_sniffer_disable
           (set_now "20240101000107" (after sdk_sniffer_enable W_EMPTY))))
  /\ remote (after sdk_sniffer_enable W_EMPTY)
     = Some (PROGRAM_HEADER ++ SAMPLE_DIRECTIVE ++ String NL "")
  /\ occurs_in ENV_VARIABLE_SX_SNIFFER
       (fragment (after sdk_sniffer_enable W_EMPTY))
  /\ remote (after sdk_sniffer_disable
               (set_now "20240101000107" (after sdk_sniffer_enable W_EMPTY)))
     = Some PROGRAM_HEADER.
Proof.
  assert (H1 : sdk_sniffer_enable W_EMPTY
               = (Ret tt, after sdk_sniffer_enable W_EMPTY))
    by (vm_compute; reflexivity).
  assert (H2 : sdk_sniffer_disable
                 (set_now "20240101000107" (after sdk_sniffer_enable W_EMPTY))
               = (Ret tt,
                  after sdk_sniffer_disable
                    (set_now "20240101000107"
                       (after sdk_sniffer_enable W_EMPTY))))
    by (vm_compute; reflexivity).
  split; [split_all; try assumption; reflexivity|].
  destruct (enable_then_disable_removes_directive
              W_EMPTY _ _ _ eq_refl eq_refl H1 H2)
    as (Ha & _ & _ & Hb & _ & Hc & _).
  split; [exact Ha|]. split; [exact Hb | exact Hc].
Defined.

Lemma restart_failure_keeps_published_change_witness :
  (located ENV_VARIABLE_SX_SNIFFER (fragment W_RESTART_FAILS) = ""
   /\ valid_utf8 (fragment W_RESTART_FAILS) = true
   /\ makedirs_failure W_RESTART_FAILS = None
   /\ outcomes W_RESTART_FAILS
      = [CmdOk; CmdOk; CmdOk; CmdOk;
         CmdRaise (OSError "No such file or directory")]
   /\ outcomes W_RESTART_EXITS
      = [CmdOk; CmdOk; CmdOk; CmdOk; CmdRaise (FatalError "exit status 1")])
  /\ (exists w',
         sdk_sniffer_enable W_RESTART_FAILS = (Ret tt, w')
         /\ remote w' = Some SAMPLE_ENABLED
         /\ ~ In (EvEcho (MSG_ENABLED (sniffer_filename SAMPLE_TIME)))
                 (new_events W_RESTART_FAILS w'))
  /\ (exists w',
         sdk_sniffer_enable W_RESTART_EXITS
         = (Raise (FatalError "exit status 1"), w')
         /\ remote w' = Some SAMPLE_ENABLED
         /\ staging w' = None
         /\ ~ In (EvEcho (MSG_ENABLED (sniffer_filename SAMPLE_TIME)))
                 (new_events W_RESTART_EXITS w')).
Proof.
  split; [split_all; reflexivity|]. split.
  - destruct (restart_failure_keeps_published_change W_RESTART_FAILS
                (OSError "No such file or directory") []
                eq_refl eq_refl eq_refl eq_refl)
      as (r & w' & H1 & H2 & _ & _ & _ & H3 & -> & _).
    exists w'. split; [exact H1|]. split; [exact H2 | exact H3].
  - destruct (restart_failure_keeps_published_change W_RESTART_EXITS
                (FatalError "exit status 1") []
                eq_refl eq_refl eq_refl eq_refl)
      as (r & w' & H1 & H2 & _ & H3 & _ & H4 & -> & _).
    exists w'. split; [exact H1|]. split; [exact H2|].
    split; [exact H3 | exact H4].
Defined.

(** ** Inputs at which the claims as worded fail *)

(** C1, as worded for every fragment.  With two different lines that
    mention the variable, the first disable removes the first of them
    and the second disable removes the other: the second call is not a
    no-op ([ignore] is false) and changes the fragment again. *)
Lemma toggle_twice_counterexample :
  sdk_sniffer_disable W_TWO_MENTIONS
  = (Ret tt, after sdk_sniffer_disable W_TWO_MENTIONS)
  /\ fst (sniffer_env_variable_set false ENV_VARIABLE_SX_SNIFFER ""
            (after sdk_sniffer_disable W_TWO_MENTIONS))
     = Ret false
  /\ fst (sdk_sniffer_disable (after sdk_sniffer_disable W_TWO_MENTIONS))
     = Ret tt
  /\ remote (after sdk_sniffer_disable
               (after sdk_sniffer_disable W_TWO_MENTIONS))
     <> remote (after sdk_sniffer_disable W_TWO_MENTIONS).
Proof.
  split_all; try (vm_compute; reflexivity).
  vm_compute. discriminate.
Qed.

(** The same with two mentions that are one line for a reader that
    ends lines at the line feed only: the text stream ends a line at
    the carriage return too, the lines are two, and the second disable
    changes the fragment again. *)
Lemma toggle_twice_cr_counterexample :
  directive_lines_agree ENV_VARIABLE_SX_SNIFFER SAMPLE_CR_MENTIONS = false
  /\ lines SAMPLE_CR_MENTIONS = [SAMPLE_CR_MENTIONS]
  /\ text_lines SAMPLE_CR_MENTIONS
     = ["SX_SNIFFER_ENABLE=1" ++ String NL "";
        "SX_SNIFFER_ENABLE=2" ++ String NL ""]
  /\ sdk_sniffer_disable W_CR_MENTIONS
     = (Ret tt, after sdk_sniffer_disable W_CR_MENTIONS)
  /\ fst (sdk_sniffer_disable (after sdk_sniffer_disable W_CR_MENTIONS))
     = Ret tt
  /\ remote (after sdk_sniffer_disable
               (after sdk_sniffer_disable W_CR_MENTIONS))
     <> remote (after sdk_sniffer_disable W_CR_MENTIONS).
Proof.
  split_all; try (vm_compute; reflexivity).
  vm_compute. discriminate.
Qed.

(** C3, as worded with cleanup last.  In a run that applies a change the
    last step is the restart, and the cleanup is before it. *)
Lemma cleanup_last_counterexample :
  steps (new_events W_EMPTY (after sdk_sniffer_enable W_EMPTY))
  = [Fetch; Fetch; Locate; Mutate; Publish; Cleanup; Restart]
  /\ precedes Restart Cleanup
       (steps (new_events W_EMPTY (after sdk_sniffer_enable W_EMPTY)))
     = false
  /\ last (steps (new_events W_EMPTY (after sdk_sniffer_enable W_EMPTY)))
          Fetch
     <> Cleanup.
Proof.
  split_all; try (vm_compute; reflexivity).
  vm_compute. discriminate.
Qed.

(** C4, as worded for every mapping.  The loop puts nothing between the
    pairs: on the two-pair mapping of the scenario it yields no comma at
    all, and on the program's own mapping, whose first value already
    ends in a comma, a separator would double it. *)
Lemma comma_separated_counterexample :
  env_variable_string_of SAMPLE_MAPPING <> spec_directive_line SAMPLE_MAPPING
  /\ env_variable_string_of SAMPLE_MAPPING
     = "environment=ENABLE=1TARGET=/var/log/sdk_dbg/sx_sdk_sniffer_20240101000000.pcap"
         ++ String NL ""
  /\ env_variable_string_of
       (sdk_sniffer_env_variable_dict (sniffer_filename SAMPLE_TIME))
     <> spec_directive_line
          (sdk_sniffer_env_variable_dict (sniffer_filename SAMPLE_TIME)).
Proof.
  split_all; try (vm_compute; reflexivity);
    apply String.eqb_neq; vm_compute; reflexivity.
Qed.

(** C8, as worded for every failure of the restart.  When the restart
    command ends with a status that is not zero, the exit goes through
    [restart_swss], which handles [OSError] only: the change stays
    published, but nothing is logged and the entry point does not
    return. *)
Lemma restart_failure_counterexample :
  outcomes W_RESTART_EXITS
  = [CmdOk; CmdOk; CmdOk; CmdOk; CmdRaise (FatalError "exit status 1")]
  /\ fst (sdk_sniffer_enable W_RESTART_EXITS)
     = Raise (FatalError "exit status 1")
  /\ remote (after sdk_sniffer_enable W_RESTART_EXITS) = Some SAMPLE_ENABLED
  /\ existsb (fun e => match e with EvLogError _ => true | _ => false end)
       (new_events W_RESTART_EXITS (after sdk_sniffer_enable W_RESTART_EXITS))
     = false
  /\ last (new_events W_RESTART_EXITS
             (after sdk_sniffer_enable W_RESTART_EXITS))
          (EvEcho "")
     = EvRun COMMAND_RESTART_SWSS (CmdRaise (FatalError "exit status 1"))
  /\ fst (restart_swss (world_with None SAMPLE_TIME
                          [CmdRaise (FatalError "exit status 1")]))
     = Raise (FatalError "exit status 1").
Proof. split_all; vm_compute; reflexivity. Qed.

(** C10, as worded for every content.  The file is rewritten from the
    lines the text stream presents: with line ends CR LF, deleting a
    line that is not there leaves every line with LF at its end, so the
    content is not the one that was there; and on bytes that do not
    decode nothing is removed, the call raises. *)
Lemma delete_absent_line_counterexample :
  existsb (String.eqb SAMPLE_Y) (text_lines SAMPLE_TWO_LINES_CRLF) = false
  /\ existsb (String.eqb SAMPLE_Y) (lines SAMPLE_TWO_LINES_CRLF) = false
  /\ env_variable_delete SAMPLE_Y (W_STAGED SAMPLE_TWO_LINES_CRLF)
     = (Ret tt,
        after (env_variable_delete SAMPLE_Y) (W_STAGED SAMPLE_TWO_LINES_CRLF))
  /\ staging (after (env_variable_delete SAMPLE_Y)
                (W_STAGED SAMPLE_TWO_LINES_CRLF))
     = Some SAMPLE_TWO_LINES
  /\ SAMPLE_TWO_LINES <> SAMPLE_TWO_LINES_CRLF
  /\ env_variable_delete SAMPLE_Y (W_STAGED SAMPLE_UNDECODABLE)
     = (Raise UNICODE_DECODE_ERROR,
        after (env_variable_delete SAMPLE_Y) (W_STAGED SAMPLE_UNDECODABLE))
  /\ staging (after (env_variable_delete SAMPLE_Y)
                (W_STAGED SAMPLE_UNDECODABLE))
     = Some SAMPLE_UNDECODABLE.
Proof.
  split_all; try (vm_compute; reflexivity).
  apply String.eqb_neq. vm_compute. reflexivity.
Qed.

(** C6, as worded for every fragment.  With line ends CR LF the lines
    that are kept are not written back as they stood in the file: each
    is written with LF at its end.  And bytes that do not decode are
    not rewritten at all: the call raises. *)
Lemma delete_line_ends_counterexample :
  SAMPLE_FOUR_LINES_CRLF
  = "[program:syncd]" ++ CRLF ++ "command=/usr/bin/syncd" ++ CRLF
      ++ SAMPLE_DIRECTIVE ++ CRLF ++ "autostart=true" ++ CRLF
  /\ sdk_sniffer_disable W_FOUR_LINES_CRLF
     = (Ret tt, after sdk_sniffer_disable W_FOUR_LINES_CRLF)
  /\ remote (after sdk_sniffer_disable W_FOUR_LINES_CRLF)
     = Some ("[program:syncd]" ++ String NL ""
               ++ "command=/usr/bin/syncd" ++ String NL ""
               ++ "autostart=true" ++ String NL "")
  /\ remote (after sdk_sniffer_disable W_FOUR_LINES_CRLF)
     <> Some ("[program:syncd]" ++ CRLF ++ "command=/usr/bin/syncd" ++ CRLF
                ++ "autostart=true" ++ CRLF)
  /\ env_variable_delete SAMPLE_X (W_STAGED SAMPLE_UNDECODABLE)
     = (Raise UNICODE_DECODE_ERROR,
        after (env_variable_delete SAMPLE_X) (W_STAGED SAMPLE_UNDECODABLE))
  /\ staging (after (env_variable_delete SAMPLE_X)
                (W_STAGED SAMPLE_UNDECODABLE))
     = Some SAMPLE_UNDECODABLE.
Proof.
  split_all; try (vm_compute; reflexivity).
  vm_compute. discriminate.
Qed.


(** ** More about the sniffer toggle *)

Lemma lines_nil_iff (s : string) : lines s = [] -> s = "".
Proof.
  destruct s as [|c s]; [reflexivity|]. cbn.
  destruct (Ascii.eqb c NL); [discriminate|].
  destruct (lines s); discriminate.
Qed.

Lemma lines_app_terminated (pre x : string) :
  terminated pre = true -> lines (pre ++ x) = (lines pre ++ lines x)%list.
Proof.
  induction pre as [|c pre IH]; [reflexivity|]. intros Ht.
  cbn [append lines]. destruct pre as [|c' pre].
  - cbn in Ht. rewrite Ht. reflexivity.
  - change (terminated (String c (String c' pre)))
      with (terminated (String c' pre)) in Ht.
    rewrite (IH Ht). destruct (Ascii.eqb c NL); [reflexivity|].
    destruct (lines (String c' pre)) as [|l ls] eqn:E.
    + apply lines_nil_iff in E. discriminate.
    + reflexivity.
Qed.

Lemma conf_file_receive_stale (s0 : option string) (w : World) :
  conf_file_receive (set_staging s0 w)
  = match conf_file_receive w with
    | (Ret a, w') => (Ret a, w')
    | (Raise e, w') => (Raise e, set_staging s0 w')
    end.
Proof.
  destruct w as [rem stg ds mk nw outs tr].
  unfold conf_file_receive, conf_file_copy, bind, run_command, next_outcome.
  cbn. destruct (hd CmdOk outs); [|reflexivity]. cbn.
  destruct (hd CmdOk (tl outs)); reflexivity.
Qed.

Lemma set_after_receive (en : bool) (name s : string) :
  exists K : World -> result bool * World,
    forall w,
      sniffer_env_variable_set en name s w
      = match conf_file_receive w with
        | (Ret _, w1) => K w1
        | (Raise e, w1) => (Raise e, w1)
        end.
Proof.
  eexists. intros w. unfold sniffer_env_variable_set.
  unfold bind at 1. destruct (conf_file_receive w) as [[[]|e] w1].
  - pattern w1. reflexivity.
  - reflexivity.
Qed.

(** X1. What the staging file holds before a run of
    [sniffer_env_variable_set] has no part in the run: started with any
    other staging content, the run gives the same result, the same
    fragment and the same trace, and ends in the same world when it
    returns. *)
Theorem stale_staging_is_overwritten
  (en : bool) (name s : string) (s0 : option string) (w : World) r w' :
  sniffer_env_variable_set en name s w = (r, w') ->
  exists w'',
    sniffer_env_variable_set en name s (set_staging s0 w) = (r, w'')
    /\ remote w'' = remote w'
    /\ trace w'' = trace w'
    /\ (forall ig, r = Ret ig -> w'' = w').
Proof.
  destruct (set_after_receive en name s) as [K HK].
  rewrite !HK, conf_file_receive_stale.
  destruct (conf_file_receive w) as [[[]|e] w1].
  - intros H. exists w'. split; [exact H|]. now repeat split.
  - intros [= <- <-]. exists (set_staging s0 w1).
    split; [reflexivity|]. split; [reflexivity|]. split; [reflexivity|].
    discriminate.
Qed.


Lemma wp_run {A : Type} (m : M A) (w : World)
  (Q : result A -> World -> Prop) :
  wp m w Q -> forall r w', m w = (r, w') -> Q r w'.
Proof. intros H r w'. now apply wp_elim. Qed.

(** X3. Fetching the fragment and sending it back changes nothing in the
    container, whether the commands succeed or not; when both return,
    the file in the container and the staging file hold the fragment;
    and the only failures are those of the three commands. *)
Theorem fetch_then_publish_keeps_fragment (w : World) r w' :
  (conf_file_receive ;;; config_file_send) w = (r, w') ->
  fragment w' = fragment w
  /\ (r = Ret tt ->
      remote w' = Some (fragment w) /\ staging w' = Some (fragment w))
  /\ (forall e, r = Raise e ->
      hd CmdOk (outcomes w) = CmdRaise e
      \/ hd CmdOk (tl (outcomes w)) = CmdRaise e
      \/ hd CmdOk (tl (tl (outcomes w))) = CmdRaise e).
Proof.
  revert r w'. apply wp_run. destruct w as [rem stg ds mk nw outs tr].
  repeat wp_step; world_compute.
  all: split; [reflexivity|]; split;
    [ intros Hr; first [discriminate Hr | split; reflexivity]
    | let x := fresh "x" in let Hr := fresh "Hr" in
      intros x Hr; first [discriminate Hr | injection Hr as <-]; auto ].
Qed.

Lemma kept_lines_empty (c : string) :
  kept_lines "" (text_lines c) = text_lines c.
Proof.
  apply kept_lines_absent. unfold text_lines. intros H.
  now apply lines_nonempty in H.
Qed.

Lemma located_none (name c : string) :
  located name c = "" ->
  Forall (fun l => mentions l name = false) (text_lines c).
Proof.
  intros H. apply Forall_forall. intros l Hl. apply mentions_false_iff.
  revert l Hl. now apply located_empty_iff.
Qed.

Lemma first_line_with_app (name : string) (l1 l2 : list string) :
  Forall (fun l => mentions l name = false) l1 ->
  first_line_with name (l1 ++ l2) = first_line_with name l2.
Proof.
  induction 1 as [|a l1 Ha _ IH]; cbn; [reflexivity|]. now rewrite Ha.
Qed.

Lemma kept_lines_other (name x : string) (ls : list string) :
  mentions x name = true ->
  Forall (fun l => mentions l name = false) ls ->
  kept_lines x ls = ls.
Proof.
  intros Hx Hall. apply kept_lines_absent. intros Hin.
  rewrite Forall_forall in Hall. specialize (Hall x Hin). congruence.
Qed.

(** X4. After an enable has returned the directive is present; a
    fragment that had it is kept as it was, and a fragment that was not
    empty and did not have it is kept with the directive line appended. *)
Theorem enable_appends_directive (w w' : World) :
  sdk_sniffer_enable w = (Ret tt, w') ->
  located ENV_VARIABLE_SX_SNIFFER (fragment w') <> ""
  /\ (located ENV_VARIABLE_SX_SNIFFER (fragment w) <> "" ->
      remote w' = Some (fragment w))
  /\ (located ENV_VARIABLE_SX_SNIFFER (fragment w) = "" ->
      fragment w <> "" ->
      remote w' = Some (fragment w ++ directive_line (now w))).
Proof.
  intros Hrun. apply enable_inv in Hrun as (_ & _ & tr & _ & Hrem & _).
  split; [|split].
  - unfold fragment at 1. rewrite Hrem. apply enabled_after.
  - intros Hl. rewrite Hrem. f_equal. apply toggle_content_noop.
    apply toggle_ignore_true. now left.
  - intros Hl Hne. rewrite Hrem, Hl. unfold toggle_content. cbn [String.eqb negb].
    now rewrite (proj2 (String.eqb_neq _ _) Hne).
Qed.

(** X5. After a disable has returned the lines of the fragment, as the
    text stream presents them, are the lines it had, in their order,
    without those equal to the located line.  When a line was located
    it is no longer among them, and the fragment has been rewritten
    with LF at the end of every line; when none was, the fragment is
    as it was, byte for byte. *)
Theorem disable_removes_located_line (w w' : World) :
  sdk_sniffer_disable w = (Ret tt, w') ->
  text_lines (fragment w')
  = filter (fun l => negb (l =? located ENV_VARIABLE_SX_SNIFFER (fragment w)))
           (text_lines (fragment w))
  /\ (located ENV_VARIABLE_SX_SNIFFER (fragment w) <> "" ->
      fragment w' = join (text_lines (fragment w'))
      /\ no_cr (fragment w') = true
      /\ ~ In (located ENV_VARIABLE_SX_SNIFFER (fragment w))
              (text_lines (fragment w')))
  /\ (located ENV_VARIABLE_SX_SNIFFER (fragment w) = "" ->
      fragment w' = fragment w).
Proof.
  intros Hrun. apply disable_inv in Hrun as (_ & _ & tr & _ & Hrem & _).
  assert (Hfrag : fragment w'
                  = toggle_content false
                      (located ENV_VARIABLE_SX_SNIFFER (fragment w)) ""
                      (fragment w))
    by (unfold fragment at 1; now rewrite Hrem).
  rewrite Hfrag. unfold toggle_content.
  destruct (String.eqb_spec (located ENV_VARIABLE_SX_SNIFFER (fragment w)) "")
    as [E|E]; cbn [negb].
  - split; [|split; [contradiction | reflexivity]].
    rewrite E. symmetry. apply kept_lines_empty.
  - split; [apply lines_kept|]. split; [|contradiction].
    intros _. rewrite lines_kept.
    split; [reflexivity|]. split; [apply no_cr_kept|].
    intros Hin. apply kept_lines_In in Hin as [_ Hin]. now apply Hin.
Qed.

Lemma directive_line_starts (t : string) :
  startswith (directive_line t) (String NL "") = false.
Proof. reflexivity. Qed.

(** The lines of a fragment to which an enable has appended its
    directive: the directive goes onto the last line when that had no
    end. *)
Lemma text_lines_appended (c t pre last : string) :
  universal_newlines c = pre ++ last ->
  terminated pre = true ->
  no_newline last = true ->
  is_time_stamp t = true ->
  text_lines (c ++ directive_line t)
  = (lines pre ++ [(last ++ directive_line t)%string])%list.
Proof.
  intros Hc Hpre Hlast Ht. unfold text_lines.
  rewrite universal_newlines_app by apply directive_line_starts.
  rewrite Hc, (universal_newlines_id _ (directive_line_no_cr _ Ht)).
  rewrite append_assoc, (lines_app_terminated _ _ Hpre). f_equal.
  change (directive_line t)
    with (("environment=SX_SNIFFER_ENABLE=1,SX_SNIFFER_TARGET="
             ++ SDK_SNIFFER_TARGET_PATH ++ SDK_SNIFFER_FILENAME_PREFIX
             ++ t ++ SDK_SNIFFER_FILENAME_EXT) ++ String NL "").
  rewrite <- append_assoc, lines_complete; [reflexivity|].
  rewrite !no_newline_app, Hlast, (is_time_stamp_no_newline _ Ht).
  reflexivity.
Qed.

Lemma enable_disable_general (w w1 : World) (t : string) (w2 : World)
  (pre last : string) :
  universal_newlines (fragment w) = pre ++ last ->
  fragment w <> "" ->
  terminated pre = true ->
  no_newline last = true ->
  located ENV_VARIABLE_SX_SNIFFER (fragment w) = "" ->
  is_time_stamp (now w) = true ->
  sdk_sniffer_enable w = (Ret tt, w1) ->
  sdk_sniffer_disable (set_now t w1) = (Ret tt, w2) ->
  remote w1 = Some (fragment w ++ directive_line (now w))
  /\ remote w2 = Some pre.
Proof.
  intros Hc Hne Hpre Hlast Hloc Ht H1 H2.
  apply enable_inv in H1 as (_ & _ & tr1 & _ & Hrem1 & _).
  rewrite Hloc in Hrem1. unfold toggle_content in Hrem1.
  cbn [String.eqb negb] in Hrem1.
  rewrite (proj2 (String.eqb_neq _ _) Hne) in Hrem1.
  split; [exact Hrem1|].
  apply disable_inv in H2 as (_ & _ & tr2 & _ & Hrem2 & _).
  assert (Hfrag1 : fragment (set_now t w1)
                   = fragment w ++ directive_line (now w))
    by (unfold fragment at 1; cbn; now rewrite Hrem1).
  rewrite Hfrag1 in Hrem2. clear Hfrag1.
  set (d := directive_line (now w)) in *.
  pose proof (text_lines_appended _ _ _ _ Hc Hpre Hlast Ht) as Hlines.
  fold d in Hlines.
  assert (Hnone : Forall (fun l => mentions l ENV_VARIABLE_SX_SNIFFER = false)
                         (lines pre)).
  { apply located_none in Hloc. unfold text_lines in Hloc.
    rewrite Hc, (lines_app_terminated _ _ Hpre) in Hloc.
    now apply Forall_app in Hloc. }
  assert (Hd : mentions (last ++ d) ENV_VARIABLE_SX_SNIFFER = true)
    by (apply mentions_iff, directive_line_occurs).
  assert (Hnz : last ++ d <> "").
  { intros E. rewrite E in Hd. discriminate. }
  unfold located, toggle_content in Hrem2. rewrite Hlines in Hrem2.
  rewrite (first_line_with_app _ _ _ Hnone) in Hrem2.
  cbn [first_line_with] in Hrem2. rewrite Hd in Hrem2.
  rewrite (proj2 (String.eqb_neq _ _) Hnz) in Hrem2. cbn [negb] in Hrem2.
  unfold kept_lines in Hrem2. rewrite filter_app in Hrem2.
  fold (kept_lines (last ++ d) (lines pre)) in Hrem2.
  rewrite (kept_lines_other _ _ _ Hd Hnone) in Hrem2.
  cbn [filter] in Hrem2. rewrite String.eqb_refl in Hrem2.
  cbn [negb] in Hrem2. now rewrite app_nil_r, join_lines in Hrem2.
Qed.

Lemma append_self (a b : string) : a = a ++ b -> b = "".
Proof.
  induction a as [|c a IH]; cbn; [congruence|].
  intros [= H]. now apply IH.
Qed.

(** X6. Enabling and then disabling gives back the text of the fragment,
    when the fragment was not empty, its text ended in a line end and
    it did not mention the variable: the fragment byte for byte when it
    had no carriage return, and otherwise the fragment with LF for
    every line end. *)
Theorem enable_then_disable_restores_fragment
  (w w1 : World) (t : string) (w2 : World) :
  fragment w <> "" ->
  terminated (universal_newlines (fragment w)) = true ->
  located ENV_VARIABLE_SX_SNIFFER (fragment w) = "" ->
  is_time_stamp (now w) = true ->
  sdk_sniffer_enable w = (Ret tt, w1) ->
  sdk_sniffer_disable (set_now t w1) = (Ret tt, w2) ->
  remote w2 = Some (universal_newlines (fragment w))
  /\ (no_cr (fragment w) = true -> remote w2 = Some (fragment w)).
Proof.
  intros Hne Hterm Hloc Ht H1 H2.
  assert (H : remote w2 = Some (universal_newlines (fragment w))).
  { apply (enable_disable_general w w1 t w2
             (universal_newlines (fragment w)) "");
      try assumption; try reflexivity.
    now rewrite append_nil_r. }
  split; [exact H|]. intros Hcr. now rewrite H, universal_newlines_id.
Qed.

(** X7. When the text of the fragment ends in a line without a line
    end, enabling writes the directive onto that line, and disabling
    then removes the joined line: the last line the fragment had is
    lost. *)
Theorem unterminated_last_line_is_lost
  (w w1 : World) (t : string) (w2 : World) (pre last : string) :
  universal_newlines (fragment w) = pre ++ last ->
  last <> "" ->
  terminated pre = true ->
  no_newline last = true ->
  located ENV_VARIABLE_SX_SNIFFER (fragment w) = "" ->
  is_time_stamp (now w) = true ->
  sdk_sniffer_enable w = (Ret tt, w1) ->
  sdk_sniffer_disable (set_now t w1) = (Ret tt, w2) ->
  remote w1 = Some (fragment w ++ directive_line (now w))
  /\ remote w2 = Some pre
  /\ universal_newlines (fragment w2) <> universal_newlines (fragment w)
  /\ fragment w2 <> fragment w.
Proof.
  intros Hc Hlast Hpre Hnl Hloc Ht H1 H2.
  assert (Hne : fragment w <> "").
  { intros E. rewrite E in Hc. cbn in Hc.
    destruct pre; [cbn in Hc; congruence | discriminate]. }
  destruct (enable_disable_general w w1 t w2 pre last
              Hc Hne Hpre Hnl Hloc Ht H1 H2) as [Ha Hb].
  split; [exact Ha|]. split; [exact Hb|].
  assert (Hcr : no_cr pre = true).
  { pose proof (universal_newlines_no_cr (fragment w)) as H.
    rewrite Hc, no_cr_app in H. now apply andb_true_iff in H. }
  assert (Hdiff : universal_newlines (fragment w2)
                  <> universal_newlines (fragment w)).
  { unfold fragment at 1. rewrite Hb, Hc, (universal_newlines_id _ Hcr).
    intros E. now apply append_self in E. }
  split; [exact Hdiff|]. intros E. apply Hdiff. now rewrite E.
Qed.

(** X8. When an entry point returns, it has printed its success message
    exactly when the request was not already satisfied and the restart
    command succeeded. *)
Theorem success_message_iff_restarted (enable : bool) (w w' : World) :
  (if enable then sdk_sniffer_enable else sdk_sniffer_disable) w
  = (Ret tt, w') ->
  (In (EvEcho (if enable then MSG_ENABLED (sniffer_filename (now w))
               else MSG_DISABLED))
      (new_events w w')
   <-> toggle_ignore enable (located ENV_VARIABLE_SX_SNIFFER (fragment w))
       = false
       /\ In (EvRun COMMAND_RESTART_SWSS CmdOk) (new_events w w')).
Proof.
  intros Hrun.
  assert (exists pre tr msg,
             msg = (if enable then MSG_ENABLED (sniffer_filename (now w))
                    else MSG_DISABLED)
             /\ (pre = [] \/ pre = [EvMakedirs SDK_SNIFFER_TARGET_PATH])
             /\ trace w' = (trace w ++ pre ++ tr)%list
             /\ (if toggle_ignore enable
                      (located ENV_VARIABLE_SX_SNIFFER (fragment w))
                 then tr = set_events enable
                             (located ENV_VARIABLE_SX_SNIFFER (fragment w))
                 else tr = (set_events enable
                              (located ENV_VARIABLE_SX_SNIFFER (fragment w))
                            ++ restart_events_ok msg)%list
                      \/ exists cause,
                          tr = (set_events enable
                                  (located ENV_VARIABLE_SX_SNIFFER
                                     (fragment w))
                                ++ restart_events_failed cause)%list))
    as (pre & tr & msg & -> & Hpre & Htr & H).
  { destruct enable.
    - apply enable_inv in Hrun as (_ & _ & tr & Htr & _ & _ & H).
      exists (makedirs_events w), tr, (MSG_ENABLED (sniffer_filename (now w))).
      split; [reflexivity|]. split; [|split; assumption].
      unfold makedirs_events. destruct (target_dir w); auto.
    - apply disable_inv in Hrun as (_ & _ & tr & Htr & _ & _ & H).
      exists [], tr, MSG_DISABLED. auto. }
  rewrite (new_events_eq _ _ _ Htr). clear Htr Hrun.
  unfold toggle_ignore, set_events, restart_events_ok,
    restart_events_failed in *.
  destruct enable;
    destruct (String.eqb_spec (located ENV_VARIABLE_SX_SNIFFER (fragment w)) "")
      as [E|E]; cbn [negb] in H |- *.
  all: destruct Hpre as [-> | ->].
  all: first [ destruct H as [->|[cause ->]] | subst tr ].
  all: cbn; intuition (try discriminate; try congruence).
Qed.

Lemma append_cancel_l (a x y : string) : a ++ x = a ++ y -> x = y.
Proof. induction a as [|c a IH]; cbn; [auto|]. intros [= H]. auto. Qed.





(** X10. The commands [enable] and [disable] of the sdk group abort
    before anything is done when the confirmation is refused. An
    [enable] that returns has printed its announcement first and the
    note about the disk space last, the staging file is gone and the
    directive is in the fragment. [disable] prints its announcement
    before anything else, however the run ends. *)
Theorem cli_enable_messages :
  (forall w, Cli.enable false w = (Raise Cli.ABORTED, w))
  /\ (forall w, Cli.disable false w = (Raise Cli.ABORTED, w))
  /\ (forall w w',
         Cli.enable true w = (Ret tt, w') ->
         (exists tr,
             new_events w w'
             = (EvEcho Cli.MSG_ENABLING :: tr ++ [EvEcho Cli.MSG_NOTE])%list)
         /\ staging w' = None
         /\ located ENV_VARIABLE_SX_SNIFFER (fragment w') <> "")
  /\ (forall w r w',
         Cli.disable true w = (r, w') ->
         exists tr, new_events w w' = EvEcho Cli.MSG_DISABLING :: tr).
Proof.
  split; [reflexivity|]. split; [reflexivity|]. split.
  - intros w w'.
    unfold Cli.enable, Cli._abort_if_false, bind, ret, echo, effect.
    cbn [negb].
    destruct (sdk_sniffer_enable (emit (EvEcho Cli.MSG_ENABLING) w))
      as [[[]|e] w1] eqn:Hrun; [|discriminate].
    intros [= <-].
    apply enable_inv in Hrun as (_ & _ & tr & Htr & Hrem & Hstg & _).
    split; [|split].
    + exists (makedirs_events (emit (EvEcho Cli.MSG_ENABLING) w) ++ tr)%list.
      apply new_events_eq. cbn [trace emit] in *. rewrite Htr.
      rewrite <- !app_assoc. reflexivity.
    + exact Hstg.
    + unfold fragment at 1. cbn [remote emit]. rewrite Hrem.
      apply enabled_after.
  - intros w r w'.
    unfold Cli.disable, Cli._abort_if_false, bind, ret, echo, effect.
    cbn [negb]. intros Hrun.
    apply disable_inv in Hrun as (_ & _ & tr & Htr & _).
    exists tr. apply new_events_eq. cbn [trace emit app] in *.
    now rewrite Htr, <- app_assoc.
Qed.

(** ** Facts about module host management mode *)

Lemma has_suffix_app (x b : string) : has_suffix (x ++ b) b = true.
Proof.
  induction x as [|c x IH]; cbn.
  - destruct b; cbn; [reflexivity|].
    now rewrite Ascii.eqb_refl, String.eqb_refl.
  - rewrite IH. apply orb_true_r.
Qed.

Lemma path_join_suffix (a b : string) : has_suffix (Im.path_join a b) b = true.
Proof.
  unfold Im.path_join. destruct (startswith b "/").
  - apply (has_suffix_app "" b).
  - destruct ((a =? "") || Im.ends_with_slash a).
    + apply has_suffix_app.
    + rewrite <- append_assoc. apply has_suffix_app.
Qed.

Lemma path_join_neq_suffix (a b p : string) :
  has_suffix p b = false -> Im.path_join a b <> p.
Proof. intros H <-. now rewrite path_join_suffix in H. Qed.

Lemma path_join_inj (a b1 b2 : string) :
  startswith b1 "/" = false -> startswith b2 "/" = false ->
  Im.path_join a b1 = Im.path_join a b2 -> b1 = b2.
Proof.
  unfold Im.path_join. intros -> ->.
  destruct ((a =? "") || Im.ends_with_slash a); intros H.
  - now apply append_cancel_l in H.
  - now do 2 apply append_cancel_l in H.
Qed.

Lemma write_file_same (p c : string) (f : Im.files) :
  Im.write_file p c f p = Some c.
Proof. unfold Im.write_file. now rewrite String.eqb_refl. Qed.

Lemma write_file_other (p c : string) (f : Im.files) (q : string) :
  q <> p -> Im.write_file p c f q = f q.
Proof.
  intros H. unfold Im.write_file.
  now rewrite (proj2 (String.eqb_neq _ _) H).
Qed.

Lemma remove_file_same (p : string) (f : Im.files) :
  Im.remove_file p f p = None.
Proof. unfold Im.remove_file. now rewrite String.eqb_refl. Qed.

Lemma remove_file_other (p : string) (f : Im.files) (q : string) :
  q <> p -> Im.remove_file p f q = f q.
Proof.
  intros H. unfold Im.remove_file.
  now rewrite (proj2 (String.eqb_neq _ _) H).
Qed.

Lemma hwsku_paths_distinct (d : string) :
  Im.path_join d "sai.profile" <> Im.path_join d "pmon_daemon_control.json"
  /\ Im.path_join d "sai.profile" <> Im.path_join d "media_settings.json"
  /\ Im.path_join d "sai.profile" <> Im.path_join d "optics_si_settings.json"
  /\ Im.path_join d "pmon_daemon_control.json"
     <> Im.path_join d "media_settings.json"
  /\ Im.path_join d "pmon_daemon_control.json"
     <> Im.path_join d "optics_si_settings.json"
  /\ Im.path_join d "media_settings.json"
     <> Im.path_join d "optics_si_settings.json".
Proof.
  repeat match goal with |- _ /\ _ => split end;
    intros H; apply path_join_inj in H; try reflexivity; discriminate.
Qed.

Lemma im_bind_inv {A B : Type} (m : Im.M A) (k : A -> Im.M B)
  (h : Im.Host) r h' :
  Im.bind m k h = (r, h') ->
  (exists a h1, m h = (Ret a, h1) /\ k a h1 = (r, h'))
  \/ (exists e, m h = (Raise e, h') /\ r = Raise e).
Proof.
  unfold Im.bind. destruct (m h) as [[a|e] h1]; intros H.
  - left. now exists a, h1.
  - right. injection H as <- <-. now exists e.
Qed.

Lemma im_ret_inv {A : Type} (a : A) (h : Im.Host) r h' :
  Im.ret a h = (r, h') -> r = Ret a /\ h' = h.
Proof. now intros [= <- <-]. Qed.

Lemma im_raise_inv {A : Type} (e : exn) (h : Im.Host) (r : result A) h' :
  Im.raise e h = (r, h') -> r = Raise e /\ h' = h.
Proof. now intros [= <- <-]. Qed.

Lemma im_echo_inv (msg : string) (h : Im.Host) r h' :
  Im.echo msg h = (r, h') -> r = Ret tt /\ Im.fs h' = Im.fs h.
Proof. now intros [= <- <-]. Qed.

Lemma im_append_file_inv (p s : string) (h : Im.Host) r h' :
  Im.append_file p s h = (r, h') ->
  r = Ret tt
  /\ Im.fs h'
     = Im.write_file p (content_or_empty (Im.fs h p) ++ s) (Im.fs h).
Proof. now intros [= <- <-]. Qed.

Lemma im_open_truncate_inv (p : string) (h : Im.Host) r h' :
  Im.open_truncate p h = (r, h') ->
  r = Ret tt /\ Im.fs h' = Im.write_file p "" (Im.fs h).
Proof. now intros [= <- <-]. Qed.

Lemma im_write_all_inv (p s : string) (h : Im.Host) r h' :
  Im.write_all p s h = (r, h') ->
  r = Ret tt /\ Im.fs h' = Im.write_file p s (Im.fs h).
Proof. now intros [= <- <-]. Qed.

Lemma im_read_file_inv (p : string) (h : Im.Host) r h' :
  Im.read_file p h = (r, h') ->
  h' = h
  /\ ((exists c, r = Ret c /\ Im.fs h p = Some c)
      \/ (r = Raise (OSError "No such file or directory")
          /\ Im.fs h p = None)).
Proof.
  unfold Im.read_file. destruct (Im.fs h p) as [c|]; intros [= <- <-];
    (split; [reflexivity|]); [left|right]; eauto.
Qed.

Lemma im_read_text_inv (c : string) (h : Im.Host) r h' :
  Im.read_text c h = (r, h') ->
  h' = h
  /\ ((valid_utf8 c = true /\ r = Ret (universal_newlines c))
      \/ (valid_utf8 c = false /\ r = Raise UNICODE_DECODE_ERROR)).
Proof.
  unfold Im.read_text, decode. destruct (valid_utf8 c); intros [= <- <-];
    (split; [reflexivity|]); [left|right]; split; reflexivity.
Qed.

Lemma im_existing_or_inv (src fallback : string) (h : Im.Host) r h' :
  Im.existing_or src fallback h = (r, h') ->
  h' = h
  /\ r = Ret (match Im.fs h src with Some _ => src | None => fallback end).
Proof.
  unfold Im.existing_or. destruct (Im.fs h src); now intros [= <- <-].
Qed.

Lemma im_run_cp_inv (src dst : string) (h : Im.Host) r h' :
  Im.run_command ["cp"; src; dst] h = (r, h') ->
  (exists c, r = Ret tt /\ Im.fs h src = Some c
             /\ Im.fs h' = Im.write_file dst c (Im.fs h))
  \/ (exists e, r = Raise e /\ Im.fs h' = Im.fs h).
Proof.
  unfold Im.run_command, Im.command_effect. cbn.
  destruct (hd CmdOk (Im.outcomes h)).
  - destruct (src =? dst); [intros [= <- <-]; right; eauto|].
    destruct (Im.fs h src) as [c|]; intros [= <- <-]; [left|right]; eauto.
  - intros [= <- <-]. right; eauto.
Qed.

Lemma im_run_rm_inv (p : string) (h : Im.Host) r h' :
  Im.run_command ["rm"; "-f"; p] h = (r, h') ->
  (r = Ret tt /\ Im.fs h' = Im.remove_file p (Im.fs h))
  \/ (exists e, r = Raise e /\ Im.fs h' = Im.fs h).
Proof.
  unfold Im.run_command, Im.command_effect. cbn.
  destruct (hd CmdOk (Im.outcomes h)); intros [= <- <-]; [left|right]; eauto.
Qed.

Lemma im_json_setitem_inv (content : Im.json) (k : string) (v : Im.json)
  (h : Im.Host) r h' :
  Im.json_setitem content k v h = (r, h') ->
  h' = h
  /\ ((exists items, content = Im.JObject items
                     /\ r = Ret (Im.JObject (Im.setitem items k v)))
      \/ ((forall items, content <> Im.JObject items)
          /\ r = Raise (FatalError "TypeError"))).
Proof.
  destruct content; cbn; intros [= <- <-]; (split; [reflexivity|]);
    eauto; right; (split; [discriminate | reflexivity]).
Qed.

Ltac im_invert :=
  repeat
    (match goal with
     | H : Im.bind _ _ _ = _ |- _ =>
         apply im_bind_inv in H;
         destruct H as [(? & ? & ? & ?) | (? & ? & ?)]
     | H : Im.ret _ _ = _ |- _ => apply im_ret_inv in H; destruct H
     | H : Im.raise _ _ = _ |- _ => apply im_raise_inv in H; destruct H
     | H : Im.echo _ _ = _ |- _ => apply im_echo_inv in H; destruct H
     | H : Im.append_file _ _ _ = _ |- _ =>
         apply im_append_file_inv in H; destruct H
     | H : Im.open_truncate _ _ = _ |- _ =>
         apply im_open_truncate_inv in H; destruct H
     | H : Im.write_all _ _ _ = _ |- _ =>
         apply im_write_all_inv in H; destruct H
     | H : Im.read_file _ _ = _ |- _ =>
         apply im_read_file_inv in H;
         destruct H as [? [(? & ? & ?) | (? & ?)]]
     | H : Im.read_text _ _ = _ |- _ =>
         apply im_read_text_inv in H;
         destruct H as [? [(? & ?) | (? & ?)]]
     | H : Im.existing_or _ _ _ = _ |- _ =>
         apply im_existing_or_inv in H; destruct H
     | H : Im.run_command ["cp"; _; _] _ = _ |- _ =>
         apply im_run_cp_inv in H;
         destruct H as [(? & ? & ? & ?) | (? & ? & ?)]
     | H : Im.run_command ["rm"; _; _] _ = _ |- _ =>
         apply im_run_rm_inv in H; destruct H as [(? & ?) | (? & ? & ?)]
     | H : Im.json_setitem _ _ _ _ = _ |- _ =>
         apply im_json_setitem_inv in H;
         destruct H as [? [(? & ? & ?) | (? & ?)]]
     | H : match ?x with Some _ => _ | None => _ end _ = _ |- _ =>
         destruct x eqn:?
     | H : Ret _ = Raise _ |- _ => discriminate H
     | H : Raise _ = Ret _ |- _ => discriminate H
     | H : Ret _ = Ret _ |- _ => injection H as H
     | H : Raise _ = Raise _ |- _ => injection H as H
     end; subst).

Ltac fs_simpl :=
  repeat first
    [ rewrite write_file_same
    | rewrite write_file_other by (first [assumption | congruence | auto])
    | rewrite remove_file_same
    | rewrite remove_file_other by (first [assumption | congruence | auto]) ].

(** X11. [im enabled], when the mode is not on yet, appends the mode
    line to sai.profile, creating the file if need be, and nothing it
    does later touches the file: the line is there however the command
    ends, also when a later step fails. *)
Theorem im_enabled_appends_mode_line_first
  (json_load : string -> option Im.json) (json_dump : Im.json -> string)
  (h : Im.Host) r h' :
  Im.module_host_management_mode h = false ->
  Im.enabled json_load json_dump h = (r, h') ->
  Im.fs h' (Im.path_join (Im.hwsku_dir h) "sai.profile")
  = Some (content_or_empty
            (Im.fs h (Im.path_join (Im.hwsku_dir h) "sai.profile"))
            ++ Im.MODE_LINE).
Proof.
  intros Hmode Hrun.
  destruct (hwsku_paths_distinct (Im.hwsku_dir h)) as (D1 & D2 & D3 & _).
  unfold Im.enabled in Hrun. rewrite Hmode in Hrun.
  im_invert.
  all: repeat match goal with H : Im.fs _ = _ |- _ => rewrite H end.
  all: fs_simpl; reflexivity.
Qed.

Lemma find_from_lower (s sub : string) (i : Z) :
  find_from s sub i = (-1)%Z \/ (i <= find_from s sub i)%Z.
Proof.
  revert i; induction s as [|c s IH]; intros i; cbn.
  - destruct (startswith "" sub); [right; lia | now left].
  - destruct (startswith (String c s) sub); [right; lia|].
    destruct (IH (i + 1)%Z); [now left | right; lia].
Qed.

Lemma find_eqb_mentions (l k : string) :
  (find l k =? -1)%Z = negb (mentions l k).
Proof.
  unfold mentions, find. destruct (find_from_lower l k 0) as [H|H].
  - now rewrite H.
  - rewrite (proj2 (Z.leb_le _ _) H). cbn. apply Z.eqb_neq. lia.
Qed.

Lemma new_lines_eq (ls : list string) :
  Im.new_lines ls = filter (fun l => negb (mentions l Im.MODE_KEY)) ls.
Proof.
  unfold Im.new_lines. apply filter_ext. intros l. apply find_eqb_mentions.
Qed.

Ltac fs_known Hc :=
  repeat match goal with
    | H : Im.fs _ _ = Some _ |- _ =>
        rewrite Hc in H; first [discriminate H | injection H as <-]
    | H : Im.fs _ _ = None |- _ => rewrite Hc in H; discriminate H
    end.

(** X12. [im disabled], when the mode is on: without a sai.profile it
    fails and leaves the files as they are, and so it does, with a
    [UnicodeDecodeError], when the profile does not decode; otherwise
    the profile is rewritten, however the run ends, with the lines of
    its text that do not contain the key, in their order and with LF
    at the end of every line, and when the command returns the control
    file and the two settings files of the SKU are gone. *)
Theorem im_disabled_removes_mode_lines (h : Im.Host) r h' :
  Im.module_host_management_mode h = true ->
  Im.disabled h = (r, h') ->
  match Im.fs h (Im.path_join (Im.hwsku_dir h) "sai.profile") with
  | None => r = Raise (OSError "No such file or directory")
            /\ Im.fs h' = Im.fs h
  | Some c =>
      if valid_utf8 c then
        exists c',
          Im.fs h' (Im.path_join (Im.hwsku_dir h) "sai.profile") = Some c'
          /\ c' = join (filter (fun l => negb (mentions l Im.MODE_KEY))
                               (text_lines c))
          /\ text_lines c'
             = filter (fun l => negb (mentions l Im.MODE_KEY)) (text_lines c)
          /\ no_cr c' = true
          /\ valid_utf8 c' = true
          /\ (forall l, In l (text_lines c') -> ~ occurs_in Im.MODE_KEY l)
          /\ (r = Ret None ->
              Im.fs h' (Im.path_join (Im.hwsku_dir h)
                          "pmon_daemon_control.json") = None
              /\ Im.fs h' (Im.path_join (Im.hwsku_dir h) "media_settings.json")
                 = None
              /\ Im.fs h' (Im.path_join (Im.hwsku_dir h)
                             "optics_si_settings.json") = None)
      else r = Raise UNICODE_DECODE_ERROR /\ h' = h
  end.
Proof.
  intros Hmode Hrun.
  destruct (hwsku_paths_distinct (Im.hwsku_dir h))
    as (D1 & D2 & D3 & D4 & D5 & D6).
  unfold Im.disabled in Hrun. rewrite Hmode in Hrun. cbn [negb] in Hrun.
  destruct (Im.fs h (Im.path_join (Im.hwsku_dir h) "sai.profile"))
    as [c|] eqn:Hc.
  - destruct (valid_utf8 c) eqn:Hv.
    + set (p := fun l => negb (mentions l Im.MODE_KEY)).
      assert (Hn : join (Im.new_lines (lines (universal_newlines c)))
                   = join (filter p (text_lines c)))
        by (now rewrite new_lines_eq).
      assert (Hl : text_lines (join (filter p (text_lines c)))
                   = filter p (text_lines c))
        by apply text_lines_join_filter.
      exists (join (filter p (text_lines c))).
      im_invert; fs_known Hc; try congruence.
      all: repeat match goal with H : Im.fs _ = _ |- _ => rewrite H end.
      all: fs_simpl.
      all: split; [now rewrite Hn|].
      all: split; [reflexivity|].
      all: split; [exact Hl|].
      all: split;
        [apply no_cr_join, Forall_filter_keep, no_cr_lines,
           universal_newlines_no_cr|].
      all: split; [now apply valid_join_filter|].
      all: split;
        [ intros l Hin; rewrite Hl in Hin; apply filter_In in Hin as [_ Hin];
          apply negb_true_iff in Hin; now apply mentions_false_iff
        | intros Hr; try discriminate Hr ].
      all: split; [reflexivity | split; reflexivity].
    + im_invert; fs_known Hc; try congruence. split; reflexivity.
  - im_invert; fs_known Hc. split; reflexivity.
Qed.


Lemma kd_bind {A B : Type} (m : Im.M A) (k : A -> Im.M B) :
  keeps_dirs m -> (forall a, keeps_dirs (k a)) -> keeps_dirs (Im.bind m k).
Proof.
  intros Hm Hk h r h' H. apply im_bind_inv in H
    as [(a & h1 & H1 & H2) | (e & H1 & _)].
  - apply Hm in H1 as (A1 & A2 & A3). apply Hk in H2 as (B1 & B2 & B3).
    repeat split; congruence.
  - now apply Hm in H1.
Qed.

Lemma kd_ret {A : Type} (a : A) : keeps_dirs (Im.ret a).
Proof. intros h r h' [= <- <-]. now repeat split. Qed.

Lemma kd_raise {A : Type} (e : exn) : keeps_dirs (@Im.raise A e).
Proof. intros h r h' [= <- <-]. now repeat split. Qed.

Lemma kd_echo (msg : string) : keeps_dirs (Im.echo msg).
Proof. intros h r h' [= <- <-]. now repeat split. Qed.

Lemma kd_append_file (p s : string) : keeps_dirs (Im.append_file p s).
Proof. intros h r h' [= <- <-]. now repeat split. Qed.

Lemma kd_open_truncate (p : string) : keeps_dirs (Im.open_truncate p).
Proof. intros h r h' [= <- <-]. now repeat split. Qed.

Lemma kd_write_all (p s : string) : keeps_dirs (Im.write_all p s).
Proof. intros h r h' [= <- <-]. now repeat split. Qed.

Lemma kd_read_file (p : string) : keeps_dirs (Im.read_file p).
Proof.
  intros h r h'. unfold Im.read_file.
  destruct (Im.fs h p); intros [= <- <-]; now repeat split.
Qed.

Lemma kd_read_text (c : string) : keeps_dirs (Im.read_text c).
Proof.
  intros h r h' H. apply im_read_text_inv in H as [-> _]. now repeat split.
Qed.

Lemma kd_existing_or (a b : string) : keeps_dirs (Im.existing_or a b).
Proof.
  intros h r h'. unfold Im.existing_or.
  destruct (Im.fs h a); intros [= <- <-]; now repeat split.
Qed.

Lemma kd_run_command (argv : list string) : keeps_dirs (Im.run_command argv).
Proof.
  intros h r h'. unfold Im.run_command.
  destruct (hd CmdOk (Im.outcomes h)); [|intros [= <- <-]; now repeat split].
  destruct (Im.command_effect argv (Im.tick h)) as [h2|] eqn:E;
    intros [= <- <-]; [|now repeat split].
  unfold Im.command_effect in E.
  destruct argv as [|a0 [|a1 [|a2 [|a3 argv]]]]; try discriminate.
  destruct (a0 =? "cp").
  - destruct (a1 =? a2); [discriminate|].
    destruct (Im.fs (Im.tick h) a1); [|discriminate].
    injection E as <-. now repeat split.
  - destruct ((a0 =? "rm") && (a1 =? "-f")); [|discriminate].
    injection E as <-. now repeat split.
Qed.

Lemma kd_json_setitem (c : Im.json) (k : string) (v : Im.json) :
  keeps_dirs (Im.json_setitem c k v).
Proof. destruct c; cbn; first [apply kd_ret | apply kd_raise]. Qed.

Ltac kd_solve :=
  repeat first
    [ apply kd_bind; [|intros ?]
    | apply kd_ret | apply kd_raise | apply kd_echo | apply kd_append_file
    | apply kd_open_truncate | apply kd_write_all | apply kd_read_file
    | apply kd_read_text
    | apply kd_existing_or | apply kd_run_command | apply kd_json_setitem
    | match goal with
      | |- keeps_dirs (match ?x with _ => _ end) => destruct x
      end ].

Lemma im_enabled_keeps_dirs
  (json_load : string -> option Im.json) (json_dump : Im.json -> string) :
  keeps_dirs (Im.enabled json_load json_dump).
Proof.
  intros h r h'. unfold Im.enabled. intros H.
  destruct (Im.module_host_management_mode h) eqn:E; cbn [negb] in H;
    match type of H with
    | ?m h = _ => assert (Hk : keeps_dirs m) by kd_solve
    end; destruct (Hk _ _ _ H) as (A1 & A2 & A3); repeat split; congruence.
Qed.

Lemma im_disabled_keeps_dirs : keeps_dirs Im.disabled.
Proof.
  intros h r h'. unfold Im.disabled. intros H.
  destruct (Im.module_host_management_mode h) eqn:E; cbn [negb] in H;
    match type of H with
    | ?m h = _ => assert (Hk : keeps_dirs m) by kd_solve
    end; destruct (Hk _ _ _ H) as (A1 & A2 & A3); repeat split; congruence.
Qed.

Lemma last_char_app (x b : string) :
  b <> "" -> last_char (x ++ b) = last_char b.
Proof.
  intros Hb. induction x as [|c x IH]; [reflexivity|].
  cbn [append last_char]. destruct (x ++ b) eqn:E; [|exact IH].
  destruct x; cbn in E; [contradiction | discriminate].
Qed.

Lemma last_char_path_join (a b : string) :
  b <> "" -> last_char (Im.path_join a b) = last_char b.
Proof.
  intros Hb. unfold Im.path_join. destruct (startswith b "/"); [reflexivity|].
  destruct ((a =? "") || Im.ends_with_slash a).
  - now apply last_char_app.
  - rewrite <- append_assoc. now apply last_char_app.
Qed.

Lemma filter_all {A : Type} (p : A -> bool) (ls : list A) :
  Forall (fun l => p l = true) ls -> filter p ls = ls.
Proof.
  induction 1 as [|a ls Ha _ IH]; cbn; [reflexivity|]. now rewrite Ha, IH.
Qed.

Lemma mode_line_text (c : string) :
  universal_newlines (c ++ Im.MODE_LINE)
  = universal_newlines c ++ Im.MODE_LINE.
Proof.
  rewrite universal_newlines_app by reflexivity.
  now rewrite (universal_newlines_id Im.MODE_LINE).
Qed.

Lemma mode_line_valid (c : string) :
  valid_utf8 (c ++ Im.MODE_LINE) = valid_utf8 c.
Proof.
  unfold valid_utf8. rewrite utf8_run_app.
  destruct (utf8_run Start c) as [[]|]; reflexivity.
Qed.

Lemma mode_line_lines (c pre last : string) :
  universal_newlines c = pre ++ last ->
  terminated pre = true -> no_newline last = true ->
  text_lines (c ++ Im.MODE_LINE)
  = (lines pre ++ [(last ++ Im.MODE_LINE)%string])%list.
Proof.
  intros Hc Hpre Hlast. unfold text_lines. rewrite mode_line_text, Hc.
  rewrite append_assoc, (lines_app_terminated _ _ Hpre). f_equal.
  change Im.MODE_LINE with ("SAI_INDEPENDENT_MODULE_MODE=1" ++ String NL "").
  rewrite <- append_assoc. rewrite lines_complete; [reflexivity|].
  now rewrite no_newline_app, Hlast.
Qed.

Lemma mode_line_filtered (c pre last : string) :
  universal_newlines c = pre ++ last ->
  terminated pre = true -> no_newline last = true ->
  located Im.MODE_KEY c = "" ->
  join (Im.new_lines (lines (universal_newlines (c ++ Im.MODE_LINE)))) = pre.
Proof.
  intros Hc Hpre Hlast Hloc.
  change (lines (universal_newlines (c ++ Im.MODE_LINE)))
    with (text_lines (c ++ Im.MODE_LINE)).
  rewrite (mode_line_lines _ _ _ Hc Hpre Hlast), new_lines_eq, filter_app.
  apply located_none in Hloc. unfold text_lines in Hloc.
  rewrite Hc, (lines_app_terminated _ _ Hpre) in Hloc.
  apply Forall_app in Hloc as [Hloc _].
  rewrite filter_all.
  - cbn [filter].
    assert (Hm : mentions (last ++ Im.MODE_LINE) Im.MODE_KEY = true).
    { apply mentions_iff. exists last, ("=1" ++ String NL ""). reflexivity. }
    rewrite Hm. cbn [negb]. now rewrite app_nil_r, join_lines.
  - eapply Forall_impl; [|exact Hloc]. cbn. intros l ->. reflexivity.
Qed.

(** X13. [im enabled] followed by [im disabled], on a profile whose
    text, [pre ++ last] with [last] its line without a line end if it
    has one, does not mention the key.  [enabled] appends the mode line
    to the bytes of the profile.  When the profile decodes, [disabled]
    leaves [pre]: the text of a profile that ends in a line end is
    given back ([last] empty; the profile itself when it had no
    carriage return), and a last line without a line end is joined
    with the mode line by [enabled] and removed with it by [disabled].
    When the profile does not decode, [disabled] raises
    [UnicodeDecodeError] and the mode line stays. *)
Theorem im_enabled_then_disabled
  (json_load : string -> option Im.json) (json_dump : Im.json -> string)
  (h : Im.Host) r1 h1 r2 h2 (c pre last : string) :
  Im.module_host_management_mode h = false ->
  Im.fs h (Im.path_join (Im.hwsku_dir h) "sai.profile") = Some c ->
  universal_newlines c = pre ++ last ->
  terminated pre = true ->
  no_newline last = true ->
  located Im.MODE_KEY c = "" ->
  Im.enabled json_load json_dump h = (r1, h1) ->
  Im.disabled (Im.set_mode true h1) = (r2, h2) ->
  Im.fs h1 (Im.path_join (Im.hwsku_dir h) "sai.profile")
  = Some (c ++ Im.MODE_LINE)
  /\ (if valid_utf8 c
      then Im.fs h2 (Im.path_join (Im.hwsku_dir h) "sai.profile") = Some pre
           /\ (last = "" -> no_cr c = true -> pre = c)
      else r2 = Raise UNICODE_DECODE_ERROR
           /\ Im.fs h2 (Im.path_join (Im.hwsku_dir h) "sai.profile")
              = Some (c ++ Im.MODE_LINE)).
Proof.
  intros Hmode Hc Hu Hpre Hlast Hloc H1 H2.
  destruct (hwsku_paths_distinct (Im.hwsku_dir h))
    as (D1 & D2 & D3 & D4 & D5 & D6).
  destruct (im_enabled_keeps_dirs _ _ _ _ _ H1) as (Hd & _ & _).
  assert (Hfs1 : Im.fs h1 (Im.path_join (Im.hwsku_dir h) "sai.profile")
                 = Some (c ++ Im.MODE_LINE)).
  { clear H2. unfold Im.enabled in H1. rewrite Hmode in H1.
    im_invert.
    all: repeat match goal with H : Im.fs _ = _ |- _ => rewrite H end.
    all: fs_simpl; rewrite Hc; reflexivity. }
  split; [exact Hfs1|].
  unfold Im.disabled in H2. cbn [Im.module_host_management_mode Im.set_mode
    Im.hwsku_dir negb] in H2. rewrite Hd in H2.
  assert (Hfs1' : Im.fs (Im.set_mode true h1)
                    (Im.path_join (Im.hwsku_dir h) "sai.profile")
                  = Some (c ++ Im.MODE_LINE)) by exact Hfs1.
  clear H1 Hfs1.
  destruct (valid_utf8 c) eqn:Hv.
  - split.
    + im_invert; fs_known Hfs1';
        try (rewrite mode_line_valid in *; congruence).
      all: repeat match goal with H : Im.fs _ = _ |- _ => rewrite H end.
      all: fs_simpl; f_equal;
        exact (mode_line_filtered _ _ _ Hu Hpre Hlast Hloc).
    + intros -> Hcr. rewrite append_nil_r in Hu.
      now rewrite <- Hu, universal_newlines_id.
  - im_invert; fs_known Hfs1';
      try (rewrite mode_line_valid in *; congruence).
    split; [reflexivity | exact Hfs1'].
Qed.

(** X14. [im enabled] and [im disabled] change no file but sai.profile,
    pmon_daemon_control.json, media_settings.json and
    optics_si_settings.json of the hardware SKU, however they end. *)
Theorem im_commands_touch_only_hwsku_files
  (json_load : string -> option Im.json) (json_dump : Im.json -> string)
  (h : Im.Host) r h' :
  Im.enabled json_load json_dump h = (r, h') \/ Im.disabled h = (r, h') ->
  (forall p,
      p <> Im.path_join (Im.hwsku_dir h) "sai.profile" ->
      p <> Im.path_join (Im.hwsku_dir h) "pmon_daemon_control.json" ->
      p <> Im.path_join (Im.hwsku_dir h) "media_settings.json" ->
      p <> Im.path_join (Im.hwsku_dir h) "optics_si_settings.json" ->
      Im.fs h' p = Im.fs h p)
  /\ Im.hwsku_dir h' = Im.hwsku_dir h
  /\ Im.platform_dir h' = Im.platform_dir h.
Proof.
  intros Hrun. split.
  - intros p P1 P2 P3 P4. destruct Hrun as [Hrun|Hrun].
    + unfold Im.enabled in Hrun.
      destruct (Im.module_host_management_mode h); im_invert.
      all: repeat match goal with H : Im.fs _ = _ |- _ => rewrite H end.
      all: fs_simpl; reflexivity.
    + unfold Im.disabled in Hrun.
      destruct (Im.module_host_management_mode h); cbn [negb] in Hrun;
        im_invert.
      all: repeat match goal with H : Im.fs _ = _ |- _ => rewrite H end.
      all: fs_simpl; reflexivity.
  - destruct Hrun as [Hrun|Hrun].
    + now apply im_enabled_keeps_dirs in Hrun.
    + now apply im_disabled_keeps_dirs in Hrun.
Qed.


Lemma getitem_setitem_same (items : list (string * Im.json)) (k : string)
  (v : Im.json) :
  Im.getitem (Im.setitem items k v) k = Some v.
Proof.
  induction items as [|[k' v'] items IH]; cbn.
  - now rewrite String.eqb_refl.
  - destruct (String.eqb_spec k' k) as [->|Hne]; cbn.
    + now rewrite String.eqb_refl.
    + now rewrite (proj2 (String.eqb_neq _ _) Hne).
Qed.

Lemma getitem_setitem_other (items : list (string * Im.json)) (k k0 : string)
  (v : Im.json) :
  k0 <> k -> Im.getitem (Im.setitem items k v) k0 = Im.getitem items k0.
Proof.
  intros Hk. induction items as [|[k' v'] items IH]; cbn.
  - now rewrite (proj2 (String.eqb_neq _ _) (not_eq_sym Hk)).
  - destruct (String.eqb_spec k' k) as [->|Hne]; cbn.
    + now rewrite (proj2 (String.eqb_neq _ _) (not_eq_sym Hk)).
    + destruct (k' =? k0); [reflexivity | exact IH].
Qed.

Lemma setitem_keys (items : list (string * Im.json)) (k : string)
  (v : Im.json) :
  map fst (Im.setitem items k v)
  = if existsb (String.eqb k) (map fst items) then map fst items
    else (map fst items ++ [k])%list.
Proof.
  induction items as [|[k' v'] items IH]; cbn; [reflexivity|].
  rewrite (String.eqb_sym k k').
  destruct (String.eqb_spec k' k) as [->|Hne]; cbn; [reflexivity|].
  rewrite IH. now destruct (existsb (String.eqb k) (map fst items)).
Qed.

Lemma source_paths_apart (d : string) :
  (forall src b,
      has_suffix src b = false -> src <> Im.path_join d b).
Proof. intros src b H E. symmetry in E. revert E. now apply path_join_neq_suffix. Qed.

(** X15. When [im enabled] returns, media_settings.json and
    optics_si_settings.json of the hardware SKU are copies of the O8C48
    file where that exists and of the O8V48 file otherwise, the choice
    being made for each of the two files on its own. *)
Theorem im_enabled_copies_first_existing
  (json_load : string -> option Im.json) (json_dump : Im.json -> string)
  (h : Im.Host) h' :
  Im.module_host_management_mode h = false ->
  Im.enabled json_load json_dump h = (Ret None, h') ->
  (exists c,
      Im.fs h (match Im.fs h Im.MEDIA_O8C48 with
               | Some _ => Im.MEDIA_O8C48
               | None => Im.MEDIA_O8V48
               end) = Some c
      /\ Im.fs h' (Im.path_join (Im.hwsku_dir h) "media_settings.json")
         = Some c)
  /\ (exists c,
         Im.fs h (match Im.fs h Im.OPTICS_O8C48 with
                  | Some _ => Im.OPTICS_O8C48
                  | None => Im.OPTICS_O8V48
                  end) = Some c
         /\ Im.fs h' (Im.path_join (Im.hwsku_dir h) "optics_si_settings.json")
            = Some c).
Proof.
  intros Hmode Hrun.
  destruct (hwsku_paths_distinct (Im.hwsku_dir h))
    as (D1 & D2 & D3 & D4 & D5 & D6).
  pose proof (source_paths_apart (Im.hwsku_dir h)) as S.
  assert (M1 := S Im.MEDIA_O8C48 "sai.profile" eq_refl).
  assert (M2 := S Im.MEDIA_O8C48 "pmon_daemon_control.json" eq_refl).
  assert (M3 := S Im.MEDIA_O8V48 "sai.profile" eq_refl).
  assert (M4 := S Im.MEDIA_O8V48 "pmon_daemon_control.json" eq_refl).
  assert (O1 := S Im.OPTICS_O8C48 "sai.profile" eq_refl).
  assert (O2 := S Im.OPTICS_O8C48 "pmon_daemon_control.json" eq_refl).
  assert (O3 := S Im.OPTICS_O8C48 "media_settings.json" eq_refl).
  assert (O4 := S Im.OPTICS_O8V48 "sai.profile" eq_refl).
  assert (O5 := S Im.OPTICS_O8V48 "pmon_daemon_control.json" eq_refl).
  assert (O6 := S Im.OPTICS_O8V48 "media_settings.json" eq_refl).
  clear S.
  unfold Im.enabled in Hrun. rewrite Hmode in Hrun.
  im_invert.
  repeat match goal with
    | H : Im.fs ?x = _ |- _ => is_var x; rewrite H in *; clear H
    end.
  repeat rewrite (write_file_other _ _ _ Im.MEDIA_O8C48) in * by assumption.
  repeat rewrite (write_file_other _ _ _ Im.OPTICS_O8C48) in * by assumption.
  destruct (Im.fs h Im.MEDIA_O8C48) eqn:EM;
    destruct (Im.fs h Im.OPTICS_O8C48) eqn:EO.
  all: repeat rewrite (write_file_other _ _ _ Im.MEDIA_O8C48) in * by assumption.
  all: repeat rewrite (write_file_other _ _ _ Im.OPTICS_O8C48) in * by assumption.
  all: repeat rewrite (write_file_other _ _ _ Im.MEDIA_O8V48) in * by assumption.
  all: repeat rewrite (write_file_other _ _ _ Im.OPTICS_O8V48) in * by assumption.
  all: split; eexists; (split; [eassumption|]); fs_simpl; reflexivity.
Qed.

Lemma platform_control_not_profile (a d : string) :
  Im.path_join a "pmon_daemon_control.json" <> Im.path_join d "sai.profile".
Proof.
  intros E. apply (f_equal last_char) in E.
  rewrite !last_char_path_join in E by discriminate. discriminate.
Qed.

(** X16. When [im enabled] returns, the control file of the hardware SKU
    holds the object read from the control file of the platform with
    skip_xcvrd_cmis_mgr set to false and enable_xcvrd_sff_mgr set to
    true, every other key as it was. When the platform's file holds a
    JSON value that is not an object, the command fails with a TypeError
    and leaves the control file of the SKU empty. *)
Theorem im_enabled_writes_control_file
  (json_load : string -> option Im.json) (json_dump : Im.json -> string)
  (h : Im.Host) r h' :
  Im.module_host_management_mode h = false ->
  Im.enabled json_load json_dump h = (r, h') ->
  (r = Ret None ->
   exists text items items',
     Im.fs h (Im.path_join (Im.platform_dir h) "pmon_daemon_control.json")
     = Some text
     /\ json_load text = Some (Im.JObject items)
     /\ Im.fs h' (Im.path_join (Im.hwsku_dir h) "pmon_daemon_control.json")
        = Some (json_dump (Im.JObject items'))
     /\ Im.getitem items' "skip_xcvrd_cmis_mgr" = Some (Im.JBool false)
     /\ Im.getitem items' "enable_xcvrd_sff_mgr" = Some (Im.JBool true)
     /\ (forall k, k <> "skip_xcvrd_cmis_mgr" ->
                   k <> "enable_xcvrd_sff_mgr" ->
                   Im.getitem items' k = Im.getitem items k))
  /\ (forall text j,
         Im.fs h (Im.path_join (Im.platform_dir h) "pmon_daemon_control.json")
         = Some text ->
         json_load text = Some j ->
         (forall items, j <> Im.JObject items) ->
         r = Raise (FatalError "TypeError")
         /\ Im.fs h' (Im.path_join (Im.hwsku_dir h) "pmon_daemon_control.json")
            = Some "").
Proof.
  intros Hmode Hrun.
  destruct (hwsku_paths_distinct (Im.hwsku_dir h))
    as (D1 & D2 & D3 & D4 & D5 & D6).
  pose proof (platform_control_not_profile (Im.platform_dir h)
                (Im.hwsku_dir h)) as P.
  unfold Im.enabled in Hrun. rewrite Hmode in Hrun.
  split.
  - intros ->. im_invert.
    repeat match goal with
      | H : Im.fs ?x = _ |- _ => is_var x; rewrite H in *; clear H
      end.
    match goal with
    | H : Im.write_file _ _ _ _ = Some ?t,
      J : _ ?t = Some (Im.JObject ?it) |- _ =>
        rewrite write_file_other in H by assumption;
        exists t, it
    end.
    eexists. split; [eassumption|]. split; [eassumption|].
    split; [fs_simpl; reflexivity|].
    split; [|split].
    + rewrite getitem_setitem_other by discriminate.
      apply getitem_setitem_same.
    + apply getitem_setitem_same.
    + intros k K1 K2. now rewrite !getitem_setitem_other by assumption.
  - intros text j Ht Hj Hnot. im_invert.
    all: repeat match goal with
      | H : Im.fs ?x = _ |- _ => is_var x; rewrite H in *; clear H
      end.
    all: repeat match goal with
      | H : Im.write_file _ _ _ _ = _ |- _ =>
          rewrite write_file_other in H by assumption
      end.
    all: try congruence.
    all: repeat match goal with
      | H : Im.fs _ _ = Some _ |- _ =>
          rewrite Ht in H; injection H as <-
      end.
    all: try (rewrite Hj in *; discriminate).
    all: try match goal with
      | H : _ = Some ?x |- _ => is_var x; rewrite Hj in H; injection H as <-
      end.
    all: try (exfalso; eapply Hnot; reflexivity).
    all: split; [reflexivity | fs_simpl; reflexivity].
Qed.

(** ** Facts about the syslog show commands *)

Lemma sorted_insert_perm (x : string) (l : list string) :
  Permutation (sorted_insert x l) (x :: l).
Proof.
  induction l as [|y l IH]; cbn; [reflexivity|].
  destruct (x <=? y); [reflexivity|].
  rewrite IH. apply perm_swap.
Qed.

Lemma sample_sorted_perm (l : list string) : Permutation (sample_sorted l) l.
Proof.
  induction l as [|x l IH]; cbn; [reflexivity|].
  rewrite sorted_insert_perm. now constructor.
Qed.

Lemma get_In {V : Type} (d : Syslog.dict V) (k : string) (v : V) :
  Syslog.get d k = Some v -> In (k, v) d.
Proof.
  induction d as [|[k' v'] d IH]; cbn; [discriminate|].
  destruct (String.eqb_spec k' k) as [->|Hne].
  - intros [= ->]. now left.
  - intros H. right. auto.
Qed.

Lemma In_get {V : Type} (d : Syslog.dict V) (k : string) (v : V) :
  NoDup (Syslog.keys d) -> In (k, v) d -> Syslog.get d k = Some v.
Proof.
  induction d as [|[k' v'] d IH]; cbn; [contradiction|].
  intros Hnd. inversion Hnd as [|? ? Hnot Hnd']; subst.
  intros [[= -> ->]|Hin].
  - now rewrite String.eqb_refl.
  - destruct (String.eqb_spec k' k) as [->|Hne]; [|auto].
    exfalso. apply Hnot. change k with (fst (k, v)). now apply in_map.
Qed.

Lemma get_keys {V : Type} (d : Syslog.dict V) (k : string) :
  In k (Syslog.keys d) -> exists v, Syslog.get d k = Some v.
Proof.
  induction d as [|[k' v'] d IH]; cbn; [contradiction|].
  destruct (String.eqb_spec k' k) as [->|Hne]; [eauto|].
  intros [H|H]; [contradiction | auto].
Qed.

Lemma syslog_body_ok (table : Syslog.table) (ks : list string) :
  (forall k, In k ks -> In k (Syslog.keys table)) ->
  exists body,
    Syslog.syslog_body table ks = inr body
    /\ map (hd "") body = ks
    /\ Forall (fun row => length row = 4) body
    /\ (forall row, In row body ->
          exists e, Syslog.get table (hd "" row) = Some e
                    /\ row = [hd "" row;
                              Syslog.get_default e "source" "N/A";
                              Syslog.get_default e "port" "N/A";
                              Syslog.get_default e "vrf" "N/A"]).
Proof.
  induction ks as [|k ks IH]; intros Hin.
  - exists []. cbn. repeat split; auto. intros ? [].
  - destruct (get_keys table k (Hin k (or_introl eq_refl))) as [e He].
    destruct IH as (body & Hb & Hm & Hf & Hr);
      [intros; apply Hin; now right|].
    cbn [Syslog.syslog_body]. rewrite He, Hb. eexists. split; [reflexivity|].
    split; [cbn; now rewrite Hm|].
    split; [constructor; [reflexivity | assumption]|].
    intros row [<-|Hrow]; [|auto].
    exists e. cbn. split; [assumption | reflexivity].
Qed.

Lemma natsorted_singleton (natsorted : list string -> list string)
  (s : string) :
  (forall l, Permutation (natsorted l) l) -> natsorted [s] = [s].
Proof.
  intros Hp. apply Permutation_length_1_inv. symmetry. apply Hp.
Qed.

Lemma service_row_hd (cfgs : Syslog.table) (s : string) :
  hd "" (Syslog.service_row cfgs s) = s.
Proof. unfold Syslog.service_row. now destruct (Syslog.get cfgs s). Qed.

Lemma service_row_length (cfgs : Syslog.table) (s : string) :
  length (Syslog.service_row cfgs s) = 3.
Proof. unfold Syslog.service_row. now destruct (Syslog.get cfgs s). Qed.

Lemma map_hd_service_row (cfgs : Syslog.table) (l : list string) :
  map (hd "") (map (Syslog.service_row cfgs) l) = l.
Proof.
  induction l as [|s l IH]; cbn; [reflexivity|].
  now rewrite service_row_hd, IH.
Qed.

Lemma service_list_unnamed (features : Syslog.table) (o : option string) :
  o = None \/ o = Some "" ->
  Syslog.service_list features o = inr (Syslog.supported_services features).
Proof. intros [->| ->]; reflexivity. Qed.

Lemma In_supported_services (features : Syslog.table) (name : string) :
  In name (Syslog.supported_services features) <->
  exists cfg, In (name, cfg) features
              /\ Syslog.support_rate_limit cfg = true
              /\ Syslog.is_disabled (Syslog.get cfg "state") = false.
Proof.
  unfold Syslog.supported_services. rewrite in_map_iff. split.
  - intros ([n cfg] & <- & Hin). apply filter_In in Hin.
    destruct Hin as [Hin Hb]. cbn in Hb. apply andb_true_iff in Hb.
    destruct Hb as [Hs Hd]. apply negb_true_iff in Hd. eauto.
  - intros (cfg & Hin & Hs & Hd). exists (name, cfg).
    split; [reflexivity|]. apply filter_In. split; [assumption|].
    cbn. now rewrite Hs, Hd.
Qed.

Lemma service_list_named (features : Syslog.table) (name : string)
  (l : list string) :
  name <> "" ->
  Syslog.service_list features (Some name) = inr l ->
  l = [name]
  /\ exists cfg, Syslog.get features name = Some cfg
                 /\ Syslog.support_rate_limit cfg = true
                 /\ Syslog.is_disabled (Syslog.get cfg "state") = false.
Proof.
  intros Hne. destruct name as [|c rest]; [contradiction|].
  cbn [Syslog.service_list].
  destruct (Syslog.get features (String c rest)) as [cfg|]; [|discriminate].
  destruct (Syslog.is_disabled (Syslog.get cfg "state")) eqn:Hd;
    [discriminate|].
  destruct (Syslog.support_rate_limit cfg) eqn:Hs; [|discriminate].
  cbn. intros [= <-]. split; [reflexivity|]. eauto.
Qed.

(** X17. [syslog] without a subcommand prints one table and never fails
    on a missing key: the first column holds every server of the table
    once, in the order [natsorted] gives, every row is as wide as the
    header, and a field an entry does not have reads N/A. With a
    subcommand it prints nothing. *)
Theorem syslog_one_row_per_server
  (natsorted : list string -> list string)
  (tabulate : list (list string) -> list string -> string)
  (db : Syslog.ConfigDb) :
  (forall l, Permutation (natsorted l) l) ->
  (exists body,
     Syslog.syslog natsorted tabulate db None
     = Syslog.Echoed [tabulate body Syslog.SYSLOG_HEADER]
     /\ map (hd "") body = natsorted (Syslog.keys (db Syslog.SYSLOG_TABLE))
     /\ Permutation (map (hd "") body) (Syslog.keys (db Syslog.SYSLOG_TABLE))
     /\ Forall (fun row => length row = length Syslog.SYSLOG_HEADER) body
     /\ (forall row, In row body ->
           exists e,
             Syslog.get (db Syslog.SYSLOG_TABLE) (hd "" row) = Some e
             /\ row = [hd "" row;
                       Syslog.get_default e "source" "N/A";
                       Syslog.get_default e "port" "N/A";
                       Syslog.get_default e "vrf" "N/A"]))
  /\ (forall sub, Syslog.syslog natsorted tabulate db (Some sub)
                  = Syslog.Echoed []).
Proof.
  intros Hp. split; [|reflexivity].
  destruct (syslog_body_ok (db Syslog.SYSLOG_TABLE)
              (natsorted (Syslog.keys (db Syslog.SYSLOG_TABLE))))
    as (body & Hb & Hm & Hf & Hr).
  - intros k Hk. eapply Permutation_in; [apply Hp | exact Hk].
  - exists body. unfold Syslog.syslog, Syslog.format. rewrite Hb.
    split; [reflexivity|]. split; [assumption|].
    split; [rewrite Hm; apply Hp|]. split; assumption.
Qed.

(** X18. [rate_limit_host] never fails and prints one table of at most
    one row, which is there exactly when the table has the key GLOBAL
    and is as wide as the header; nothing but the entry of GLOBAL has a
    part in it. *)
Theorem rate_limit_host_only_global
  (tabulate : list (list string) -> list string -> string)
  (db : Syslog.ConfigDb) :
  (exists body,
     Syslog.rate_limit_host tabulate db
     = Syslog.Echoed [tabulate body Syslog.RATE_LIMIT_HOST_HEADER]
     /\ length body <= 1
     /\ (body = [] <->
         Syslog.get (db Syslog.SYSLOG_CONFIG_TABLE) "GLOBAL" = None)
     /\ Forall (fun row => length row
                           = length Syslog.RATE_LIMIT_HOST_HEADER) body)
  /\ (forall db',
        Syslog.get (db' Syslog.SYSLOG_CONFIG_TABLE) "GLOBAL"
        = Syslog.get (db Syslog.SYSLOG_CONFIG_TABLE) "GLOBAL" ->
        Syslog.rate_limit_host tabulate db'
        = Syslog.rate_limit_host tabulate db).
Proof.
  split.
  - unfold Syslog.rate_limit_host, Syslog.format.
    change Syslog.SYSLOG_CONFIG_GLOBAL_KEY with "GLOBAL".
    destruct (Syslog.get (db Syslog.SYSLOG_CONFIG_TABLE) "GLOBAL") as [e|].
    + eexists. split; [reflexivity|]. split; [cbn; lia|].
      split; [split; discriminate|]. now repeat constructor.
    + exists []. split; [reflexivity|]. split; [cbn; lia|].
      split; [tauto | constructor].
  - intros db' H. unfold Syslog.rate_limit_host.
    change Syslog.SYSLOG_CONFIG_GLOBAL_KEY with "GLOBAL". now rewrite H.
Qed.

(** X19. A name that is given is checked in this order: a name the
    FEATURE table does not have is a usage error, whatever the state; a
    service that is disabled or always_disabled is refused as disabled,
    also when it does not support the rate limit; only then is a service
    that does not support it refused for that. *)
Theorem rate_limit_container_refusals
  (natsorted : list string -> list string)
  (tabulate : list (list string) -> list string -> string)
  (db : Syslog.ConfigDb) (name : string) :
  name <> "" ->
  (Syslog.get (db Syslog.FEATURE_TABLE) name = None ->
   Syslog.rate_limit_container natsorted tabulate db (Some name)
   = Syslog.Raised
       (Syslog.UsageError
          ("Invalid service name " ++ name ++ ", please choose from: "
           ++ String.concat "," (Syslog.keys (db Syslog.FEATURE_TABLE)))))
  /\ (forall cfg state,
        Syslog.get (db Syslog.FEATURE_TABLE) name = Some cfg ->
        Syslog.get cfg "state" = Some state ->
        state = "disabled" \/ state = "always_disabled" ->
        Syslog.rate_limit_container natsorted tabulate db (Some name)
        = Syslog.Raised
            (Syslog.ClickException
               ("Service " ++ name ++ " is disabled, please enable it first")))
  /\ (forall cfg,
        Syslog.get (db Syslog.FEATURE_TABLE) name = Some cfg ->
        Syslog.is_disabled (Syslog.get cfg "state") = false ->
        Syslog.support_rate_limit cfg = false ->
        Syslog.rate_limit_container natsorted tabulate db (Some name)
        = Syslog.Raised
            (Syslog.ClickException
               ("Service " ++ name ++ " does not support syslog rate limit"))).
Proof.
  intros Hne. destruct name as [|c rest]; [contradiction|].
  unfold Syslog.rate_limit_container. cbn [Syslog.service_list].
  split; [|split].
  - intros ->. reflexivity.
  - intros cfg state -> -> [-> | ->]; reflexivity.
  - intros cfg -> -> ->. reflexivity.
Qed.

(** X20. When a name is given and the command prints, it prints one
    table of one row, the row of that service, and the service is in the
    FEATURE table, supports the rate limit and is not disabled. *)
Theorem rate_limit_container_named_row
  (natsorted : list string -> list string)
  (tabulate : list (list string) -> list string -> string)
  (db : Syslog.ConfigDb) (name : string) (out : list string) :
  (forall l, Permutation (natsorted l) l) ->
  name <> "" ->
  Syslog.rate_limit_container natsorted tabulate db (Some name)
  = Syslog.Echoed out ->
  out = [tabulate
           [Syslog.service_row (db Syslog.SYSLOG_CONFIG_FEATURE_TABLE) name]
           Syslog.RATE_LIMIT_CONTAINER_HEADER]
  /\ exists cfg,
       Syslog.get (db Syslog.FEATURE_TABLE) name = Some cfg
       /\ Syslog.support_rate_limit cfg = true
       /\ Syslog.is_disabled (Syslog.get cfg "state") = false.
Proof.
  intros Hp Hne. unfold Syslog.rate_limit_container.
  destruct (Syslog.service_list (db Syslog.FEATURE_TABLE) (Some name))
    as [e|l] eqn:Hl; [discriminate|].
  destruct (service_list_named _ _ _ Hne Hl) as [-> Hcfg].
  rewrite (natsorted_singleton natsorted name Hp). cbn.
  intros [= <-]. split; [reflexivity | exact Hcfg].
Qed.

(** X21. Without a name, or with the empty name, the command never fails
    and prints one table whose first column holds the features that
    support the rate limit and are neither disabled nor always_disabled,
    and only those, each once; every row is as wide as the header, and a
    service without an entry in SYSLOG_CONFIG_FEATURE reads N/A twice. *)
Theorem rate_limit_container_lists_supported
  (natsorted : list string -> list string)
  (tabulate : list (list string) -> list string -> string)
  (db : Syslog.ConfigDb) (service_name : option string) :
  (forall l, Permutation (natsorted l) l) ->
  service_name = None \/ service_name = Some "" ->
  exists body,
    Syslog.rate_limit_container natsorted tabulate db service_name
    = Syslog.Echoed [tabulate body Syslog.RATE_LIMIT_CONTAINER_HEADER]
    /\ (forall name,
          In name (map (hd "") body) <->
          exists cfg, In (name, cfg) (db Syslog.FEATURE_TABLE)
                      /\ Syslog.support_rate_limit cfg = true
                      /\ Syslog.is_disabled (Syslog.get cfg "state") = false)
    /\ Permutation (map (hd "") body)
         (Syslog.supported_services (db Syslog.FEATURE_TABLE))
    /\ length body <= length (db Syslog.FEATURE_TABLE)
    /\ Forall (fun row => length row
                          = length Syslog.RATE_LIMIT_CONTAINER_HEADER) body
    /\ (forall row, In row body ->
          Syslog.get (db Syslog.SYSLOG_CONFIG_FEATURE_TABLE) (hd "" row)
          = None ->
          row = [hd "" row; "N/A"; "N/A"]).
Proof.
  intros Hp Hname. unfold Syslog.rate_limit_container, Syslog.format.
  rewrite (service_list_unnamed _ _ Hname).
  eexists. split; [reflexivity|].
  rewrite map_hd_service_row. split; [|split; [|split; [|split]]].
  - intros name. rewrite <- In_supported_services. split; intros H.
    + eapply Permutation_in; [apply Hp | exact H].
    + eapply Permutation_in; [symmetry; apply Hp | exact H].
  - apply Hp.
  - rewrite length_map, (Permutation_length (Hp _)).
    unfold Syslog.supported_services.
    rewrite length_map. apply filter_length_le.
  - apply Forall_forall. intros row Hrow. apply in_map_iff in Hrow.
    destruct Hrow as (s & <- & _). apply service_row_length.
  - intros row Hrow. apply in_map_iff in Hrow.
    destruct Hrow as (s & <- & _). rewrite service_row_hd.
    unfold Syslog.service_row. now intros ->.
Qed.

(** X22. With distinct keys in the FEATURE table, the row printed for a
    service that is named is a row of the table printed without a name;
    and every row of that table whose service has a name that is not
    empty is the row printed when the service is named. *)
Theorem rate_limit_container_named_agrees_with_list
  (natsorted : list string -> list string)
  (tabulate : list (list string) -> list string -> string)
  (db : Syslog.ConfigDb) (name : string) :
  (forall l, Permutation (natsorted l) l) ->
  NoDup (Syslog.keys (db Syslog.FEATURE_TABLE)) ->
  name <> "" ->
  exists body,
    Syslog.rate_limit_container natsorted tabulate db None
    = Syslog.Echoed [tabulate body Syslog.RATE_LIMIT_CONTAINER_HEADER]
    /\ (In name (map (hd "") body) <->
        Syslog.rate_limit_container natsorted tabulate db (Some name)
        = Syslog.Echoed
            [tabulate
               [Syslog.service_row (db Syslog.SYSLOG_CONFIG_FEATURE_TABLE) name]
               Syslog.RATE_LIMIT_CONTAINER_HEADER])
    /\ (In name (map (hd "") body) ->
        In (Syslog.service_row (db Syslog.SYSLOG_CONFIG_FEATURE_TABLE) name)
           body).
Proof.
  intros Hp Hnd Hne.
  unfold Syslog.rate_limit_container at 1. unfold Syslog.format.
  rewrite (service_list_unnamed _ None (or_introl eq_refl)).
  eexists. split; [reflexivity|]. rewrite map_hd_service_row.
  assert (Hl : In name (natsorted (Syslog.supported_services
                                     (db Syslog.FEATURE_TABLE)))
               <-> In name (Syslog.supported_services
                              (db Syslog.FEATURE_TABLE))).
  { split; intros H.
    - eapply Permutation_in; [apply Hp | exact H].
    - eapply Permutation_in; [symmetry; apply Hp | exact H]. }
  split.
  - rewrite Hl, In_supported_services. split.
    + intros (cfg & Hin & Hs & Hd). apply (In_get _ _ _ Hnd) in Hin.
      destruct name as [|c rest]; [contradiction|].
      unfold Syslog.rate_limit_container. cbn [Syslog.service_list].
      rewrite Hin, Hd, Hs. cbn [negb].
      now rewrite (natsorted_singleton natsorted _ Hp).
    + unfold Syslog.rate_limit_container.
      destruct (Syslog.service_list (db Syslog.FEATURE_TABLE) (Some name))
        as [e|l] eqn:El; [discriminate|]. intros _.
      destruct (service_list_named _ _ _ Hne El) as [_ (cfg & Hg & Hs & Hd)].
      exists cfg. split; [now apply get_In | now split].
  - intros H. now apply in_map.
Qed.

(** ** The extra properties at sample inputs *)

Lemma stale_staging_is_overwritten_witness :
  sniffer_env_variable_set true ENV_VARIABLE_SX_SNIFFER
    (directive_line SAMPLE_TIME) W_PLAIN
  = (Ret false,
     after (sniffer_env_variable_set true ENV_VARIABLE_SX_SNIFFER
              (directive_line SAMPLE_TIME)) W_PLAIN)
  /\ exists w'',
       sniffer_env_variable_set true ENV_VARIABLE_SX_SNIFFER
         (directive_line SAMPLE_TIME) (set_staging (Some "stale") W_PLAIN)
       = (Ret false, w'')
       /\ remote w'' = Some (SAMPLE_PLAIN ++ directive_line SAMPLE_TIME).
Proof.
  assert (Hrun : sniffer_env_variable_set true ENV_VARIABLE_SX_SNIFFER
                   (directive_line SAMPLE_TIME) W_PLAIN
                 = (Ret false,
                    after (sniffer_env_variable_set true
                             ENV_VARIABLE_SX_SNIFFER
                             (directive_line SAMPLE_TIME)) W_PLAIN))
    by (vm_compute; reflexivity).
  split; [exact Hrun|].
  destruct (stale_staging_is_overwritten true ENV_VARIABLE_SX_SNIFFER
              (directive_line SAMPLE_TIME) (Some "stale") W_PLAIN _ _ Hrun)
    as (w'' & H1 & H2 & _).
  exists w''. split; [exact H1|]. rewrite H2. vm_compute. reflexivity.
Defined.


Lemma fetch_then_publish_keeps_fragment_witness :
  (conf_file_receive ;;; config_file_send) W_ENABLED
  = (Ret tt, after (conf_file_receive ;;; config_file_send) W_ENABLED)
  /\ remote (after (conf_file_receive ;;; config_file_send) W_ENABLED)
     = Some SAMPLE_ENABLED.
Proof.
  assert (Hrun : (conf_file_receive ;;; config_file_send) W_ENABLED
                 = (Ret tt,
                    after (conf_file_receive ;;; config_file_send) W_ENABLED))
    by (vm_compute; reflexivity).
  split; [exact Hrun|].
  destruct (fetch_then_publish_keeps_fragment W_ENABLED _ _ Hrun)
    as (_ & H & _).
  exact (proj1 (H eq_refl)).
Defined.

Lemma enable_appends_directive_witness :
  sdk_sniffer_enable W_PLAIN = (Ret tt, after sdk_sniffer_enable W_PLAIN)
  /\ remote (after sdk_sniffer_enable W_PLAIN)
     = Some (SAMPLE_PLAIN ++ directive_line SAMPLE_TIME).
Proof.
  assert (Hrun : sdk_sniffer_enable W_PLAIN
                 = (Ret tt, after sdk_sniffer_enable W_PLAIN))
    by (vm_compute; reflexivity).
  split; [exact Hrun|].
  destruct (enable_appends_directive W_PLAIN _ Hrun) as (_ & _ & H).
  apply H; [vm_compute; reflexivity | discriminate].
Defined.

Lemma disable_removes_located_line_witness :
  sdk_sniffer_disable W_FOUR_LINES_CRLF
  = (Ret tt, after sdk_sniffer_disable W_FOUR_LINES_CRLF)
  /\ text_lines (fragment (after sdk_sniffer_disable W_FOUR_LINES_CRLF))
     = [PROGRAM_HEADER; SAMPLE_X; SAMPLE_Y]
  /\ no_cr (fragment (after sdk_sniffer_disable W_FOUR_LINES_CRLF)) = true.
Proof.
  assert (Hrun : sdk_sniffer_disable W_FOUR_LINES_CRLF
                 = (Ret tt, after sdk_sniffer_disable W_FOUR_LINES_CRLF))
    by (vm_compute; reflexivity).
  split; [exact Hrun|].
  destruct (disable_removes_located_line W_FOUR_LINES_CRLF _ Hrun)
    as (H & Hfound & _).
  split; [rewrite H; vm_compute; reflexivity|].
  apply Hfound. vm_compute. discriminate.
Defined.

Lemma enable_then_disable_restores_fragment_witness :
  (fragment W_TWO_LINES_CRLF <> ""
   /\ terminated (universal_newlines (fragment W_TWO_LINES_CRLF)) = true
   /\ located ENV_VARIABLE_SX_SNIFFER (fragment W_TWO_LINES_CRLF) = ""
   /\ is_time_stamp (now W_TWO_LINES_CRLF) = true
   /\ sdk_sniffer_enable W_TWO_LINES_CRLF
      = (Ret tt, after sdk_sniffer_enable W_TWO_LINES_CRLF)
   /\ sdk_sniffer_disable
        (set_now SAMPLE_LATER (after sdk_sniffer_enable W_TWO_LINES_CRLF))
      = (Ret tt,
         after sdk_sniffer_disable
           (set_now SAMPLE_LATER
              (after sdk_sniffer_enable W_TWO_LINES_CRLF))))
  /\ remote (after sdk_sniffer_disable
               (set_now SAMPLE_LATER
                  (after sdk_sniffer_enable W_TWO_LINES_CRLF)))
     = Some SAMPLE_TWO_LINES.
Proof.
  assert (H1 : sdk_sniffer_enable W_TWO_LINES_CRLF
               = (Ret tt, after sdk_sniffer_enable W_TWO_LINES_CRLF))
    by (vm_compute; reflexivity).
  assert (H2 : sdk_sniffer_disable
                 (set_now SAMPLE_LATER
                    (after sdk_sniffer_enable W_TWO_LINES_CRLF))
               = (Ret tt,
                  after sdk_sniffer_disable
                    (set_now SAMPLE_LATER
                       (after sdk_sniffer_enable W_TWO_LINES_CRLF))))
    by (vm_compute; reflexivity).
  split.
  - split_all; try (vm_compute; reflexivity); try assumption. discriminate.
  - exact (proj1
             (enable_then_disable_restores_fragment W_TWO_LINES_CRLF _
                SAMPLE_LATER _
                ltac:(discriminate) ltac:(vm_compute; reflexivity)
                ltac:(vm_compute; reflexivity) ltac:(vm_compute; reflexivity)
                H1 H2)).
Defined.

Lemma unterminated_last_line_is_lost_witness :
  (universal_newlines (fragment W_UNTERMINATED_CRLF)
   = PROGRAM_HEADER ++ SAMPLE_LAST
   /\ SAMPLE_LAST <> ""
   /\ terminated PROGRAM_HEADER = true
   /\ no_newline SAMPLE_LAST = true
   /\ located ENV_VARIABLE_SX_SNIFFER (fragment W_UNTERMINATED_CRLF) = ""
   /\ is_time_stamp (now W_UNTERMINATED_CRLF) = true
   /\ sdk_sniffer_enable W_UNTERMINATED_CRLF
      = (Ret tt, after sdk_sniffer_enable W_UNTERMINATED_CRLF)
   /\ sdk_sniffer_disable
        (set_now SAMPLE_LATER (after sdk_sniffer_enable W_UNTERMINATED_CRLF))
      = (Ret tt,
         after sdk_sniffer_disable
           (set_now SAMPLE_LATER
              (after sdk_sniffer_enable W_UNTERMINATED_CRLF))))
  /\ remote (after sdk_sniffer_disable
               (set_now SAMPLE_LATER
                  (after sdk_sniffer_enable W_UNTERMINATED_CRLF)))
     = Some PROGRAM_HEADER.
Proof.
  assert (H1 : sdk_sniffer_enable W_UNTERMINATED_CRLF
               = (Ret tt, after sdk_sniffer_enable W_UNTERMINATED_CRLF))
    by (vm_compute; reflexivity).
  assert (H2 : sdk_sniffer_disable
                 (set_now SAMPLE_LATER
                    (after sdk_sniffer_enable W_UNTERMINATED_CRLF))
               = (Ret tt,
                  after sdk_sniffer_disable
                    (set_now SAMPLE_LATER
                       (after sdk_sniffer_enable W_UNTERMINATED_CRLF))))
    by (vm_compute; reflexivity).
  split.
  - split_all; try (vm_compute; reflexivity); try assumption. discriminate.
  - exact (proj1 (proj2
             (unterminated_last_line_is_lost W_UNTERMINATED_CRLF _
                SAMPLE_LATER _ PROGRAM_HEADER SAMPLE_LAST
                ltac:(vm_compute; reflexivity) ltac:(discriminate)
                ltac:(vm_compute; reflexivity) ltac:(vm_compute; reflexivity)
                ltac:(vm_compute; reflexivity) ltac:(vm_compute; reflexivity)
                H1 H2))).
Defined.

Lemma success_message_iff_restarted_witness :
  (sdk_sniffer_enable W_EMPTY = (Ret tt, after sdk_sniffer_enable W_EMPTY)
   /\ sdk_sniffer_enable W_RESTART_FAILS
      = (Ret tt, after sdk_sniffer_enable W_RESTART_FAILS))
  /\ In (EvEcho (MSG_ENABLED (sniffer_filename SAMPLE_TIME)))
        (new_events W_EMPTY (after sdk_sniffer_enable W_EMPTY))
  /\ ~ In (EvEcho (MSG_ENABLED (sniffer_filename SAMPLE_TIME)))
          (new_events W_RESTART_FAILS
             (after sdk_sniffer_enable W_RESTART_FAILS)).
Proof.
  assert (H1 : sdk_sniffer_enable W_EMPTY
               = (Ret tt, after sdk_sniffer_enable W_EMPTY))
    by (vm_compute; reflexivity).
  assert (H2 : sdk_sniffer_enable W_RESTART_FAILS
               = (Ret tt, after sdk_sniffer_enable W_RESTART_FAILS))
    by (vm_compute; reflexivity).
  split; [split; assumption|]. split.
  - apply (proj2 (success_message_iff_restarted true W_EMPTY _ H1)).
    split; [reflexivity|]. vm_compute.
    repeat (first [left; reflexivity | right]).
  - intros Hmsg.
    apply (proj1 (success_message_iff_restarted true W_RESTART_FAILS _ H2))
      in Hmsg.
    destruct Hmsg as [_ Hin]. vm_compute in Hin.
    repeat (destruct Hin as [Hin|Hin]; [discriminate Hin|]).
    exact Hin.
Defined.


Lemma im_enabled_appends_mode_line_first_witness :
  (Im.module_host_management_mode SAMPLE_HOST = false
   /\ Im.enabled sample_json_load sample_json_dump SAMPLE_HOST
      = (Ret None,
         snd (Im.enabled sample_json_load sample_json_dump SAMPLE_HOST)))
  /\ Im.fs (snd (Im.enabled sample_json_load sample_json_dump SAMPLE_HOST))
       (Im.path_join SAMPLE_HWSKU_DIR "sai.profile")
     = Some (SAMPLE_PROFILE ++ Im.MODE_LINE).
Proof.
  assert (Hrun : Im.enabled sample_json_load sample_json_dump SAMPLE_HOST
                 = (Ret None,
                    snd (Im.enabled sample_json_load sample_json_dump
                           SAMPLE_HOST)))
    by (vm_compute; reflexivity).
  split; [split; [reflexivity | exact Hrun]|].
  exact (im_enabled_appends_mode_line_first sample_json_load
           sample_json_dump SAMPLE_HOST _ _ eq_refl Hrun).
Defined.

Lemma im_enabled_writes_control_file_witness :
  (Im.module_host_management_mode SAMPLE_HOST = false
   /\ Im.enabled sample_json_load sample_json_dump SAMPLE_HOST
      = (Ret None,
         snd (Im.enabled sample_json_load sample_json_dump SAMPLE_HOST)))
  /\ exists items',
       Im.fs (snd (Im.enabled sample_json_load sample_json_dump SAMPLE_HOST))
         (Im.path_join SAMPLE_HWSKU_DIR "pmon_daemon_control.json")
       = Some (sample_json_dump (Im.JObject items'))
       /\ Im.getitem items' "skip_xcvrd_cmis_mgr" = Some (Im.JBool false)
       /\ Im.getitem items' "enable_xcvrd_sff_mgr" = Some (Im.JBool true)
       /\ Im.getitem items' "skip_ledd" = Some (Im.JBool true).
Proof.
  assert (Hrun : Im.enabled sample_json_load sample_json_dump SAMPLE_HOST
                 = (Ret None,
                    snd (Im.enabled sample_json_load sample_json_dump
                           SAMPLE_HOST)))
    by (vm_compute; reflexivity).
  split; [split; [reflexivity | exact Hrun]|].
  destruct (proj1 (im_enabled_writes_control_file sample_json_load
                     sample_json_dump SAMPLE_HOST _ _ eq_refl Hrun) eq_refl)
    as (text & items & items' & Ht & Hj & Hfs & Hs & He & Hk).
  exists items'. split; [exact Hfs|]. split; [exact Hs|]. split; [exact He|].
  rewrite Hk by discriminate.
  assert (text = SAMPLE_CONTROL) as ->
      by (vm_compute in Ht; now injection Ht as <-).
  vm_compute in Hj. injection Hj as <-. reflexivity.
Defined.

Lemma im_enabled_copies_first_existing_witness :
  (Im.module_host_management_mode SAMPLE_HOST = false
   /\ Im.enabled sample_json_load sample_json_dump SAMPLE_HOST
      = (Ret None,
         snd (Im.enabled sample_json_load sample_json_dump SAMPLE_HOST)))
  /\ Im.fs (snd (Im.enabled sample_json_load sample_json_dump SAMPLE_HOST))
       (Im.path_join SAMPLE_HWSKU_DIR "media_settings.json")
     = Im.fs SAMPLE_HOST Im.MEDIA_O8V48
  /\ Im.fs (snd (Im.enabled sample_json_load sample_json_dump SAMPLE_HOST))
       (Im.path_join SAMPLE_HWSKU_DIR "optics_si_settings.json")
     = Im.fs SAMPLE_HOST Im.OPTICS_O8C48.
Proof.
  assert (Hrun : Im.enabled sample_json_load sample_json_dump SAMPLE_HOST
                 = (Ret None,
                    snd (Im.enabled sample_json_load sample_json_dump
                           SAMPLE_HOST)))
    by (vm_compute; reflexivity).
  split; [split; [reflexivity | exact Hrun]|].
  destruct (im_enabled_copies_first_existing sample_json_load
              sample_json_dump SAMPLE_HOST _ eq_refl Hrun)
    as [(c1 & Hs1 & Hd1) (c2 & Hs2 & Hd2)].
  split.
  - transitivity (Some c1); [exact Hd1 | symmetry; exact Hs1].
  - transitivity (Some c2); [exact Hd2 | symmetry; exact Hs2].
Defined.

Lemma im_disabled_removes_mode_lines_witness :
  (Im.module_host_management_mode SAMPLE_HOST_CRLF_ENABLED = true
   /\ Im.disabled SAMPLE_HOST_CRLF_ENABLED
      = (Ret None, snd (Im.disabled SAMPLE_HOST_CRLF_ENABLED)))
  /\ Im.fs (snd (Im.disabled SAMPLE_HOST_CRLF_ENABLED))
       (Im.path_join SAMPLE_HWSKU_DIR "sai.profile") = Some SAMPLE_PROFILE
  /\ Im.fs (snd (Im.disabled SAMPLE_HOST_CRLF_ENABLED))
       (Im.path_join SAMPLE_HWSKU_DIR "pmon_daemon_control.json")
     = None
  /\ fst (Im.disabled SAMPLE_HOST_UNDECODABLE) = Raise UNICODE_DECODE_ERROR
  /\ snd (Im.disabled SAMPLE_HOST_UNDECODABLE) = SAMPLE_HOST_UNDECODABLE.
Proof.
  assert (Hrun : Im.disabled SAMPLE_HOST_CRLF_ENABLED
                 = (Ret None, snd (Im.disabled SAMPLE_HOST_CRLF_ENABLED)))
    by (vm_compute; reflexivity).
  split; [split; [reflexivity | exact Hrun]|].
  pose proof (im_disabled_removes_mode_lines SAMPLE_HOST_CRLF_ENABLED _ _
                eq_refl Hrun) as H.
  assert (Hfs : Im.fs SAMPLE_HOST_CRLF_ENABLED
                  (Im.path_join (Im.hwsku_dir SAMPLE_HOST_CRLF_ENABLED)
                     "sai.profile")
                = Some (SAMPLE_PROFILE_CRLF ++ Im.MODE_LINE))
    by (vm_compute; reflexivity).
  rewrite Hfs in H.
  assert (Hv : valid_utf8 (SAMPLE_PROFILE_CRLF ++ Im.MODE_LINE) = true)
    by (vm_compute; reflexivity).
  rewrite Hv in H. destruct H as (c' & Hc & Heq & _ & _ & _ & _ & Hrm).
  split; [|split].
  - transitivity (Some c'); [exact Hc|]. rewrite Heq. vm_compute. reflexivity.
  - exact (proj1 (Hrm eq_refl)).
  - pose proof (im_disabled_removes_mode_lines SAMPLE_HOST_UNDECODABLE
                  (fst (Im.disabled SAMPLE_HOST_UNDECODABLE))
                  (snd (Im.disabled SAMPLE_HOST_UNDECODABLE))
                  eq_refl ltac:(vm_compute; reflexivity)) as Hu.
    assert (Hfu : Im.fs SAMPLE_HOST_UNDECODABLE
                    (Im.path_join (Im.hwsku_dir SAMPLE_HOST_UNDECODABLE)
                       "sai.profile")
                  = Some SAMPLE_UNDECODABLE)
      by (vm_compute; reflexivity).
    rewrite Hfu in Hu.
    assert (Hvu : valid_utf8 SAMPLE_UNDECODABLE = false)
      by (vm_compute; reflexivity).
    rewrite Hvu in Hu. exact Hu.
Defined.

Lemma im_enabled_then_disabled_witness :
  (Im.module_host_management_mode SAMPLE_HOST_CRLF = false
   /\ Im.fs SAMPLE_HOST_CRLF
        (Im.path_join (Im.hwsku_dir SAMPLE_HOST_CRLF) "sai.profile")
      = Some SAMPLE_PROFILE_CRLF
   /\ universal_newlines SAMPLE_PROFILE_CRLF = SAMPLE_PROFILE ++ ""
   /\ terminated SAMPLE_PROFILE = true
   /\ no_newline "" = true
   /\ located Im.MODE_KEY SAMPLE_PROFILE_CRLF = ""
   /\ Im.enabled sample_json_load sample_json_dump SAMPLE_HOST_CRLF
      = (Ret None,
         snd (Im.enabled sample_json_load sample_json_dump SAMPLE_HOST_CRLF))
   /\ Im.disabled SAMPLE_HOST_CRLF_ENABLED
      = (Ret None, snd (Im.disabled SAMPLE_HOST_CRLF_ENABLED)))
  /\ Im.fs (snd (Im.enabled sample_json_load sample_json_dump
                   SAMPLE_HOST_CRLF))
       (Im.path_join (Im.hwsku_dir SAMPLE_HOST_CRLF) "sai.profile")
     = Some (SAMPLE_PROFILE_CRLF ++ Im.MODE_LINE)
  /\ Im.fs (snd (Im.disabled SAMPLE_HOST_CRLF_ENABLED))
       (Im.path_join (Im.hwsku_dir SAMPLE_HOST_CRLF) "sai.profile")
     = Some SAMPLE_PROFILE.
Proof.
  assert (H1 : Im.enabled sample_json_load sample_json_dump SAMPLE_HOST_CRLF
               = (Ret None,
                  snd (Im.enabled sample_json_load sample_json_dump
                         SAMPLE_HOST_CRLF)))
    by (vm_compute; reflexivity).
  assert (H2 : Im.disabled SAMPLE_HOST_CRLF_ENABLED
               = (Ret None, snd (Im.disabled SAMPLE_HOST_CRLF_ENABLED)))
    by (vm_compute; reflexivity).
  split.
  - split_all; try (vm_compute; reflexivity); assumption.
  - pose proof (im_enabled_then_disabled sample_json_load sample_json_dump
                  SAMPLE_HOST_CRLF _ _ _ _ SAMPLE_PROFILE_CRLF
                  SAMPLE_PROFILE ""
                  eq_refl ltac:(vm_compute; reflexivity)
                  ltac:(vm_compute; reflexivity)
                  ltac:(vm_compute; reflexivity) eq_refl
                  ltac:(vm_compute; reflexivity) H1 H2) as [Ha Hb].
    split; [exact Ha|].
    assert (Hv : valid_utf8 SAMPLE_PROFILE_CRLF = true)
      by (vm_compute; reflexivity).
    rewrite Hv in Hb. exact (proj1 Hb).
Defined.

Lemma im_commands_touch_only_hwsku_files_witness :
  Im.enabled sample_json_load sample_json_dump SAMPLE_HOST
  = (Ret None, snd (Im.enabled sample_json_load sample_json_dump SAMPLE_HOST))
  /\ Im.fs (snd (Im.enabled sample_json_load sample_json_dump SAMPLE_HOST))
       (Im.path_join SAMPLE_PLATFORM_DIR "pmon_daemon_control.json")
     = Some SAMPLE_CONTROL.
Proof.
  assert (Hrun : Im.enabled sample_json_load sample_json_dump SAMPLE_HOST
                 = (Ret None,
                    snd (Im.enabled sample_json_load sample_json_dump
                           SAMPLE_HOST)))
    by (vm_compute; reflexivity).
  split; [exact Hrun|].
  destruct (im_commands_touch_only_hwsku_files sample_json_load
              sample_json_dump SAMPLE_HOST _ _ (or_introl Hrun)) as [H _].
  rewrite H; [vm_compute; reflexivity | | | |];
    apply String.eqb_neq; vm_compute; reflexivity.
Defined.

Lemma syslog_one_row_per_server_witness :
  (forall l, Permutation (sample_sorted l) l)
  /\ exists body,
       Syslog.syslog sample_sorted sample_tabulate SAMPLE_DB None
       = Syslog.Echoed [sample_tabulate body Syslog.SYSLOG_HEADER]
       /\ map (hd "") body = ["10.0.0.1"; "2.2.2.2"].
Proof.
  split; [exact sample_sorted_perm|].
  destruct (proj1 (syslog_one_row_per_server sample_sorted sample_tabulate
                     SAMPLE_DB sample_sorted_perm))
    as (body & Hrun & Hkeys & _).
  exists body. split; [exact Hrun|]. rewrite Hkeys. vm_compute. reflexivity.
Defined.

Lemma rate_limit_container_refusals_witness :
  "snmp" <> ""
  /\ Syslog.rate_limit_container sample_sorted sample_tabulate SAMPLE_DB
       (Some "snmp")
     = Syslog.Raised
         (Syslog.ClickException
            "Service snmp is disabled, please enable it first")
  /\ Syslog.rate_limit_container sample_sorted sample_tabulate SAMPLE_DB
       (Some "telemetry")
     = Syslog.Raised
         (Syslog.ClickException
            "Service telemetry is disabled, please enable it first")
  /\ Syslog.rate_limit_container sample_sorted sample_tabulate SAMPLE_DB
       (Some "lldp")
     = Syslog.Raised
         (Syslog.ClickException
            "Service lldp does not support syslog rate limit")
  /\ Syslog.rate_limit_container sample_sorted sample_tabulate SAMPLE_DB
       (Some "syncd")
     = Syslog.Raised
         (Syslog.UsageError
            "Invalid service name syncd, please choose from: swss,bgp,telemetry,snmp,lldp").
Proof.
  split; [discriminate|]. split_all.
  - eapply (proj1 (proj2 (rate_limit_container_refusals sample_sorted
                            sample_tabulate SAMPLE_DB "snmp"
                            ltac:(discriminate))));
      [vm_compute; reflexivity | vm_compute; reflexivity | now right].
  - eapply (proj1 (proj2 (rate_limit_container_refusals sample_sorted
                            sample_tabulate SAMPLE_DB "telemetry"
                            ltac:(discriminate))));
      [vm_compute; reflexivity | vm_compute; reflexivity | now left].
  - eapply (proj2 (proj2 (rate_limit_container_refusals sample_sorted
                            sample_tabulate SAMPLE_DB "lldp"
                            ltac:(discriminate))));
      vm_compute; reflexivity.
  - apply (proj1 (rate_limit_container_refusals sample_sorted
                    sample_tabulate SAMPLE_DB "syncd" ltac:(discriminate))).
    vm_compute. reflexivity.
Defined.

Lemma rate_limit_container_named_row_witness :
  ((forall l, Permutation (sample_sorted l) l)
   /\ "swss" <> ""
   /\ Syslog.rate_limit_container sample_sorted sample_tabulate SAMPLE_DB
        (Some "swss")
      = Syslog.Echoed
          [sample_tabulate [["swss"; "N/A"; "N/A"]]
             Syslog.RATE_LIMIT_CONTAINER_HEADER])
  /\ exists cfg,
       Syslog.get (SAMPLE_DB Syslog.FEATURE_TABLE) "swss" = Some cfg
       /\ Syslog.support_rate_limit cfg = true.
Proof.
  assert (Hrun : Syslog.rate_limit_container sample_sorted sample_tabulate
                   SAMPLE_DB (Some "swss")
                 = Syslog.Echoed
                     [sample_tabulate [["swss"; "N/A"; "N/A"]]
                        Syslog.RATE_LIMIT_CONTAINER_HEADER])
    by (vm_compute; reflexivity).
  split; [split_all; [exact sample_sorted_perm | discriminate | exact Hrun]|].
  destruct (rate_limit_container_named_row sample_sorted sample_tabulate
              SAMPLE_DB "swss" _ sample_sorted_perm ltac:(discriminate) Hrun)
    as (_ & cfg & Hg & Hs & _).
  exists cfg. split; assumption.
Defined.

Lemma rate_limit_container_lists_supported_witness :
  (forall l, Permutation (sample_sorted l) l)
  /\ exists body,
       Syslog.rate_limit_container sample_sorted sample_tabulate SAMPLE_DB None
       = Syslog.Echoed
           [sample_tabulate body Syslog.RATE_LIMIT_CONTAINER_HEADER]
       /\ In "bgp" (map (hd "") body)
       /\ ~ In "snmp" (map (hd "") body).
Proof.
  split; [exact sample_sorted_perm|].
  destruct (rate_limit_container_lists_supported sample_sorted sample_tabulate
              SAMPLE_DB None sample_sorted_perm (or_introl eq_refl))
    as (body & Hrun & Hin & _).
  exists body. split; [exact Hrun|]. split.
  - apply Hin. eexists. split; [right; left; reflexivity|].
    split; vm_compute; reflexivity.
  - intros H. apply Hin in H. destruct H as (cfg & Hcfg & _ & Hd).
    vm_compute in Hcfg.
    repeat (destruct Hcfg as [Hcfg|Hcfg];
            [try discriminate Hcfg; injection Hcfg as <-; discriminate Hd|]).
    exact Hcfg.
Defined.

Lemma rate_limit_container_named_agrees_with_list_witness :
  ((forall l, Permutation (sample_sorted l) l)
   /\ NoDup (Syslog.keys (SAMPLE_DB Syslog.FEATURE_TABLE))
   /\ "bgp" <> "")
  /\ exists body,
       Syslog.rate_limit_container sample_sorted sample_tabulate SAMPLE_DB None
       = Syslog.Echoed
           [sample_tabulate body Syslog.RATE_LIMIT_CONTAINER_HEADER]
       /\ In ["bgp"; "100"; "5"] body.
Proof.
  assert (Hnd : NoDup (Syslog.keys (SAMPLE_DB Syslog.FEATURE_TABLE))).
  { vm_compute.
    repeat (constructor;
            [intros H; repeat (destruct H as [H|H]; [discriminate H|]);
             exact H|]).
    constructor. }
  split; [split_all; [exact sample_sorted_perm | exact Hnd | discriminate]|].
  destruct (rate_limit_container_named_agrees_with_list sample_sorted
              sample_tabulate SAMPLE_DB "bgp" sample_sorted_perm Hnd
              ltac:(discriminate))
    as (body & Hrun & Hiff & Hrow).
  exists body. split; [exact Hrun|].
  change ["bgp"; "100"; "5"]
    with (Syslog.service_row (SAMPLE_DB Syslog.SYSLOG_CONFIG_FEATURE_TABLE)
            "bgp").
  apply Hrow, Hiff. vm_compute. reflexivity.
Defined.
